(** * A shallow embedding of [app.py], the video search and download backend

    The service is a Flask application with three JSON endpoints
    ([/search], [/info], [/download]) in front of the [yt_dlp] extractor, a
    scratch directory [temp_downloads] whose files are streamed back and then
    removed, and a start-up sweep of that directory.

    Layout of the development:
    - [Py]: the fragment of Python's dynamic values and built-in operations
      the handlers rely on ([dict.get], truthiness, [str.strip], indexing,
      f-string rendering), with exceptions as an error monad;
    - [Os]: the file system as a finite map from paths to nodes, with
      [os.path.exists], [os.remove], [os.listdir], [os.path.join] and
      [os.path.splitext];
    - [App]: the functions of [app.py], parameterised by the extractor and by
      [urllib.parse.urlparse], over a world made of the file system, the
      process environment and a chronological trace of observable events;
    - [Stub]: concrete extractors used in the worked scenarios;
    - the properties.

    Strings hold the UTF-8 encoding of Python's text, so that a character
    is one to four bytes. Floating-point values do not occur in any
    decision the handlers take and are left out of [Py.pyval]. The process
    is taken to run in the directory of [app.py] (Flask's [app.root_path]),
    as [python app.py] does when started there: a relative path then names
    the same file for the extractor, for [os] and for [flask.send_file]. *)

From Stdlib Require Import Ascii.
From stdpp Require Import gmap strings list fin_maps pretty.

Local Open Scope Z_scope.

(** ** Python values and exceptions *)

Module Py.

#[warnings="-register-all"]
Inductive pyval : Type :=
| PNone
| PBool (b : bool)
| PInt (n : Z)
| PStr (s : string)
| PList (xs : list pyval)
| PDict (kvs : list (string * pyval)).

Inductive exc_kind :=
| AttributeError | TypeError | IndexError | KeyError | ValueError
| FileNotFoundError | IsADirectoryError | NotADirectoryError
| FileExistsError | PermissionError
| DownloadError.

(** An exception: its class and the text [str(e)] renders. *)
Record exc := Exc { exc_class : exc_kind; exc_str : string }.

Inductive result (A : Type) : Type :=
| Ok (a : A)
| Raise (e : exc).
Arguments Ok {A} a.
Arguments Raise {A} e.

Definition rbind {A B} (r : result A) (k : A → result B) : result B :=
  match r with
  | Ok a => k a
  | Raise e => Raise e
  end.

Definition raises {A} (r : result A) : Prop := ∃ e, r = Raise e.

(** *** Strings

    A string holds the UTF-8 encoding of a Python [str]. A character of the
    text (a code point) is an ASCII byte, or a lead byte together with the
    continuation bytes that follow it. *)

Definition dquote : ascii := "034"%char.

Definition is_ascii_byte (c : ascii) : bool := (nat_of_ascii c <? 128)%nat.

(** A continuation byte, [10xxxxxx]. *)
Definition is_cont (c : ascii) : bool :=
  let n := nat_of_ascii c in ((128 <=? n) && (n <? 192))%nat.

Definition starts_with_cont (s : string) : bool :=
  match s with
  | String c _ => is_cont c
  | EmptyString => false
  end.

(** The characters of a text, in order, each as its bytes. *)
Fixpoint chars (s : string) : list string :=
  match s with
  | EmptyString => []
  | String c r =>
      match chars r with
      | g :: gs =>
          if negb (is_ascii_byte c) && starts_with_cont g
          then String c g :: gs
          else String c "" :: g :: gs
      | [] => [String c ""]
      end
  end.

(** The text made of the given characters. *)
Definition unchars (gs : list string) : string := foldr String.append "" gs.

(** The UTF-8 encoding of a code point. *)
Definition utf8 (cp : N) : string :=
  let byte (n : N) := ascii_of_N n in
  let cont (n : N) := byte (128 + n mod 64)%N in
  if (cp <? 128)%N then String (byte cp) ""
  else if (cp <? 2048)%N
  then String (byte (192 + cp / 64)%N) (String (cont cp) "")
  else if (cp <? 65536)%N
  then String (byte (224 + cp / 4096)%N)
         (String (cont (cp / 64)%N) (String (cont cp) ""))
  else String (byte (240 + cp / 262144)%N)
         (String (cont (cp / 4096)%N)
            (String (cont (cp / 64)%N) (String (cont cp) ""))).

(** The code points [str.isspace()] accepts, which are the ones
    [str.strip()] removes: TAB, LF, VT, FF, CR, FS, GS, RS, US, SPACE,
    U+0085, U+00A0, U+1680, U+2000 to U+200A, U+2028, U+2029, U+202F,
    U+205F and U+3000. *)
Definition whitespace : list N :=
  [9; 10; 11; 12; 13; 28; 29; 30; 31; 32; 133; 160; 5760;
   8192; 8193; 8194; 8195; 8196; 8197; 8198; 8199; 8200; 8201; 8202;
   8232; 8233; 8239; 8287; 12288]%N.

Definition space_chars : list string := Eval vm_compute in map utf8 whitespace.

Definition is_space_char (g : string) : bool :=
  existsb (String.eqb g) space_chars.

(** The ASCII characters among them. *)
Definition is_space (c : ascii) : bool :=
  let n := nat_of_ascii c in
  ((9 <=? n) && (n <=? 13) || (28 <=? n) && (n <=? 32))%nat.

Fixpoint lstrip_chars (gs : list string) : list string :=
  match gs with
  | g :: r => if is_space_char g then lstrip_chars r else gs
  | [] => []
  end.

Fixpoint rstrip_chars (gs : list string) : list string :=
  match gs with
  | g :: r =>
      match rstrip_chars r with
      | [] => if is_space_char g then [] else [g]
      | r' => g :: r'
      end
  | [] => []
  end.

(** [s.strip()] *)
Definition strip (s : string) : string :=
  unchars (rstrip_chars (lstrip_chars (chars s))).

(** [needle in hay] on strings. *)
Fixpoint contains (needle hay : string) : bool :=
  String.prefix needle hay ||
  match hay with
  | String _ r => contains needle r
  | EmptyString => false
  end.

(** The first [n] bytes of [s]. *)
Fixpoint take_str (n : nat) (s : string) : string :=
  match n, s with
  | S n', String c r => String c (take_str n' r)
  | _, _ => ""
  end.

(** [s[:n]]: the first [n] characters of [s]. *)
Definition take_chars (n : nat) (s : string) : string :=
  unchars (take n (chars s)).

(** The last character of [s]. *)
Definition last_char (s : string) : option string := last (chars s).

Fixpoint mem_char (c : ascii) (s : string) : bool :=
  match s with
  | EmptyString => false
  | String d r => Ascii.eqb c d || mem_char c r
  end.

(** *** Truthiness, comparison with a string literal *)

Definition truthy (v : pyval) : bool :=
  match v with
  | PNone => false
  | PBool b => b
  | PInt n => negb (n =? 0)
  | PStr s => negb (String.eqb s "")
  | PList xs => match xs with [] => false | _ => true end
  | PDict kvs => match kvs with [] => false | _ => true end
  end.

(** [v == "lit"]: only a string equals a string. *)
Definition eq_str (v : pyval) (lit : string) : bool :=
  match v with
  | PStr s => String.eqb s lit
  | _ => false
  end.

(** [a or b] *)
Definition por (a b : pyval) : pyval := if truthy a then a else b.

(** *** Dictionaries

    A dict is kept as an association list in insertion order; keys are
    unique in every dict built here, and lookup takes the first binding. *)

Fixpoint assoc (k : string) (kvs : list (string * pyval)) : option pyval :=
  match kvs with
  | [] => None
  | (k', v) :: r => if String.eqb k k' then Some v else assoc k r
  end.

(** [d[k] = v] keeps the position of an existing key. *)
Fixpoint assoc_set (k : string) (v : pyval) (kvs : list (string * pyval))
  : list (string * pyval) :=
  match kvs with
  | [] => [(k, v)]
  | (k', v') :: r =>
      if String.eqb k k' then (k, v) :: r else (k', v') :: assoc_set k v r
  end.

(** [d.update(other)] *)
Definition assoc_update (kvs other : list (string * pyval))
  : list (string * pyval) :=
  fold_left (λ acc kv, assoc_set kv.1 kv.2 acc) other kvs.

(** [type(v).__name__] *)
Definition type_name (v : pyval) : string :=
  match v with
  | PNone => "NoneType"
  | PBool _ => "bool"
  | PInt _ => "int"
  | PStr _ => "str"
  | PList _ => "list"
  | PDict _ => "dict"
  end.

(** The exceptions below carry the texts of CPython 3.12. *)
Definition attribute_error (v : pyval) (what : string) : exc :=
  Exc AttributeError
    ("'" +:+ type_name v +:+ "' object has no attribute '" +:+ what +:+ "'").

Definition not_subscriptable (v : pyval) : exc :=
  Exc TypeError ("'" +:+ type_name v +:+ "' object is not subscriptable").

Definition not_iterable (v : pyval) : exc :=
  Exc TypeError ("'" +:+ type_name v +:+ "' object is not iterable").

(** [v.get(k, default)] *)
Definition get (v : pyval) (k : string) (dflt : pyval) : result pyval :=
  match v with
  | PDict kvs => Ok (default dflt (assoc k kvs))
  | _ => Raise (attribute_error v "get")
  end.

(** [v.get(k)] *)
Definition get1 (v : pyval) (k : string) : result pyval := get v k PNone.

(** [v[k]] for a string key *)
Definition getitem (v : pyval) (k : string) : result pyval :=
  match v with
  | PDict kvs =>
      match assoc k kvs with
      | Some x => Ok x
      | None => Raise (Exc KeyError ("'" +:+ k +:+ "'"))
      end
  | PStr _ => Raise (Exc TypeError "string indices must be integers, not 'str'")
  | PList _ => Raise (Exc TypeError "list indices must be integers or slices, not str")
  | _ => Raise (not_subscriptable v)
  end.

(** [v[-1]] *)
Definition index_last (v : pyval) : result pyval :=
  match v with
  | PList xs =>
      match last xs with
      | Some x => Ok x
      | None => Raise (Exc IndexError "list index out of range")
      end
  | PStr s =>
      match last_char s with
      | Some c => Ok (PStr c)
      | None => Raise (Exc IndexError "string index out of range")
      end
  | PDict _ => Raise (Exc KeyError "-1")
  | _ => Raise (not_subscriptable v)
  end.

(** [v[:n]]; a dict looks the slice up as a key. *)
Definition slice_to (n : nat) (v : pyval) : result pyval :=
  match v with
  | PStr s => Ok (PStr (take_chars n s))
  | PList xs => Ok (PList (take n xs))
  | PDict _ =>
      Raise (Exc KeyError ("slice(None, " +:+ pretty (Z.of_nat n) +:+ ", None)"))
  | _ => Raise (not_subscriptable v)
  end.

(** [v.strip()] *)
Definition strip_method (v : pyval) : result string :=
  match v with
  | PStr s => Ok (strip s)
  | _ => Raise (attribute_error v "strip")
  end.

(** The items a [for] loop over [v] visits. *)
Definition iter (v : pyval) : result (list pyval) :=
  match v with
  | PList xs => Ok xs
  | PDict kvs => Ok (map (λ kv, PStr kv.1) kvs)
  | PStr s => Ok (map PStr (chars s))
  | _ => Raise (not_iterable v)
  end.

Definition for_each {A B} (f : A → result B) : list A → result (list B) :=
  fix go xs :=
    match xs with
    | [] => Ok []
    | x :: r => rbind (f x) (λ y, rbind (go r) (λ ys, Ok (y :: ys)))
    end.

(** *** Rendering: [repr] and [str], as an f-string field uses them *)

Definition hex_digit (n : nat) : ascii :=
  default "0"%char (String.get n "0123456789abcdef").

Definition escape_char (q c : ascii) : string :=
  let n := nat_of_ascii c in
  if Ascii.eqb c "\" then "\\"
  else if Ascii.eqb c q then String "\" (String q "")
  else if (n =? 9)%nat then "\t"
  else if (n =? 10)%nat then "\n"
  else if (n =? 13)%nat then "\r"
  else if ((n <? 32) || (n =? 127))%nat
       then "\x" +:+ String (hex_digit (n / 16)) (String (hex_digit (n mod 16)) "")
  else String c "".

Fixpoint escape (q : ascii) (s : string) : string :=
  match s with
  | EmptyString => ""
  | String c r => escape_char q c +:+ escape q r
  end.

(** [repr] of a string: single quotes, unless the text has a single quote
    and no double quote. Characters beyond ASCII are kept as they are, which
    is what Python does with the printable ones. *)
Definition repr_str (s : string) : string :=
  let q := if mem_char "'" s && negb (mem_char dquote s)
           then dquote else "'"%char in
  String q (escape q s +:+ String q "").

Fixpoint join (sep : string) (parts : list string) : string :=
  match parts with
  | [] => ""
  | [x] => x
  | x :: r => x +:+ sep +:+ join sep r
  end.

Fixpoint repr (v : pyval) : string :=
  match v with
  | PNone => "None"
  | PBool true => "True"
  | PBool false => "False"
  | PInt n => pretty n
  | PStr s => repr_str s
  | PList xs => "[" +:+ join ", " (map repr xs) +:+ "]"
  | PDict kvs =>
      "{" +:+ join ", " (map (λ '(k, x), repr_str k +:+ ": " +:+ repr x) kvs)
          +:+ "}"
  end.

(** [str(v)], which is what [f"{v}"] inserts. *)
Definition str (v : pyval) : string :=
  match v with
  | PStr s => s
  | _ => repr v
  end.

End Py.

(** ** The file system *)

Module Os.
Import Py.

(** A path names a regular file, a directory, or a dangling symbolic link:
    an entry [os.listdir] lists and [os.path.exists] denies, since it
    follows the link. [removable] is false for a file the process may read
    but not unlink: the file carries the immutable attribute, or lies in a
    sticky directory and belongs to someone else, and [unlink] fails with
    [EPERM]. Paths are kept as the program spells them; two spellings of one
    file do not occur in the program. *)
Inductive node :=
| File (removable : bool)
| Dir
| Dangling.

#[global] Instance node_eq_dec : EqDecision node.
Proof. solve_decision. Defined.

(** [os.path.exists(p)] *)
Definition path_exists (fs : gmap string node) (p : string) : bool :=
  match fs !! p with
  | Some (File _) | Some Dir => true
  | Some Dangling | None => false
  end.

Definition os_error (k : exc_kind) (errno what p : string) : exc :=
  Exc k ("[Errno " +:+ errno +:+ "] " +:+ what +:+ ": " +:+ repr_str p).

(** [os.remove(p)] *)
Definition remove (fs : gmap string node) (p : string)
  : result unit * gmap string node :=
  match fs !! p with
  | Some (File true) | Some Dangling => (Ok (), delete p fs)
  | Some (File false) =>
      (Raise (os_error PermissionError "1" "Operation not permitted" p), fs)
  | Some Dir => (Raise (os_error IsADirectoryError "21" "Is a directory" p), fs)
  | None =>
      (Raise (os_error FileNotFoundError "2" "No such file or directory" p), fs)
  end.

Fixpoint strip_prefix (pre s : string) : option string :=
  match pre, s with
  | EmptyString, _ => Some s
  | String a pre', String b s' =>
      if Ascii.eqb a b then strip_prefix pre' s' else None
  | _, EmptyString => None
  end.

(** The name of [p] inside directory [d], when [p] is a direct entry. *)
Definition entry_name (d p : string) : option string :=
  match strip_prefix (d +:+ "/") p with
  | Some n => if String.eqb n "" || mem_char "/" n then None else Some n
  | None => None
  end.

(** [os.listdir(d)]; the order is the file system's. *)
Definition listdir (fs : gmap string node) (d : string)
  : result (list string) :=
  match fs !! d with
  | Some Dir => Ok (omap (λ kv, entry_name d kv.1) (map_to_list fs))
  | Some (File _) => Raise (os_error NotADirectoryError "20" "Not a directory" d)
  | Some Dangling | None =>
      Raise (os_error FileNotFoundError "2" "No such file or directory" d)
  end.

(** [os.makedirs(d, exist_ok=True)] for a single-component path. *)
Definition makedirs (fs : gmap string node) (d : string)
  : result unit * gmap string node :=
  match fs !! d with
  | None => (Ok (), <[d := Dir]> fs)
  | Some Dir => (Ok (), fs)
  | Some (File _) | Some Dangling =>
      (Raise (os_error FileExistsError "17" "File exists" d), fs)
  end.

Fixpoint ends_with_slash (s : string) : bool :=
  match s with
  | EmptyString => false
  | String c EmptyString => Ascii.eqb c "/"
  | String _ r => ends_with_slash r
  end.

Definition starts_with_slash (s : string) : bool :=
  match s with
  | String c _ => Ascii.eqb c "/"
  | EmptyString => false
  end.

(** [os.path.join(a, b)] (POSIX) *)
Definition path_join (a b : string) : string :=
  if starts_with_slash b then b
  else if String.eqb a "" || ends_with_slash a then a +:+ b
  else a +:+ "/" +:+ b.

(** [s.rfind(c)], with [None] for -1. *)
Fixpoint rfind (c : ascii) (s : string) : option nat :=
  match s with
  | EmptyString => None
  | String d r =>
      match rfind c r with
      | Some i => Some (S i)
      | None => if Ascii.eqb c d then Some O else None
      end
  end.

Fixpoint drop_str (n : nat) (s : string) : string :=
  match n, s with
  | S n', String _ r => drop_str n' r
  | _, _ => s
  end.

(** [os.path.splitext(p)] (POSIX): split at the last dot of the last
    component, unless that component has only dots before it. *)
Definition splitext (p : string) : string * string :=
  let filenameIndex :=
    match rfind "/" p with Some i => S i | None => O end in
  match rfind "." p with
  | Some dotIndex =>
      if (filenameIndex <=? dotIndex)%nat
         && existsb (λ c, negb (Ascii.eqb c "."))
              (String.list_ascii_of_string
                 (take_str (dotIndex - filenameIndex) (drop_str filenameIndex p)))
      then (take_str dotIndex p, drop_str dotIndex p)
      else (p, "")
  | None => (p, "")
  end.

End Os.

(** ** The application *)

Module App.
Import Py Os.

Inductive level := INFO | WARNING | ERROR.

(** What the process does that an observer can see, in order. *)
Inductive event :=
| EvLog (lvl : level) (msg : string)
| EvExtract (opts : pyval) (target : string) (download : bool)
| EvSendFile (path mimetype download_name : string)
| EvRun (host : string) (port : Z).

Record world := World {
  fs : gmap string node;
  environ : gmap string string;
  trace : list event
}.

Definition with_fs (f : gmap string node) (w : world) : world :=
  World f (environ w) (trace w).

Definition emit (e : event) (w : world) : world :=
  World (fs w) (environ w) (trace w ++ [e]).

(** Computations that read and change the world and may raise. *)
Definition M (A : Type) : Type := world → result A * world.

Definition ret {A} (a : A) : M A := λ w, (Ok a, w).

Definition bind {A B} (m : M A) (k : A → M B) : M B :=
  λ w, match m w with
       | (Ok a, w') => k a w'
       | (Raise e, w') => (Raise e, w')
       end.

Definition lift {A} (r : result A) : M A := λ w, (r, w).

(** [try: body except Exception as e: handler(e)] *)
Definition try_except {A} (body : M A) (handler : exc → M A) : M A :=
  λ w, match body w with
       | (Ok a, w') => (Ok a, w')
       | (Raise e, w') => handler e w'
       end.

Declare Scope app_scope.
Delimit Scope app_scope with app.
Notation "'let*' x ':=' m 'in' k" := (bind m (λ x, k))
  (at level 10, x pattern, m at level 100, k at level 200) : app_scope.
Notation "m ';;' k" := (bind m (λ _, k))
  (at level 100, k at level 200, right associativity) : app_scope.
Local Open Scope app_scope.

Definition for_each_M {A} (f : A → M unit) : list A → M unit :=
  fix go xs :=
    match xs with
    | [] => ret ()
    | x :: r => f x ;; go r
    end.

Definition log (lvl : level) (msg : string) : M unit :=
  λ w, (Ok (), emit (EvLog lvl msg) w).

Definition os_path_exists (p : string) : M bool :=
  λ w, (Ok (path_exists (fs w) p), w).

Definition os_remove (p : string) : M unit :=
  λ w, let '(r, f) := remove (fs w) p in (r, with_fs f w).

Definition os_listdir (d : string) : M (list string) :=
  λ w, (listdir (fs w) d, w).

Definition os_makedirs (d : string) : M unit :=
  λ w, let '(r, f) := makedirs (fs w) d in (r, with_fs f w).

(** [os.getenv(k)] *)
Definition os_getenv (k : string) : M pyval :=
  λ w, (Ok (match environ w !! k with Some v => PStr v | None => PNone end), w).

(** The closure registered with [response.call_on_close]; it captures
    [filename]. *)
Inductive callback := Cleanup (filename : string).

(** What a view answers. The body of a [Json] answer is the value handed
    to [jsonify]; an object there is a set of key/value pairs, and the
    order in which [jsonify] writes the keys (it sorts them) is not part of
    it. *)
Inductive response :=
| Json (status : nat) (body : pyval)
| Attachment (path mimetype download_name : string) (on_close : list callback)
| Text (status : nat) (body : string)
| InternalServerError (e : exc).

Definition status_of (r : response) : nat :=
  match r with
  | Json st _ => st
  | Attachment _ _ _ _ => 200%nat
  | Text st _ => st
  | InternalServerError _ => 500%nat
  end.

Definition DOWNLOADS_DIR : string := "temp_downloads".

Section Handlers.

(** [urlparse(url).netloc], or the exception [urlparse] raises. *)
Variable urlparse_netloc : string → result string.

(** [YoutubeDL(opts).extract_info(target, download=d)]: the outcome and
    the file system as the extractor leaves it, whether it returns or
    raises. *)
Variable extract_info :
  pyval → string → bool → gmap string node → result pyval * gmap string node.

(** [YoutubeDL(opts).prepare_filename(info)] *)
Variable prepare_filename : pyval → pyval → result string.

(** [int(s)] on a string *)
Variable int_of_str : string → result Z.

(** [app.root_path]: the absolute path of the directory of [app.py],
    which is the directory the process runs in. *)
Variable root_path : string.

Definition domains : list string := ["youtube.com"; "youtu.be"].

Definition is_valid_youtube_url (url : string) : bool :=
  match urlparse_netloc url with
  | Ok netloc => existsb (λ domain, contains domain netloc) domains
  | Raise _ => false
  end.

Definition cleanup_file (filename : string) : M unit :=
  try_except
    (let* present := os_path_exists filename in
     if (present : bool)
     then os_remove filename ;; log INFO ("Deleted: " +:+ filename)
     else ret ())
    (λ e, log ERROR ("Failed to delete " +:+ filename +:+ ": " +:+ exc_str e)).

Definition ydl_extract_info (opts : pyval) (target : string) (download : bool)
  : M pyval :=
  λ w, let w1 := emit (EvExtract opts target download) w in
       let '(r, f) := extract_info opts target download (fs w1) in
       (r, with_fs f w1).

(** A view function's result as Flask delivers it: an exception that
    leaves the view becomes the framework's 500 response. A view is given
    the value of [request.json], the parsed body; a request whose body
    Flask cannot parse as JSON is answered by Flask itself and never gives
    [request.json] a value. *)
Definition view (m : M response) : world → response * world :=
  λ w, match m w with
       | (Ok r, w') => (r, w')
       | (Raise e, w') => (InternalServerError e, w')
       end.

Definition error_body (msg : string) : pyval := PDict [("error", PStr msg)].

Definition error_details (msg : string) (e : exc) : pyval :=
  PDict [("error", PStr msg); ("details", PStr (exc_str e))].

(** *** [/search] *)

Definition search_opts : pyval :=
  PDict [("quiet", PBool true); ("extract_flat", PBool true);
         ("default_search", PStr "ytsearch20"); ("noplaylist", PBool true)].

(** One turn of the loop over [videos]: [None] for [continue]. *)
Definition format_video (video : pyval) : result (option pyval) :=
  if negb (truthy video) then Ok None
  else
    rbind (get1 video "id") (λ id,
    rbind (get1 video "title") (λ title,
    rbind (get1 video "id") (λ id',
    rbind (get1 video "duration") (λ duration,
    rbind (get video "thumbnails" (PList [PDict []])) (λ thumbs,
    rbind (index_last thumbs) (λ thumb,
    rbind (get thumb "url" (PStr "")) (λ thumbnail,
    rbind (get1 video "channel") (λ channel,
    rbind (if truthy channel then Ok channel
           else get video "uploader" (PStr "Unknown")) (λ channel',
    Ok (Some (PDict [("id", id);
                     ("title", title);
                     ("url", PStr ("https://youtu.be/" +:+ str id'));
                     ("duration", duration);
                     ("thumbnail", thumbnail);
                     ("channel", channel')]))))))))))).

Definition format_videos (videos : list pyval) : result (list pyval) :=
  rbind (for_each format_video videos) (λ rs, Ok (omap id rs)).

Definition search_video (data : pyval) : world → response * world :=
  view
    (let* q := lift (get data "query" (PStr "")) in
     let* query := lift (strip_method q) in
     if negb (truthy (PStr query))
     then ret (Json 400 (error_body "No search query provided"))
     else
       try_except
         (let* result := ydl_extract_info search_opts
                           ("ytsearch20:" +:+ query) false in
          let* videos := lift (get result "entries" (PList [])) in
          let* items := lift (iter videos) in
          let* formatted_videos := lift (format_videos items) in
          ret (Json 200 (PList formatted_videos)))
         (λ e, log ERROR ("Search failed: " +:+ exc_str e) ;;
               ret (Json 500 (error_details "Search failed" e)))).

(** *** [/info] *)

Definition info_opts : pyval :=
  PDict [("quiet", PBool true); ("skip_download", PBool true);
         ("noplaylist", PBool true)].

(** The test of the loop over [info['formats']]. *)
Definition keeps_format (f : pyval) : result bool :=
  rbind (get1 f "url") (λ u,
    if truthy u
    then rbind (get1 f "vcodec") (λ vc, Ok (negb (eq_str vc "none")))
    else Ok false).

Definition format_entry (f : pyval) : result pyval :=
  rbind (get1 f "format_id") (λ itag,
  rbind (get1 f "ext") (λ ext,
  rbind (get1 f "resolution") (λ res,
  rbind (if truthy res then Ok res
         else get f "height" (PStr "audio")) (λ resolution,
  rbind (get1 f "filesize") (λ size,
  rbind (get f "format_note" (PStr "")) (λ note,
  rbind (get1 f "url") (λ url,
  Ok (PDict [("itag", itag);
             ("ext", ext);
             ("resolution", resolution);
             ("filesize", por size (PInt 0));
             ("format_note", note);
             ("url", url)])))))))).

Definition format_format (f : pyval) : result (option pyval) :=
  rbind (keeps_format f) (λ keep : bool,
    if keep then rbind (format_entry f) (λ e, Ok (Some e)) else Ok None).

Definition list_formats (fs : list pyval) : result (list pyval) :=
  rbind (for_each format_format fs) (λ rs, Ok (omap id rs)).

Definition get_video_info (data : pyval) : world → response * world :=
  view
    (let* u := lift (get data "url" (PStr "")) in
     let* url := lift (strip_method u) in
     if negb (truthy (PStr url)) || negb (is_valid_youtube_url url)
     then ret (Json 400 (error_body "Invalid YouTube URL"))
     else
       try_except
         (let* info := ydl_extract_info info_opts url false in
          let* fmts := lift (get info "formats" (PList [])) in
          let* items := lift (iter fmts) in
          let* formats := lift (list_formats items) in
          let* id := lift (get1 info "id") in
          let* title := lift (get1 info "title") in
          let* webpage_url := lift (get1 info "webpage_url") in
          let* duration := lift (get1 info "duration") in
          let* thumbnail := lift (get1 info "thumbnail") in
          let* channel := lift (get1 info "channel") in
          let* channel' := lift (if truthy channel then Ok channel
                                 else get info "uploader" (PStr "")) in
          ret (Json 200 (PDict [("id", id);
                                ("title", title);
                                ("url", webpage_url);
                                ("duration", duration);
                                ("thumbnail", thumbnail);
                                ("channel", channel');
                                ("formats", PList formats)])))
         (λ e, log ERROR ("Info fetch failed: " +:+ exc_str e) ;;
               ret (Json 500 (error_body "Could not fetch video info")))).

(** *** [/download] *)

Definition base_opts : list (string * pyval) :=
  [("outtmpl", PStr (path_join DOWNLOADS_DIR "%(id)s.%(ext)s"));
   ("quiet", PBool true);
   ("noplaylist", PBool true)].

Definition mp3_opts : list (string * pyval) :=
  [("format", PStr "bestaudio/best");
   ("postprocessors",
    PList [PDict [("key", PStr "FFmpegExtractAudio");
                  ("preferredcodec", PStr "mp3");
                  ("preferredquality", PStr "192")]])].

Definition default_format : string :=
  "bestvideo[ext=mp4]+bestaudio[ext=m4a]/best[ext=mp4]".

(** Lines 151-163: the choice between audio extraction, an explicit
    format and the default. *)
Definition select_format (format_type itag : pyval)
    (ydl_opts : list (string * pyval)) : list (string * pyval) :=
  if eq_str format_type "mp3" then assoc_update ydl_opts mp3_opts
  else if truthy itag then assoc_set "format" itag ydl_opts
  else assoc_set "format" (PStr default_format) ydl_opts.

(** Lines 167-169: the path that is streamed. *)
Definition final_filename (format_type : pyval) (filename : string) : string :=
  if eq_str format_type "mp3" then (splitext filename).1 +:+ ".mp3"
  else filename.

(** [cookies_path and os.path.exists(cookies_path)] as a condition *)
Definition cookies_usable (cookies_path : pyval) : M bool :=
  match cookies_path with
  | PStr p => if truthy cookies_path then os_path_exists p else ret false
  | _ => ret false
  end.

(** A header value cannot carry a line break. *)
Definition has_line_break (s : string) : bool :=
  mem_char "010" s || mem_char "013" s.

(** What [flask.send_file(path, as_attachment=True, mimetype=..,
    download_name=..)] comes to in a given directory tree. The path is
    joined to [app.root_path] and looked up with [stat]; then the
    [Content-Disposition] header is made from the download name, which
    [werkzeug] refuses with a [ValueError] when it has a line break (the
    text is the one of werkzeug 3); then the file is opened. An error of
    the file system names the joined path. *)
Definition open_attachment (f : gmap string node)
    (path mimetype download_name : string) : result response :=
  match f !! path with
  | Some Dangling | None =>
      Raise (os_error FileNotFoundError "2" "No such file or directory"
               (path_join root_path path))
  | Some nd =>
      if has_line_break download_name
      then Raise (Exc ValueError
                    "Header values must not contain newline characters.")
      else match nd with
           | File _ => Ok (Attachment path mimetype download_name [])
           | _ => Raise (os_error IsADirectoryError "21" "Is a directory"
                           (path_join root_path path))
           end
  end.

Definition send_file (path mimetype download_name : string) : M response :=
  λ w, (open_attachment (fs w) path mimetype download_name,
        emit (EvSendFile path mimetype download_name) w).

Definition call_on_close (r : response) (cb : callback) : response :=
  match r with
  | Attachment p m d cbs => Attachment p m d (cbs ++ [cb])
  | _ => r
  end.

Definition download_video (data : pyval) : world → response * world :=
  view
    (let* u := lift (get data "url" (PStr "")) in
     let* url := lift (strip_method u) in
     let* format_type := lift (get data "format" (PStr "mp4")) in
     let* itag := lift (get data "itag" PNone) in
     if negb (truthy (PStr url)) || negb (is_valid_youtube_url url)
     then ret (Json 400 (error_body "Invalid YouTube URL"))
     else
       let* cookies_path := os_getenv "COOKIES_FILE" in
       (if truthy cookies_path
        then log INFO ("Environment variable COOKIES_FILE is set to: "
                       +:+ str cookies_path)
        else log WARNING "Environment variable COOKIES_FILE not set.") ;;
       let* usable := cookies_usable cookies_path in
       (if truthy cookies_path && negb usable
        then log WARNING ("Cookie file not found at " +:+ str cookies_path
                          +:+ ". YouTube may require login.")
        else ret ()) ;;
       try_except
         (let* usable' := cookies_usable cookies_path in
          let* ydl_opts :=
            (if (usable' : bool)
             then log INFO ("Using cookies from: " +:+ str cookies_path) ;;
                  ret (assoc_set "cookiefile" cookies_path base_opts)
             else log WARNING "No valid cookies file found. Some downloads may fail due to bot detection." ;;
                  ret base_opts) in
          let ydl_opts := select_format format_type itag ydl_opts in
          let* info := ydl_extract_info (PDict ydl_opts) url true in
          let* fetched := lift (prepare_filename (PDict ydl_opts) info) in
          let filename := final_filename format_type fetched in
          let mimetype := if eq_str format_type "mp3"
                          then "audio/mp3" else "video/mp4" in
          let* title := lift (getitem info "title") in
          let* short := lift (slice_to 50 title) in
          let* response :=
            send_file filename mimetype
              (str short +:+ "." +:+ str format_type) in
          ret (call_on_close response (Cleanup filename)))
         (λ e, log ERROR ("Download failed: " +:+ exc_str e) ;;
               ret (Json 500 (error_details "Download failed" e)))).

(** *** [/] *)

(** The text is kept as its UTF-8 bytes. *)
Definition home : response := Text 200 "Meiser’s YT Backend Running ✅".

(** *** The life of a request, and of the process *)

Definition run_callback (cb : callback) : M unit :=
  match cb with
  | Cleanup filename => cleanup_file filename
  end.

(** The WSGI server closes the response once the body is sent or the
    client is gone; closing runs the registered callbacks in order. *)
Definition close_response (r : response) : M unit :=
  match r with
  | Attachment _ _ _ cbs => for_each_M run_callback cbs
  | _ => ret ()
  end.

(** A request from arrival to the closing of its response. *)
Definition serve (handler : pyval → world → response * world)
    (data : pyval) (w : world) : response * world :=
  let '(r, w1) := handler data w in
  (r, (close_response r w1).2).

Definition app_run (host : string) (port : Z) : M unit :=
  λ w, (Ok (), emit (EvRun host port) w).

(** Lines 193-194 *)
Definition sweep : M unit :=
  let* names := os_listdir DOWNLOADS_DIR in
  for_each_M (λ filename, cleanup_file (path_join DOWNLOADS_DIR filename))
             names.

(** [int(os.environ.get('PORT', 5000))] *)
Definition read_port : M Z :=
  λ w, (match environ w !! "PORT" with
        | Some s => int_of_str s
        | None => Ok 5000
        end, w).

(** The [__main__] block. *)
Definition main : M unit :=
  sweep ;;
  let* port := read_port in
  app_run "0.0.0.0" port.

(** Module import (line 19) followed by the [__main__] block. *)
Definition startup : M unit :=
  os_makedirs DOWNLOADS_DIR ;; main.

(** *** The download handler, stage by stage

    The same handler written as one case analysis, with the events of
    each stage spelled out; [download_video_stages] below shows the two
    agree. *)

Definition emit_all (evs : list event) (w : world) : world :=
  fold_left (λ w e, emit e w) evs w.

(** The cookie file in use: [COOKIES_FILE] is set, not empty, and names
    an existing path. *)
Definition cookies_in_use (w : world) : option string :=
  match environ w !! "COOKIES_FILE" with
  | Some p =>
      if negb (String.eqb p "") && path_exists (fs w) p
      then Some p else None
  | None => None
  end.

(** The log lines written before the extractor is called. *)
Definition cookie_logs (w : world) : list event :=
  let no_valid :=
    EvLog WARNING "No valid cookies file found. Some downloads may fail due to bot detection." in
  match environ w !! "COOKIES_FILE" with
  | Some p =>
      if String.eqb p ""
      then [EvLog WARNING "Environment variable COOKIES_FILE not set.";
            no_valid]
      else
        EvLog INFO ("Environment variable COOKIES_FILE is set to: " +:+ p)
        :: (if path_exists (fs w) p
            then [EvLog INFO ("Using cookies from: " +:+ p)]
            else [EvLog WARNING ("Cookie file not found at " +:+ p
                                 +:+ ". YouTube may require login.");
                  no_valid])
  | None =>
      [EvLog WARNING "Environment variable COOKIES_FILE not set."; no_valid]
  end.

(** The options handed to the extractor. *)
Definition download_opts (format_type itag : pyval) (w : world) : pyval :=
  PDict (select_format format_type itag
           match cookies_in_use w with
           | Some p => assoc_set "cookiefile" (PStr p) base_opts
           | None => base_opts
           end).

(** The [except] branch. *)
Definition download_failed (e : exc) (w : world) : response * world :=
  (Json 500 (error_details "Download failed" e),
   emit (EvLog ERROR ("Download failed: " +:+ exc_str e)) w).

(** A request that passed validation. *)
Definition download_valid (url : string) (format_type itag : pyval)
    (w : world) : response * world :=
  let opts := download_opts format_type itag w in
  let w1 := emit_all (cookie_logs w ++ [EvExtract opts url true]) w in
  match extract_info opts url true (fs w) with
  | (Raise e, f) => download_failed e (with_fs f w1)
  | (Ok info, f) =>
      let w2 := with_fs f w1 in
      match prepare_filename opts info with
      | Raise e => download_failed e w2
      | Ok fetched =>
          let filename := final_filename format_type fetched in
          let mimetype := if eq_str format_type "mp3"
                          then "audio/mp3" else "video/mp4" in
          match rbind (getitem info "title") (slice_to 50) with
          | Raise e => download_failed e w2
          | Ok short =>
              let download_name := str short +:+ "." +:+ str format_type in
              let w3 := emit (EvSendFile filename mimetype download_name) w2 in
              match open_attachment f filename mimetype download_name with
              | Ok response => (call_on_close response (Cleanup filename), w3)
              | Raise e => download_failed e w3
              end
          end
      end
  end.

Definition download_staged (data : pyval) (w : world) : response * world :=
  match data with
  | PDict kvs =>
      match default (PStr "") (assoc "url" kvs) with
      | PStr s =>
          if String.eqb (strip s) ""
             || negb (is_valid_youtube_url (strip s))
          then (Json 400 (error_body "Invalid YouTube URL"), w)
          else download_valid (strip s)
                 (default (PStr "mp4") (assoc "format" kvs))
                 (default PNone (assoc "itag" kvs)) w
      | v => (InternalServerError (attribute_error v "strip"), w)
      end
  | _ => (InternalServerError (attribute_error data "get"), w)
  end.

(** *** The query handlers, stage by stage

    [/search] and [/info] written as one case analysis each;
    [search_video_stages] and [get_video_info_stages] below show they agree
    with the handlers. *)

(** What the [try] block of [/search] computes from the extractor's
    answer. *)
Definition search_items (r : result pyval) : result (list pyval) :=
  rbind r (λ result,
  rbind (get result "entries" (PList [])) (λ videos,
  rbind (iter videos) format_videos)).

Definition search_staged (data : pyval) (w : world) : response * world :=
  match data with
  | PDict kvs =>
      match default (PStr "") (assoc "query" kvs) with
      | PStr q =>
          if String.eqb (strip q) ""
          then (Json 400 (error_body "No search query provided"), w)
          else
            let target := "ytsearch20:" +:+ strip q in
            let w1 := emit (EvExtract search_opts target false) w in
            let '(r, f) := extract_info search_opts target false (fs w) in
            match search_items r with
            | Ok formatted_videos =>
                (Json 200 (PList formatted_videos), with_fs f w1)
            | Raise e =>
                (Json 500 (error_details "Search failed" e),
                 emit (EvLog ERROR ("Search failed: " +:+ exc_str e))
                   (with_fs f w1))
            end
      | v => (InternalServerError (attribute_error v "strip"), w)
      end
  | _ => (InternalServerError (attribute_error data "get"), w)
  end.

(** What the [try] block of [/info] computes from the extractor's answer. *)
Definition info_body (r : result pyval) : result pyval :=
  rbind r (λ info,
  rbind (get info "formats" (PList [])) (λ fmts,
  rbind (iter fmts) (λ items,
  rbind (list_formats items) (λ formats,
  rbind (get1 info "id") (λ id,
  rbind (get1 info "title") (λ title,
  rbind (get1 info "webpage_url") (λ webpage_url,
  rbind (get1 info "duration") (λ duration,
  rbind (get1 info "thumbnail") (λ thumbnail,
  rbind (get1 info "channel") (λ channel,
  rbind (if truthy channel then Ok channel
         else get info "uploader" (PStr "")) (λ channel',
  Ok (PDict [("id", id);
             ("title", title);
             ("url", webpage_url);
             ("duration", duration);
             ("thumbnail", thumbnail);
             ("channel", channel');
             ("formats", PList formats)])))))))))))).

Definition info_staged (data : pyval) (w : world) : response * world :=
  match data with
  | PDict kvs =>
      match default (PStr "") (assoc "url" kvs) with
      | PStr s =>
          if String.eqb (strip s) ""
             || negb (is_valid_youtube_url (strip s))
          then (Json 400 (error_body "Invalid YouTube URL"), w)
          else
            let w1 := emit (EvExtract info_opts (strip s) false) w in
            let '(r, f) := extract_info info_opts (strip s) false (fs w) in
            match info_body r with
            | Ok body => (Json 200 body, with_fs f w1)
            | Raise e =>
                (Json 500 (error_body "Could not fetch video info"),
                 emit (EvLog ERROR ("Info fetch failed: " +:+ exc_str e))
                   (with_fs f w1))
            end
      | v => (InternalServerError (attribute_error v "strip"), w)
      end
  | _ => (InternalServerError (attribute_error data "get"), w)
  end.

End Handlers.

(** *** Vocabulary of the statements *)

(** The line [cleanup_file] logs when [os.remove] raised [e]. *)
Definition delete_failure (filename : string) (e : exc) : event :=
  EvLog ERROR ("Failed to delete " +:+ filename +:+ ": " +:+ exc_str e).

(** Running [cleanup_file] over a list of paths. *)
Definition cleanup_all (paths : list string) : M unit :=
  for_each_M cleanup_file paths.

Definition is_log (e : event) : bool :=
  match e with EvLog _ _ => true | _ => false end.

Definition is_extract (e : event) : bool :=
  match e with EvExtract _ _ _ => true | _ => false end.

Definition is_send_file (e : event) : bool :=
  match e with EvSendFile _ _ _ => true | _ => false end.

(** The keys of a dict, in order. *)
Definition keys (v : pyval) : list string :=
  match v with
  | PDict kvs => map fst kvs
  | _ => []
  end.

Definition is_dict (v : pyval) : bool :=
  match v with PDict _ => true | _ => false end.

(** The text of field [k] of a JSON body, as [data.get(k, "").strip()]
    needs it: the body is an object and the field, when present, a
    string. *)
Definition text_field (data : pyval) (k : string) : option string :=
  match data with
  | PDict kvs =>
      match default (PStr "") (assoc k kvs) with
      | PStr s => Some s
      | _ => None
      end
  | _ => None
  end.

(** A search entry the loop of [/search] gets through: a falsy entry
    (skipped), or a dict whose [thumbnails], when present, is a list ending
    in a dict. *)
Definition well_formed_entry (video : pyval) : bool :=
  negb (truthy video) ||
  match video with
  | PDict kvs =>
      match assoc "thumbnails" kvs with
      | None => true
      | Some (PList ths) =>
          match last ths with
          | Some (PDict _) => true
          | _ => false
          end
      | Some _ => false
      end
  | _ => false
  end.

(** An extractor answer [/info] gets through: a dict whose [formats], when
    present, iterates over dicts only. *)
Definition well_formed_info (info : pyval) : bool :=
  match info with
  | PDict kvs =>
      match assoc "formats" kvs with
      | None => true
      | Some fmts =>
          match iter fmts with
          | Ok items => forallb is_dict items
          | Raise _ => false
          end
      end
  | _ => false
  end.

(** The formats the loop of [/info] lists. *)
Definition is_kept (f : pyval) : bool :=
  match keeps_format f with
  | Ok true => true
  | _ => false
  end.

(** The path a registered clean-up is for. *)
Definition callback_path (cb : callback) : string :=
  match cb with Cleanup filename => filename end.

(** The clean-ups registered on a response. *)
Definition callbacks (r : response) : list callback :=
  match r with
  | Attachment _ _ _ cbs => cbs
  | _ => []
  end.

(** Text made of ASCII whitespace only. *)
Definition all_space (s : string) : bool :=
  forallb is_space (String.list_ascii_of_string s).

(** What [yt_dlp] gives for a [ytsearch20:] request: a dict whose
    [entries] is a list of at most 20 items, each of which is falsy (an
    entry that could not be read) or a dict with a non-empty string
    [id]. *)
Definition honours_ytsearch
    (extract_info : pyval → string → bool → gmap string node
                    → result pyval * gmap string node)
    (f : gmap string node) : Prop :=
  ∀ query result,
    (extract_info search_opts ("ytsearch20:" +:+ query) false f).1
      = Ok result →
    ∃ items,
      get result "entries" (PList []) = Ok (PList items) ∧
      (length items ≤ 20)%nat ∧
      ∀ v, v ∈ items → truthy v = true →
        ∃ vk i, v = PDict vk ∧ assoc "id" vk = Some (PStr i) ∧ i ≠ "".

(** The search property: a 200 answer lists at most 20 entries, each with
    a non-empty string [id] and the short URL of that [id]. *)
Definition search_within_limit
    (extract_info : pyval → string → bool → gmap string node
                    → result pyval * gmap string node)
    (data : pyval) (w : world) : Prop :=
  ∀ body w',
    search_video extract_info data w = (Json 200 body, w') →
    ∃ entries,
      body = PList entries ∧ (length entries ≤ 20)%nat ∧
      ∀ e, e ∈ entries →
        ∃ i, i ≠ "" ∧ get1 e "id" = Ok (PStr i) ∧
             get1 e "url" = Ok (PStr ("https://youtu.be/" +:+ i)).

(** *** The host of a URL

    [urlparse(url).hostname] as [urllib.parse] computes it from the
    network location: what follows the last [@], up to the first colon,
    or, for a bracketed address, what is inside the brackets; the part
    before a [%] is put in lower case (here: its ASCII letters). *)

Fixpoint after_last (c : ascii) (s : string) : option string :=
  match s with
  | EmptyString => None
  | String d r =>
      match after_last c r with
      | Some t => Some t
      | None => if Ascii.eqb c d then Some r else None
      end
  end.

Fixpoint before_first (c : ascii) (s : string) : string :=
  match s with
  | EmptyString => ""
  | String d r => if Ascii.eqb c d then "" else String d (before_first c r)
  end.

Fixpoint after_first (c : ascii) (s : string) : option string :=
  match s with
  | EmptyString => None
  | String d r => if Ascii.eqb c d then Some r else after_first c r
  end.

Definition lower_char (c : ascii) : ascii :=
  let n := nat_of_ascii c in
  if ((65 <=? n) && (n <=? 90))%nat then ascii_of_nat (n + 32) else c.

Fixpoint lower (s : string) : string :=
  match s with
  | EmptyString => ""
  | String c r => String (lower_char c) (lower r)
  end.

Definition hostname (netloc : string) : string :=
  let hostinfo := default netloc (after_last "@" netloc) in
  let host :=
    match after_first "[" hostinfo with
    | Some bracketed => before_first "]" bracketed
    | None => before_first ":" hostinfo
    end in
  let name := before_first "%" host in
  lower name +:+ drop_str (String.length name) host.

(** The validation property read to the letter: a request whose URL has a
    host that contains none of the allowed domains is answered 400 by
    [/info] and by [/download], and the world is left as it was. *)
Definition rejects_foreign_hosts
    (urlparse_netloc : string → result string)
    (extract_info : pyval → string → bool → gmap string node
                    → result pyval * gmap string node)
    (prepare_filename : pyval → pyval → result string)
    (root_path : string)
    (data : pyval) (w : world) : Prop :=
  ∀ s netloc,
    text_field data "url" = Some s →
    urlparse_netloc (strip s) = Ok netloc →
    (∀ domain, domain ∈ domains →
       contains domain (hostname netloc) = false) →
    get_video_info urlparse_netloc extract_info data w
      = (Json 400 (error_body "Invalid YouTube URL"), w) ∧
    download_video urlparse_netloc extract_info prepare_filename root_path
      data w
      = (Json 400 (error_body "Invalid YouTube URL"), w).


(** The download property read to the letter: once the response of a
    download request is closed, no path that was free before the request
    is taken. *)
Definition leaves_no_file
    (urlparse_netloc : string → result string)
    (extract_info : pyval → string → bool → gmap string node
                    → result pyval * gmap string node)
    (prepare_filename : pyval → pyval → result string)
    (root_path : string)
    (data : pyval) (w : world) : Prop :=
  ∀ p, fs w !! p = None →
       fs (serve (download_video urlparse_netloc extract_info
                    prepare_filename root_path) data w).2 !! p = None.

End App.

(** ** Stand-ins for the extractor, for the worked scenarios *)

Module Stub.
Import Py Os App.

(** *** [urlparse(url).netloc] for plain URLs

    The part of [urllib.parse.urlsplit] that finds the network location:
    leading control characters and spaces are dropped, TAB, CR and LF are
    removed, a leading [scheme:] is skipped, and after [//] the location
    runs up to the first of [/], [?], [#]; unbalanced brackets raise
    [ValueError]. It stands for [urlsplit] on ASCII URLs whose host is not
    in brackets; the further checks [urlsplit] makes on a bracketed host
    and on a host beyond ASCII are not part of it. *)

Definition is_alpha (c : ascii) : bool :=
  let n := nat_of_ascii c in
  ((65 <=? n) && (n <=? 90) || (97 <=? n) && (n <=? 122))%nat.

Definition is_scheme_char (c : ascii) : bool :=
  let n := nat_of_ascii c in
  (is_alpha c || (48 <=? n) && (n <=? 57)
   || (n =? 43) || (n =? 45) || (n =? 46))%nat.

Fixpoint lstrip_c0 (s : string) : string :=
  match s with
  | String c r => if (nat_of_ascii c <=? 32)%nat then lstrip_c0 r else s
  | EmptyString => EmptyString
  end.

Fixpoint remove_unsafe (s : string) : string :=
  match s with
  | String c r =>
      let n := nat_of_ascii c in
      if ((n =? 9) || (n =? 10) || (n =? 13))%nat then remove_unsafe r
      else String c (remove_unsafe r)
  | EmptyString => EmptyString
  end.

(** What follows [scheme:], when the text up to the first colon is made of
    scheme characters. *)
Fixpoint after_scheme (s : string) : option string :=
  match s with
  | String c r =>
      if Ascii.eqb c ":" then Some r
      else if is_scheme_char c then after_scheme r
      else None
  | EmptyString => None
  end.

Definition skip_scheme (url : string) : string :=
  match url with
  | String c r =>
      if is_alpha c
      then match after_scheme r with Some rest => rest | None => url end
      else url
  | EmptyString => url
  end.

Fixpoint until_delim (s : string) : string :=
  match s with
  | String c r =>
      if Ascii.eqb c "/" || Ascii.eqb c "?" || Ascii.eqb c "#" then ""
      else String c (until_delim r)
  | EmptyString => EmptyString
  end.

Definition netloc (url : string) : result string :=
  match skip_scheme (remove_unsafe (lstrip_c0 url)) with
  | String "/" (String "/" r) =>
      let loc := until_delim r in
      if xorb (mem_char "[" loc) (mem_char "]" loc)
      then Raise (Exc ValueError "Invalid IPv6 URL")
      else Ok loc
  | _ => Ok ""
  end.

(** *** Extractors *)

(** [prepare_filename]: the output template filled with the id and the
    extension recorded in [info]. *)
Definition prepare (opts info : pyval) : result string :=
  rbind (getitem info "id") (λ i,
  rbind (getitem info "ext") (λ e,
    Ok (path_join DOWNLOADS_DIR (str i +:+ "." +:+ str e)))).

Definition lofi_info (ext : string) : pyval :=
  PDict [("id", PStr "abc123"); ("title", PStr "Lofi beats");
         ("ext", PStr ext);
         ("webpage_url", PStr "https://www.youtube.com/watch?v=abc123");
         ("duration", PInt 120);
         ("thumbnail", PStr "https://i.ytimg.com/abc123.jpg");
         ("uploader", PStr "Lofi Channel");
         ("formats",
          PList [PDict [("format_id", PStr "140"); ("ext", PStr "m4a");
                        ("vcodec", PStr "none");
                        ("url", PStr "https://cdn.example/a")];
                 PDict [("format_id", PStr "18"); ("ext", PStr "mp4");
                        ("vcodec", PStr "avc1"); ("height", PInt 360);
                        ("url", PStr "https://cdn.example/v")];
                 PDict [("format_id", PStr "22"); ("ext", PStr "mp4");
                        ("resolution", PStr "1280x720");
                        ("url", PStr "https://cdn.example/w")];
                 PDict [("format_id", PStr "sb0"); ("ext", PStr "mhtml");
                        ("vcodec", PStr "none")]])].

Definition entry (i title : string) : pyval :=
  PDict [("id", PStr i); ("title", PStr title);
         ("thumbnails", PList [PDict [("url", PStr "https://i.ytimg.com/1.jpg")]]);
         ("channel", PStr "Lofi Channel")].

Definition three_entries : list pyval :=
  [entry "a1" "one"; entry "b2" "two"; entry "c3" "three"].

(** A well-behaved extractor: a search yields three entries; a download
    writes the file the template names (after audio extraction, the
    [.mp3] next to the native [.m4a] name recorded in [info]). *)
Definition extractor (opts : pyval) (target : string) (download : bool)
    (f : gmap string node) : result pyval * gmap string node :=
  if String.prefix "ytsearch20:" target
  then (Ok (PDict [("entries", PList three_entries)]), f)
  else if negb download then (Ok (lofi_info "mp4"), f)
  else match opts with
       | PDict kvs =>
           match assoc "postprocessors" kvs with
           | Some _ =>
               (Ok (lofi_info "m4a"), <["temp_downloads/abc123.mp3" := File true]> f)
           | None =>
               (Ok (lofi_info "mp4"), <["temp_downloads/abc123.mp4" := File true]> f)
           end
       | _ => (Raise (Exc TypeError "options must be a dict"), f)
       end.

(** An extractor on a host without ffmpeg: the native audio file is
    written, then post-processing fails. *)
Definition extractor_no_ffmpeg (opts : pyval) (target : string)
    (download : bool) (f : gmap string node)
    : result pyval * gmap string node :=
  if download
  then (Raise (Exc DownloadError
                 "ERROR: Postprocessing: ffprobe and ffmpeg not found."),
        <["temp_downloads/abc123.m4a" := File true]> f)
  else (Ok (lofi_info "m4a"), f).

(** An extractor whose second entry has an empty thumbnail list. *)
Definition extractor_no_thumbs (opts : pyval) (target : string)
    (download : bool) (f : gmap string node)
    : result pyval * gmap string node :=
  (Ok (PDict [("entries",
               PList [entry "a1" "one";
                      PDict [("id", PStr "b2"); ("thumbnails", PList [])];
                      entry "c3" "three"])]), f).

(** An extractor whose [info] has no title: the file is written, the
    metadata is incomplete. *)
Definition extractor_untitled (opts : pyval) (target : string)
    (download : bool) (f : gmap string node)
    : result pyval * gmap string node :=
  (Ok (PDict [("id", PStr "abc123"); ("ext", PStr "mp4")]),
   if download then <["temp_downloads/abc123.mp4" := File true]> f else f).


(** An extractor without network. *)
Definition extractor_offline (opts : pyval) (target : string)
    (download : bool) (f : gmap string node)
    : result pyval * gmap string node :=
  (Raise (Exc DownloadError "ERROR: Unable to download webpage"), f).

Definition no_int (s : string) : result Z :=
  Raise (Exc ValueError ("invalid literal for int() with base 10: " +:+ repr_str s)).

(** Worlds *)

Definition root : string := "/srv/app".

Definition empty_dir : gmap string node := {[ "temp_downloads" := Dir ]}.

Definition w0 : world := World empty_dir ∅ [].

(** A directory with leftovers of an earlier run: a stray download, a file
    that cannot be unlinked, a sub-directory and a symbolic link whose
    target is gone. *)
Definition stray_dir : gmap string node :=
  <["temp_downloads/old.mp4" := File true]>
    (<["temp_downloads/held.part" := File false]>
       (<["temp_downloads/cache" := Dir]>
          (<["temp_downloads/latest" := Dangling]>
             (<["cookies.txt" := File true]> empty_dir)))).

Definition w_stray : world := World stray_dir ∅ [].

(** A directory with a stray download and a symbolic link whose target is
    gone. *)
Definition w_dangling : world :=
  World (<["temp_downloads/old.mp4" := File true]>
           (<["temp_downloads/latest" := Dangling]> empty_dir)) ∅ [].

Definition w_cookies_missing : world :=
  World empty_dir {[ "COOKIES_FILE" := "/etc/secrets/cookies.txt" ]} [].

Definition request (url format_type : string) : pyval :=
  PDict [("url", PStr url); ("format", PStr format_type)].

End Stub.


(** * Properties *)

Import Py Os App.
Local Open Scope app_scope.

(** ** Releasing a file: [cleanup_file] *)

Section Release.

Lemma with_fs_same w : with_fs (fs w) w = w.
Proof. by destruct w. Qed.

(** The ways a call can go, by what the path names. *)
Lemma cleanup_file_unfold filename w :
  cleanup_file filename w =
    match fs w !! filename with
    | None | Some Dangling => (Ok (), w)
    | Some (File true) =>
        (Ok (), emit (EvLog INFO ("Deleted: " +:+ filename))
                  (with_fs (delete filename (fs w)) w))
    | Some (File false) =>
        (Ok (), emit (delete_failure filename
                        (os_error PermissionError "1" "Operation not permitted"
                           filename)) w)
    | Some Dir =>
        (Ok (), emit (delete_failure filename
                        (os_error IsADirectoryError "21" "Is a directory"
                           filename)) w)
    end.
Proof.
  unfold cleanup_file, try_except, bind, os_path_exists, os_remove,
    path_exists, remove, log, ret.
  destruct (fs w !! filename) as [[[]| |]|] eqn:E; cbn; rewrite ?E; cbn;
    rewrite ?with_fs_same; reflexivity.
Qed.

Lemma cleanup_file_ok filename w : (cleanup_file filename w).1 = Ok ().
Proof.
  rewrite cleanup_file_unfold.
  by destruct (fs w !! filename) as [[[]| |]|].
Qed.

Lemma cleanup_file_other filename w p :
  p ≠ filename → fs (cleanup_file filename w).2 !! p = fs w !! p.
Proof.
  intros Hne. rewrite cleanup_file_unfold.
  destruct (fs w !! filename) as [[[]| |]|]; cbn; try done.
  by rewrite lookup_delete_ne.
Qed.

Lemma cleanup_file_absent filename w :
  fs w !! filename = None → cleanup_file filename w = (Ok (), w).
Proof. intros E. by rewrite cleanup_file_unfold, E. Qed.

Lemma cleanup_file_removes filename w :
  fs w !! filename = Some (File true) →
  fs (cleanup_file filename w).2 = delete filename (fs w).
Proof. intros E. by rewrite cleanup_file_unfold, E. Qed.

Lemma cleanup_file_environ filename w :
  environ (cleanup_file filename w).2 = environ w.
Proof.
  rewrite cleanup_file_unfold.
  by destruct (fs w !! filename) as [[[]| |]|].
Qed.

End Release.

(** C5. [cleanup_file] never raises, whatever the path names. Called twice in
    a row on the path of a managed file (a regular file the process may
    unlink), the first call removes it and the second finds it absent and
    leaves the world exactly as it is; neither call touches any other
    path. *)
Theorem cleanup_file_twice (filename : string) (w : world) :
  let w1 := (cleanup_file filename w).2 in
  let w2 := (cleanup_file filename w1).2 in
  (cleanup_file filename w).1 = Ok () ∧
  (cleanup_file filename w1).1 = Ok () ∧
  (∀ p, p ≠ filename → fs w1 !! p = fs w !! p ∧ fs w2 !! p = fs w !! p) ∧
  (fs w !! filename = Some (File true) →
     fs w1 !! filename = None ∧ w2 = w1) ∧
  (fs w !! filename = None → w1 = w ∧ w2 = w).
Proof.
  cbn zeta. repeat split.
  - apply cleanup_file_ok.
  - apply cleanup_file_ok.
  - by apply cleanup_file_other.
  - rewrite !cleanup_file_other by done. done.
  - rewrite cleanup_file_removes by done. apply lookup_delete_eq.
  - rewrite (cleanup_file_absent filename (cleanup_file filename w).2); [done|].
    rewrite cleanup_file_removes by done. apply lookup_delete_eq.
  - by rewrite cleanup_file_absent.
  - rewrite !cleanup_file_absent; try done. by rewrite cleanup_file_absent.
Qed.

Lemma cleanup_file_twice_example :
  let w1 := (cleanup_file "temp_downloads/old.mp4" Stub.w_stray).2 in
  let w2 := (cleanup_file "temp_downloads/old.mp4" w1).2 in
  fs Stub.w_stray !! "temp_downloads/old.mp4" = Some (File true) ∧
  fs w1 !! "temp_downloads/old.mp4" = None ∧ w2 = w1.
Proof.
  split; [by vm_compute|].
  apply (cleanup_file_twice "temp_downloads/old.mp4" Stub.w_stray).
  by vm_compute.
Defined.

(** ** The start-up sweep *)

Section Sweep.

Variable int_of_str : string → result Z.

Lemma append_cons c s t : String c s +:+ t = String c (s +:+ t).
Proof. reflexivity. Qed.

Lemma append_assoc s t u : (s +:+ t) +:+ u = s +:+ t +:+ u.
Proof.
  induction s as [|c s IH]; [done|]. by rewrite !append_cons, IH.
Qed.

Lemma append_empty_r s : s +:+ "" = s.
Proof. induction s as [|c s IH]; [done|]. by rewrite append_cons, IH. Qed.

Lemma strip_prefix_app pre n : strip_prefix pre (pre +:+ n) = Some n.
Proof.
  induction pre as [|c pre IH]; [by destruct n|].
  rewrite append_cons. cbn [strip_prefix]. by rewrite Ascii.eqb_refl.
Qed.

Lemma strip_prefix_Some pre s n :
  strip_prefix pre s = Some n → s = pre +:+ n.
Proof.
  revert s. induction pre as [|c pre IH]; intros s; cbn [strip_prefix].
  - by intros [= ->].
  - destruct s as [|d s]; [done|].
    destruct (Ascii.eqb_spec c d) as [->|]; [|done].
    intros H. by rewrite (IH _ H).
Qed.

(** [p] is a direct entry of [d] exactly when it is [d/name] for a
    non-empty name without a slash. *)
Lemma entry_name_Some d p name :
  entry_name d p = Some name ↔
  p = d +:+ "/" +:+ name ∧ name ≠ "" ∧ mem_char "/" name = false.
Proof.
  unfold entry_name. split.
  - destruct (strip_prefix _ p) as [n|] eqn:E; [|done].
    apply strip_prefix_Some in E.
    destruct (String.eqb n "") eqn:E1; [done|].
    destruct (mem_char "/" n) eqn:E2; [done|]. cbn.
    intros [= <-]. split_and!; [|by apply String.eqb_neq in E1|done].
    rewrite E. apply append_assoc.
  - intros (-> & Hne & Hs).
    rewrite <- append_assoc.
    rewrite strip_prefix_app.
    apply String.eqb_neq in Hne. by rewrite Hne, Hs.
Qed.

Lemma path_join_entry name :
  mem_char "/" name = false →
  path_join DOWNLOADS_DIR name = DOWNLOADS_DIR +:+ "/" +:+ name.
Proof.
  intros H. unfold path_join, starts_with_slash.
  destruct name as [|c r]; [done|].
  destruct (Ascii.eqb_spec c "/") as [->|Hne]; [by cbn in H|done].
Qed.

Lemma listdir_spec (f : gmap string node) d names name :
  listdir f d = Ok names →
  name ∈ names ↔
  name ≠ "" ∧ mem_char "/" name = false ∧ is_Some (f !! (d +:+ "/" +:+ name)).
Proof.
  unfold listdir. destruct (f !! d) as [[| |]|]; try done. intros [= <-].
  rewrite list_elem_of_omap. split.
  - intros ([p nd] & Hin & Hn). apply elem_of_map_to_list in Hin.
    cbn in Hn. apply entry_name_Some in Hn as (-> & ? & ?). eauto.
  - intros (? & ? & [nd Hnd]). exists (d +:+ "/" +:+ name, nd).
    split; [by apply elem_of_map_to_list|]. by apply entry_name_Some.
Qed.

(** One call: it returns, only logs, leaves every other path alone, and
    either removes the path, or records why it could not, or, when
    [os.path.exists] denies the path, does nothing at all. *)
Lemma cleanup_file_step x w :
  ∃ w' logs,
    cleanup_file x w = (Ok (), w') ∧
    environ w' = environ w ∧
    trace w' = trace w ++ logs ∧ forallb is_log logs = true ∧
    (∀ p, p ≠ x → fs w' !! p = fs w !! p) ∧
    (path_exists (fs w) x = false → w' = w) ∧
    match fs w !! x with
    | None | Some (File true) => fs w' !! x = None
    | Some Dangling => fs w' !! x = Some Dangling
    | Some nd => fs w' !! x = Some nd ∧ ∃ e, delete_failure x e ∈ logs
    end.
Proof.
  rewrite cleanup_file_unfold. unfold path_exists.
  destruct (fs w !! x) as [[[]| |]|] eqn:E; do 2 eexists;
    (split; [reflexivity|]); cbn; rewrite ?E;
    split_and!; try done.
  - intros p Hp. by apply lookup_delete_ne.
  - apply lookup_delete_eq.
  - eexists. apply list_elem_of_singleton. reflexivity.
  - eexists. apply list_elem_of_singleton. reflexivity.
  - instantiate (1 := []). by rewrite app_nil_r.
  - done.
  - instantiate (1 := []). by rewrite app_nil_r.
  - done.
Qed.

Lemma cleanup_all_spec paths : ∀ w,
  ∃ w1 logs,
    cleanup_all paths w = (Ok (), w1) ∧
    environ w1 = environ w ∧
    trace w1 = trace w ++ logs ∧ forallb is_log logs = true ∧
    (∀ p, fs w1 !! p = fs w !! p ∨ (p ∈ paths ∧ fs w1 !! p = None)) ∧
    (∀ p nd, p ∈ paths → fs w !! p = Some nd →
       match nd with
       | File true => fs w1 !! p = None
       | Dangling => fs w1 !! p = Some Dangling
       | _ => fs w1 !! p = Some nd ∧ ∃ e, delete_failure p e ∈ logs
       end) ∧
    ((∀ p, p ∈ paths → path_exists (fs w) p = false) → w1 = w).
Proof.
  induction paths as [|x r IH]; intros w.
  - exists w, []. cbn. rewrite app_nil_r. split_and!; try done.
    + by left.
    + intros p nd Hin. by apply elem_of_nil in Hin.
  - destruct (cleanup_file_step x w)
      as (wa & l0 & Hstep & Henv0 & Ht0 & Hl0 & Hoth & Hskip & Hx).
    destruct (IH wa)
      as (w1 & l1 & Hrun & Henv1 & Ht1 & Hl1 & Hfs1 & Hin1 & Hskip1).
    exists w1, (l0 ++ l1).
    split_and!.
    + unfold cleanup_all in *. cbn. unfold bind at 1. by rewrite Hstep.
    + congruence.
    + by rewrite Ht1, Ht0, app_assoc.
    + rewrite forallb_app. by rewrite Hl0, Hl1.
    + intros p. destruct (Hfs1 p) as [E1|[Hp E1]].
      * destruct (decide (p = x)) as [->|Hne].
        -- destruct (fs w !! x) as [[[]| |]|] eqn:E.
           ++ right. split; [apply list_elem_of_here|congruence].
           ++ left. destruct Hx. congruence.
           ++ left. destruct Hx. congruence.
           ++ left. congruence.
           ++ left. congruence.
        -- left. rewrite E1. by apply Hoth.
      * right. split; [by apply list_elem_of_further|done].
    + intros p nd Hp Hnd.
      destruct (decide (p = x)) as [->|Hne].
      * rewrite Hnd in Hx. destruct (Hfs1 x) as [E1|[Hr E1]].
        -- destruct nd as [[]| |]; try congruence.
           ++ destruct Hx as [Hx [e He]]. split; [congruence|].
              exists e. apply elem_of_app. by left.
           ++ destruct Hx as [Hx [e He]]. split; [congruence|].
              exists e. apply elem_of_app. by left.
        -- destruct nd as [[]| |]; try done.
           ++ destruct Hx as [Hx _]. specialize (Hin1 x _ Hr Hx).
              cbn in Hin1. destruct Hin1. congruence.
           ++ destruct Hx as [Hx _]. specialize (Hin1 x _ Hr Hx).
              cbn in Hin1. destruct Hin1. congruence.
           ++ specialize (Hin1 x _ Hr Hx). cbn in Hin1. congruence.
      * apply elem_of_cons in Hp as [?|Hp]; [done|].
        rewrite <- (Hoth p Hne) in Hnd.
        specialize (Hin1 p nd Hp Hnd).
        destruct nd as [[]| |]; try done.
        -- destruct Hin1 as [? [e He]]. split; [done|].
           exists e. apply elem_of_app. by right.
        -- destruct Hin1 as [? [e He]]. split; [done|].
           exists e. apply elem_of_app. by right.
    + intros Hnone.
      assert (wa = w) as -> by (apply Hskip, Hnone; by left).
      apply Hskip1. intros p Hp. apply Hnone. by right.
Qed.








Lemma for_each_M_map {A B} (g : A → B) (f : B → M unit) xs :
  for_each_M (λ x, f (g x)) xs = for_each_M f (map g xs).
Proof. induction xs as [|x r IH]; [done|]. cbn. by rewrite IH. Qed.



End Sweep.


(** Scenario 4: the stray download of an earlier run is gone when [app.run]
    is reached; the file that cannot be unlinked and the sub-directory are
    reported and stay; the dangling link stays unreported. *)
Example startup_scenario :
  let r := startup Stub.no_int Stub.w_stray in
  r.1 = Ok () ∧
  fs r.2 !! "temp_downloads/old.mp4" = None ∧
  fs r.2 !! "temp_downloads/held.part" = Some (File false) ∧
  fs r.2 !! "temp_downloads/cache" = Some Dir ∧
  fs r.2 !! "temp_downloads/latest" = Some Dangling ∧
  fs r.2 !! "cookies.txt" = Some (File true) ∧
  last (trace r.2) = Some (EvRun "0.0.0.0" 5000) ∧
  length (filter (λ e, is_log e = true) (trace r.2)) = 3%nat.
Proof. by vm_compute. Qed.


Example sweep_dangling_scenario :
  let r := sweep Stub.w_dangling in
  r.1 = Ok () ∧
  fs r.2 !! "temp_downloads/old.mp4" = None ∧
  fs r.2 !! "temp_downloads/latest" = Some Dangling ∧
  trace r.2 = [EvLog INFO "Deleted: temp_downloads/old.mp4"].
Proof. by vm_compute. Qed.

(** ** Validation of the URL *)

Section Validation.

Variable urlparse_netloc : string → result string.
Variable extract_info :
  pyval → string → bool → gmap string node → result pyval * gmap string node.
Variable prepare_filename : pyval → pyval → result string.
Variable root_path : string.

Lemma prefix_spec a b :
  String.prefix a b = true ↔ ∃ post, b = a +:+ post.
Proof.
  revert b. induction a as [|c a IH]; intros b.
  - split; [by exists b|by destruct b].
  - destruct b as [|d b]; [split; [done|by intros [? ?]]|].
    change (String.prefix (String c a) (String d b))
      with (if Ascii.ascii_dec c d then String.prefix a b else false).
    destruct (Ascii.ascii_dec c d) as [->|Hne].
    + rewrite IH. split; intros [post E]; exists post.
      * by rewrite append_cons, <- E.
      * rewrite append_cons in E. congruence.
    + split; [done|]. intros [post E]. rewrite append_cons in E. congruence.
Qed.

(** [contains] is the substring test. *)
Lemma contains_spec needle hay :
  contains needle hay = true ↔ ∃ pre post, hay = pre +:+ needle +:+ post.
Proof.
  induction hay as [|c hay IH]; cbn [contains];
    rewrite orb_true_iff, prefix_spec.
  - split.
    + intros [[post E]|]; [|done]. by exists "", post.
    + intros (pre & post & E). left. exists post.
      destruct pre; [done|]. by rewrite append_cons in E.
  - rewrite IH. split.
    + intros [[post E]|(pre & post & E)].
      * by exists "", post.
      * exists (String c pre), post. by rewrite append_cons, E.
    + intros (pre & post & E). destruct pre as [|d pre].
      * left. by exists post.
      * right. exists pre, post. rewrite append_cons in E. congruence.
Qed.

Lemma is_valid_youtube_url_false url :
  (∀ netloc, urlparse_netloc url = Ok netloc →
     ∀ domain, domain ∈ domains → contains domain netloc = false) →
  is_valid_youtube_url urlparse_netloc url = false.
Proof.
  intros H. unfold is_valid_youtube_url.
  destruct (urlparse_netloc url) as [netloc|e]; [|done].
  specialize (H netloc eq_refl). unfold domains in *. cbn.
  rewrite !H; [done|set_solver..].
Qed.

(** C3, as the code has it. The test is made on the network location
    [urlparse] reports for the stripped text (user information, host and
    port together), not on the host alone. A request to [/info] or
    [/download] whose [url] field is a string (or is missing), and whose
    network location contains neither [youtube.com] nor [youtu.be], is
    answered with 400 [Invalid YouTube URL]; the world it leaves is the one
    it found, so the trace has no extractor call (and no other event). *)
Theorem invalid_host_rejected
    (kvs : list (string * pyval)) (s : string) (w : world) :
  default (PStr "") (assoc "url" kvs) = PStr s →
  (∀ netloc, urlparse_netloc (strip s) = Ok netloc →
     ∀ domain, domain ∈ domains → contains domain netloc = false) →
  get_video_info urlparse_netloc extract_info (PDict kvs) w
    = (Json 400 (error_body "Invalid YouTube URL"), w) ∧
  download_video urlparse_netloc extract_info prepare_filename root_path (PDict kvs) w
    = (Json 400 (error_body "Invalid YouTube URL"), w).
Proof.
  intros Hurl Hhost.
  apply is_valid_youtube_url_false in Hhost.
  unfold get_video_info, download_video, view, bind, lift, get, ret.
  rewrite Hurl. cbn [strip_method]. rewrite Hhost, orb_true_r. done.
Qed.

End Validation.

Lemma invalid_host_rejected_witness :
  get_video_info Stub.netloc Stub.extractor
    (PDict [("url", PStr " https://vimeo.com/abc123 ")]) Stub.w0
    = (Json 400 (error_body "Invalid YouTube URL"), Stub.w0) ∧
  download_video Stub.netloc Stub.extractor Stub.prepare Stub.root
    (PDict [("url", PStr " https://vimeo.com/abc123 ")]) Stub.w0
    = (Json 400 (error_body "Invalid YouTube URL"), Stub.w0).
Proof.
  apply (invalid_host_rejected Stub.netloc Stub.extractor Stub.prepare Stub.root
           [("url", PStr " https://vimeo.com/abc123 ")]
           " https://vimeo.com/abc123 " Stub.w0).
  - reflexivity.
  - vm_compute. intros netloc [= <-] domain Hd.
    repeat (apply elem_of_cons in Hd as [->|Hd]; [reflexivity|]).
    by apply elem_of_nil in Hd.
Defined.

(** Scenario 2: [POST /info] with [not-a-url]. *)
Example info_not_a_url :
  get_video_info Stub.netloc Stub.extractor
    (PDict [("url", PStr "not-a-url")]) Stub.w0
  = (Json 400 (PDict [("error", PStr "Invalid YouTube URL")]), Stub.w0).
Proof. reflexivity. Qed.

(** The test is a substring test: a foreign host that embeds an allowed
    domain passes validation; a path that does so is rejected. *)
Example substring_host_accepted :
  is_valid_youtube_url Stub.netloc "https://youtube.com.example.org/x" = true ∧
  is_valid_youtube_url Stub.netloc "https://example.org/youtube.com" = false.
Proof. by vm_compute. Qed.

(** C3 read to the letter does not hold of the handlers. The host of
    [https://youtube.com@evil.example/x] is [evil.example], which contains
    no allowed domain, but its network location is
    [youtube.com@evil.example]: the request passes validation. *)
Lemma rejects_foreign_hosts_fails :
  ¬ rejects_foreign_hosts Stub.netloc Stub.extractor Stub.prepare Stub.root
      (Stub.request "https://youtube.com@evil.example/x" "mp4") Stub.w0.
Proof.
  intros H.
  destruct (H "https://youtube.com@evil.example/x" "youtube.com@evil.example")
    as [Hinfo _].
  - reflexivity.
  - by vm_compute.
  - intros domain Hd.
    repeat (apply elem_of_cons in Hd as [->|Hd]; [by vm_compute|]).
    by apply elem_of_nil in Hd.
  - by vm_compute in Hinfo.
Qed.

(** The same request as the handlers serve it: both call the extractor
    with the URL. *)
Example userinfo_reaches_extractor :
  let data := Stub.request "https://youtube.com@evil.example/x" "mp4" in
  hostname "youtube.com@evil.example" = "evil.example" ∧
  head (trace (get_video_info Stub.netloc Stub.extractor data Stub.w0).2)
    = Some (EvExtract info_opts "https://youtube.com@evil.example/x" false) ∧
  status_of (get_video_info Stub.netloc Stub.extractor data Stub.w0).1
    = 200%nat ∧
  status_of (download_video Stub.netloc Stub.extractor Stub.prepare Stub.root
               data Stub.w0).1 = 200%nat.
Proof. by vm_compute. Qed.

(** ** Loops that build a list: [for_each] *)

Section ForEach.

Context {A B : Type} (f : A → result B).

Lemma for_each_Ok xs ys :
  for_each f xs = Ok ys ↔ Forall2 (λ x y, f x = Ok y) xs ys.
Proof.
  revert ys. induction xs as [|x r IH]; intros ys; cbn.
  - split; [intros [= <-]; constructor|by inversion 1].
  - destruct (f x) as [y|e] eqn:Ef; cbn.
    + destruct (for_each f r) as [ys'|e] eqn:Er; cbn.
      * split.
        -- intros [= <-]. constructor; [done|]. by apply IH.
        -- inversion 1 as [|? y' ? ys'' Hy Hr]; subst.
           apply IH in Hr. congruence.
      * split; [done|]. inversion 1 as [|? y' ? ys'' Hy Hr]; subst.
        apply IH in Hr. congruence.
    + split; [done|]. inversion 1; congruence.
Qed.

(** The loop raises as soon as one element does. *)
Lemma for_each_raises xs x :
  x ∈ xs → raises (f x) → raises (for_each f xs).
Proof.
  intros Hin [e He]. induction xs as [|y r IH]; [by apply elem_of_nil in Hin|].
  cbn. destruct (f y) as [z|e'] eqn:Ey; [|by eexists].
  apply elem_of_cons in Hin as [->|Hin]; [congruence|].
  destruct (IH Hin) as [e'' ->]. by eexists.
Qed.

Lemma for_each_length xs ys : for_each f xs = Ok ys → length ys = length xs.
Proof. intros H. apply for_each_Ok in H. symmetry. by eapply Forall2_length. Qed.

End ForEach.

Lemma omap_id_elem {A} (rs : list (option A)) y :
  y ∈ omap id rs ↔ Some y ∈ rs.
Proof.
  rewrite list_elem_of_omap. split.
  - intros (x & Hx & E). unfold id in E. by subst.
  - intros ?. by exists (Some y).
Qed.

Lemma omap_id_length {A} (rs : list (option A)) :
  (length (omap id rs) ≤ length rs)%nat.
Proof. induction rs as [|[a|] r IH]; cbn; lia. Qed.

(** Case analysis on the next call of a handler that may raise. *)
Ltac destruct_ok H :=
  match type of H with
  | context [match ?x with Ok _ => _ | Raise _ => _ end] =>
      destruct x eqn:?
  end.

(** ** [/info] *)

Section Inspect.

Variable urlparse_netloc : string → result string.
Variable extract_info :
  pyval → string → bool → gmap string node → result pyval * gmap string node.

Lemma list_formats_elem items formats e :
  list_formats items = Ok formats → e ∈ formats →
  ∃ f, f ∈ items ∧ keeps_format f = Ok true ∧ format_entry f = Ok e.
Proof.
  unfold list_formats. intros H He.
  destruct (for_each format_format items) as [rs|] eqn:E; [|done].
  cbn in H. injection H as <-.
  apply omap_id_elem in He. apply for_each_Ok in E.
  destruct (proj1 (list_elem_of_lookup _ _) He) as [i Hi].
  destruct (Forall2_lookup_r _ _ _ _ _ E Hi) as (f & Hf & Hff).
  exists f. split; [by eapply list_elem_of_lookup_2|].
  unfold format_format in Hff.
  destruct (keeps_format f) as [[]|]; cbn in Hff; [|done..].
  destruct (format_entry f); cbn in Hff; [|done]. by injection Hff as ->.
Qed.

Lemma keeps_format_true f :
  keeps_format f = Ok true →
  ∃ kvs u, f = PDict kvs ∧ get1 f "url" = Ok u ∧ truthy u = true ∧
           get1 f "vcodec" ≠ Ok (PStr "none").
Proof.
  unfold keeps_format. destruct f as [| | | | |kvs]; try done.
  cbn. destruct (truthy _) eqn:Et; [|done]. intros [= Hv].
  exists kvs, (default PNone (assoc "url" kvs)). split_and!; try done.
  intros [= E]. rewrite E in Hv. done.
Qed.

Lemma format_entry_url kvs e :
  format_entry (PDict kvs) = Ok e →
  get1 e "url" = get1 (PDict kvs) "url".
Proof.
  unfold format_entry. cbn.
  destruct (truthy (default PNone (assoc "resolution" kvs))); cbn;
    by intros [= <-].
Qed.

(** C2. Whenever [/info] answers 200, its [formats] list is what the loop
    builds from the formats the extractor reported, and every entry of it
    stems from a reported format whose [url] is truthy (a stream location
    is there) and whose [vcodec] is not the string [none]; the entry
    carries that same [url]. *)
Theorem info_formats_filtered (data : pyval) (w w' : world) (body : pyval) :
  get_video_info urlparse_netloc extract_info data w = (Json 200 body, w') →
  ∃ url info fmts items formats,
    (extract_info info_opts url false (fs w)).1 = Ok info ∧
    get info "formats" (PList []) = Ok fmts ∧
    iter fmts = Ok items ∧
    list_formats items = Ok formats ∧
    get1 body "formats" = Ok (PList formats) ∧
    ∀ e, e ∈ formats →
      ∃ kvs u,
        PDict kvs ∈ items ∧
        format_entry (PDict kvs) = Ok e ∧
        get1 (PDict kvs) "url" = Ok u ∧ truthy u = true ∧
        get1 (PDict kvs) "vcodec" ≠ Ok (PStr "none") ∧
        get1 e "url" = Ok u.
Proof.
  unfold get_video_info, view, bind, lift, try_except, ret, log.
  intros H.
  destruct (get data "url" (PStr "")) as [u|]; [|done].
  destruct (strip_method u) as [url|]; [|done].
  destruct (negb (truthy (PStr url)) || _); [done|].
  unfold ydl_extract_info in H. cbn [fs emit] in H.
  destruct (extract_info info_opts url false (fs w)) as [[info|] f1] eqn:Ex;
    [|done].
  destruct (get info "formats" (PList [])) as [fmts|] eqn:Ef; [|done].
  destruct (iter fmts) as [items|] eqn:Ei; [|done].
  destruct (list_formats items) as [formats|] eqn:El; [|done].
  repeat (destruct_ok H; [|done]).
  injection H as <- <-.
  exists url, info, fmts, items, formats. split_and!; try done.
  - by rewrite Ex.
  - intros e He.
    destruct (list_formats_elem _ _ _ El He) as (f & Hf & Hk & Hfe).
    destruct (keeps_format_true _ Hk) as (kvs & u' & -> & Hu & Ht & Hv).
    exists kvs, u'. split_and!; try done.
    by rewrite (format_entry_url _ _ Hfe).
Qed.

End Inspect.

(** Scenario: of four reported formats, the audio-only one ([vcodec] is
    [none]) and the one without a [url] are dropped; a format that does not
    say what its [vcodec] is stays. *)
Example info_scenario :
  ∃ body w',
    get_video_info Stub.netloc Stub.extractor
      (Stub.request "https://youtu.be/abc123" "mp4") Stub.w0
    = (Json 200 body, w') ∧
    (rbind (get1 body "formats") (λ fs,
     rbind (iter fs) (for_each (λ e, get1 e "itag"))))
    = Ok [PStr "18"; PStr "22"].
Proof. do 2 eexists. split; reflexivity. Qed.


Lemma info_formats_filtered_witness :
  ∃ body w',
    get_video_info Stub.netloc Stub.extractor
      (Stub.request "https://youtu.be/abc123" "mp4") Stub.w0
    = (Json 200 body, w') ∧
    ∃ url info fmts items formats,
      (Stub.extractor info_opts url false (fs Stub.w0)).1 = Ok info ∧
      get info "formats" (PList []) = Ok fmts ∧
      iter fmts = Ok items ∧
      list_formats items = Ok formats ∧
      get1 body "formats" = Ok (PList formats) ∧
      ∀ e, e ∈ formats →
        ∃ kvs u,
          PDict kvs ∈ items ∧
          format_entry (PDict kvs) = Ok e ∧
          get1 (PDict kvs) "url" = Ok u ∧ truthy u = true ∧
          get1 (PDict kvs) "vcodec" ≠ Ok (PStr "none") ∧
          get1 e "url" = Ok u.
Proof.
  do 2 eexists. split; [vm_compute; reflexivity|].
  eapply (info_formats_filtered Stub.netloc Stub.extractor
            (Stub.request "https://youtu.be/abc123" "mp4") Stub.w0).
  vm_compute; reflexivity.
Defined.

(** ** [/search] *)

Section Search.

Variable extract_info :
  pyval → string → bool → gmap string node → result pyval * gmap string node.

(** An entry the loop keeps is a non-empty dict; the [id] it is given is
    the extractor's, unchecked, and its [url] is built from that [id]. *)
Lemma format_video_Some video e :
  format_video video = Ok (Some e) →
  ∃ kvs, video = PDict kvs ∧ truthy video = true ∧
         get1 e "id" = Ok (default PNone (assoc "id" kvs)) ∧
         get1 e "url" =
           Ok (PStr ("https://youtu.be/" +:+ str (default PNone (assoc "id" kvs)))).
Proof.
  unfold format_video. destruct (truthy video) eqn:Et; [|done]. cbn [negb].
  destruct video as [| | | | |kvs]; try done. cbn [get1 get rbind].
  intros H. unfold rbind in H. repeat (destruct_ok H; [|done]).
  injection H as <-. by exists kvs.
Qed.

Lemma format_video_None video :
  format_video video = Ok None ↔ truthy video = false.
Proof.
  unfold format_video. destruct (truthy video) eqn:Et; cbn [negb]; [|done].
  split; [|done]. intros H.
  destruct video as [| | | | |kvs]; try done. cbn [get1 get rbind] in H.
  unfold rbind in H. repeat (destruct_ok H; [|done]). done.
Qed.

Lemma format_videos_filter items formatted :
  format_videos items = Ok formatted →
  Forall2 (λ video e, format_video video = Ok (Some e))
          (filter (λ v, truthy v = true) items) formatted.
Proof.
  unfold format_videos.
  destruct (for_each format_video items) as [rs|] eqn:E; [|done].
  cbn. intros [= <-]. apply for_each_Ok in E.
  induction E as [|video r items rs Hv _ IH]; [constructor|].
  destruct r as [e|].
  - apply format_video_Some in Hv as Hk. destruct Hk as (kvs & -> & Ht & _).
    rewrite filter_cons_True by done. cbn. by constructor.
  - apply format_video_None in Hv.
    rewrite filter_cons_False by (by rewrite Hv). done.
Qed.

(** Where the entries of a 200 answer come from. When [/search] answers
    200, the query was not empty after stripping, the extractor was asked
    for [ytsearch20:<query>], and the answer lists one entry for each
    truthy entry the extractor yielded, in the extractor's order, hence
    never more entries than the extractor yielded. Each listed entry
    carries the extractor's [id] as it came and the [url]
    [https://youtu.be/] followed by [str(id)], which for a string id is
    the id itself. *)
Lemma search_entries (data : pyval) (w w' : world) (body : pyval) :
  search_video extract_info data w = (Json 200 body, w') →
  ∃ query result videos items formatted,
    rbind (get data "query" (PStr "")) strip_method = Ok query ∧
    query ≠ "" ∧
    (extract_info search_opts ("ytsearch20:" +:+ query) false (fs w)).1
      = Ok result ∧
    get result "entries" (PList []) = Ok videos ∧
    iter videos = Ok items ∧
    body = PList formatted ∧
    Forall2 (λ video e, format_video video = Ok (Some e))
            (filter (λ v, truthy v = true) items) formatted ∧
    (length formatted ≤ length items)%nat ∧
    ∀ e, e ∈ formatted →
      ∃ kvs, PDict kvs ∈ items ∧
        get1 e "id" = Ok (default PNone (assoc "id" kvs)) ∧
        get1 e "url" =
          Ok (PStr ("https://youtu.be/"
                    +:+ str (default PNone (assoc "id" kvs)))) ∧
        ∀ i, assoc "id" kvs = Some (PStr i) →
             get1 e "id" = Ok (PStr i) ∧
             get1 e "url" = Ok (PStr ("https://youtu.be/" +:+ i)).
Proof.
  unfold search_video, view, bind, lift, try_except, ret, log.
  intros H.
  destruct (get data "query" (PStr "")) as [q|] eqn:Eq; [|done].
  destruct (strip_method q) as [query|] eqn:Es; [|done].
  destruct (negb (truthy (PStr query))) eqn:Et; [done|].
  unfold ydl_extract_info in H. cbn [fs emit] in H.
  destruct (extract_info search_opts ("ytsearch20:" +:+ query) false (fs w))
    as [[result|] f1] eqn:Ex; [|done].
  destruct (get result "entries" (PList [])) as [videos|] eqn:Ev; [|done].
  destruct (iter videos) as [items|] eqn:Ei; [|done].
  destruct (format_videos items) as [formatted|] eqn:Ef; [|done].
  injection H as <- <-.
  pose proof (format_videos_filter _ _ Ef) as HF.
  exists query, result, videos, items, formatted. split_and!; try done.
  - cbn in Et. apply negb_false_iff, negb_true_iff in Et.
    by apply String.eqb_neq in Et.
  - by rewrite Ex.
  - rewrite <- (Forall2_length _ _ _ HF). apply length_filter.
  - intros e He.
    destruct (proj1 (list_elem_of_lookup _ _) He) as [i Hi].
    destruct (Forall2_lookup_r _ _ _ _ _ HF Hi) as (video & Hv & Hfv).
    apply format_video_Some in Hfv as (kvs & -> & _ & Hid & Hurl).
    exists kvs. split_and!; try done.
    + apply list_elem_of_lookup_2 in Hv.
      by apply list_elem_of_filter in Hv as [_ ?].
    + intros j Hj. rewrite Hid, Hurl, Hj. done.
Qed.

(** C7. The handler asks the extractor for [ytsearch20:<query>] and lists
    what it yields. With an extractor that answers such a request as
    [yt_dlp] does (at most 20 entries, each unreadable entry falsy and
    every other one a dict with a non-empty string [id]), every 200 answer
    of [/search] lists at most 20 entries, each with a non-empty [id] and
    the [url] [https://youtu.be/] followed by that [id]. *)
Theorem search_limit_and_ids (data : pyval) (w : world) :
  honours_ytsearch extract_info (fs w) →
  search_within_limit extract_info data w.
Proof.
  intros Hc body w' H.
  destruct (search_entries data w w' body H)
    as (query & result & videos & items & formatted & _ & _ & Hex & Hent &
        Hit & -> & HF & Hlen & _).
  destruct (Hc query result Hex) as (items' & Hent' & Hmax & Hids).
  rewrite Hent in Hent'. injection Hent' as ->. cbn in Hit.
  injection Hit as <-.
  exists formatted. split_and!; [done|lia|].
  intros e He.
  destruct (proj1 (list_elem_of_lookup _ _) He) as [i Hi].
  destruct (Forall2_lookup_r _ _ _ _ _ HF Hi) as (video & Hv & Hfv).
  apply list_elem_of_lookup_2, list_elem_of_filter in Hv as [Ht Hin].
  destruct (Hids video Hin Ht) as (vk & vid & -> & Hid & Hne).
  apply format_video_Some in Hfv as (kvs & [= <-] & _ & Hgid & Hurl).
  exists vid. rewrite Hgid, Hurl, Hid. done.
Qed.

Lemma for_each_first_raise {A B} (f : A → result B) pre x post e :
  (∀ v, v ∈ pre → ¬ raises (f v)) → f x = Raise e →
  for_each f (pre ++ x :: post) = Raise e.
Proof.
  intros Hpre Hx. induction pre as [|y pre IH]; cbn.
  - by rewrite Hx.
  - destruct (f y) as [z|e'] eqn:Ey.
    + cbn. rewrite IH; [done|]. intros v Hv. apply Hpre. by right.
    + exfalso. apply (Hpre y); [by left|by eexists].
Qed.

(** C10. When the extractor's entries for a non-empty query include a dict
    whose [thumbnails] is the empty list, formatting that entry raises
    [IndexError] at [[-1]], and [/search] answers 500 [Search failed]
    instead of a list; if no entry before it raises, the reported
    exception is that [IndexError]. *)
Theorem empty_thumbnails_fail_search
    (data : pyval) (w : world) (query : string) (result : pyval)
    (items : list pyval) (kvs : list (string * pyval)) :
  rbind (get data "query" (PStr "")) strip_method = Ok query →
  query ≠ "" →
  (extract_info search_opts ("ytsearch20:" +:+ query) false (fs w)).1
    = Ok result →
  get result "entries" (PList []) = Ok (PList items) →
  PDict kvs ∈ items →
  assoc "thumbnails" kvs = Some (PList []) →
  format_video (PDict kvs) = Raise (Exc IndexError "list index out of range") ∧
  ∃ e w',
    search_video extract_info data w
      = (Json 500 (error_details "Search failed" e), w') ∧
    ∀ pre post,
      items = pre ++ PDict kvs :: post →
      (∀ v, v ∈ pre → ¬ raises (format_video v)) →
      e = Exc IndexError "list index out of range".
Proof.
  intros Hq Hne Hex Hent Hin Hth.
  assert (Hfv : format_video (PDict kvs)
                = Raise (Exc IndexError "list index out of range")).
  { unfold format_video. destruct kvs as [|kv kvs']; [done|].
    cbn [truthy negb get1 get rbind]. by rewrite Hth. }
  split; [done|].
  destruct (for_each_raises format_video items _ Hin) as [e He];
    [by eexists|].
  exists e.
  unfold search_video, view, bind, lift, try_except, ret, log.
  destruct (get data "query" (PStr "")) as [q|]; [|done]. cbn in Hq.
  rewrite Hq.
  apply String.eqb_neq in Hne. cbn [truthy negb]. rewrite Hne. cbn [negb].
  unfold ydl_extract_info. cbn [fs emit].
  destruct (extract_info search_opts ("ytsearch20:" +:+ query) false (fs w))
    as [r f1]. cbn in Hex. subst r. rewrite Hent. cbn [iter].
  unfold format_videos. rewrite He. cbn [rbind].
  eexists. split; [reflexivity|].
  intros pre post -> Hpre.
  rewrite (for_each_first_raise _ _ _ _ _ Hpre Hfv) in He. congruence.
Qed.

End Search.

Lemma search_entries_witness :
  ∃ body w',
    search_video Stub.extractor (PDict [("query", PStr " lofi ")]) Stub.w0
    = (Json 200 body, w') ∧
    ∃ query result videos items formatted,
      rbind (get (PDict [("query", PStr " lofi ")]) "query" (PStr ""))
            strip_method = Ok query ∧
      query ≠ "" ∧
      (Stub.extractor search_opts ("ytsearch20:" +:+ query) false
         (fs Stub.w0)).1 = Ok result ∧
      get result "entries" (PList []) = Ok videos ∧
      iter videos = Ok items ∧
      body = PList formatted ∧
      Forall2 (λ video e, format_video video = Ok (Some e))
              (filter (λ v, truthy v = true) items) formatted ∧
      (length formatted ≤ length items)%nat ∧
      ∀ e, e ∈ formatted →
        ∃ kvs, PDict kvs ∈ items ∧
          get1 e "id" = Ok (default PNone (assoc "id" kvs)) ∧
          get1 e "url" =
            Ok (PStr ("https://youtu.be/"
                      +:+ str (default PNone (assoc "id" kvs)))) ∧
          ∀ i, assoc "id" kvs = Some (PStr i) →
               get1 e "id" = Ok (PStr i) ∧
               get1 e "url" = Ok (PStr ("https://youtu.be/" +:+ i)).
Proof.
  do 2 eexists. split; [vm_compute; reflexivity|].
  eapply (search_entries Stub.extractor
            (PDict [("query", PStr " lofi ")]) Stub.w0).
  vm_compute; reflexivity.
Defined.

(** Scenario 1: three entries from the extractor give three objects, in the
    extractor's order. *)
Example search_scenario :
  ∃ body w',
    search_video Stub.extractor (PDict [("query", PStr "lofi")]) Stub.w0
    = (Json 200 body, w') ∧
    rbind (iter body) (for_each (λ e, get1 e "url"))
    = Ok [PStr "https://youtu.be/a1"; PStr "https://youtu.be/b2";
          PStr "https://youtu.be/c3"].
Proof. do 2 eexists. split; reflexivity. Qed.

Lemma search_limit_and_ids_witness :
  ∃ entries w',
    search_video Stub.extractor (PDict [("query", PStr " lofi ")]) Stub.w0
      = (Json 200 (PList entries), w') ∧
    (length entries ≤ 20)%nat ∧
    ∀ e, e ∈ entries →
      ∃ i, i ≠ "" ∧ get1 e "id" = Ok (PStr i) ∧
           get1 e "url" = Ok (PStr ("https://youtu.be/" +:+ i)).
Proof.
  assert (Hc : honours_ytsearch Stub.extractor (fs Stub.w0)).
  { intros query result. unfold Stub.extractor.
    assert (String.prefix "ytsearch20:" ("ytsearch20:" +:+ query) = true)
      as -> by (apply prefix_spec; by eexists).
    intros [= <-]. exists Stub.three_entries.
    split_and!; [reflexivity|cbn; lia|].
    intros v Hv _.
    repeat (apply elem_of_cons in Hv as [->|Hv];
            [do 2 eexists; split_and!; [reflexivity..|discriminate]|]).
    by apply elem_of_nil in Hv. }
  do 2 eexists.
  destruct (search_limit_and_ids Stub.extractor
              (PDict [("query", PStr " lofi ")]) Stub.w0 Hc _ _ eq_refl)
    as (entries & Hb & Hlen & Hids).
  split; [reflexivity|].
  vm_compute in Hb. injection Hb as <-.
  split; [exact Hlen|exact Hids].
Defined.

Lemma empty_thumbnails_fail_search_witness :
  format_video (PDict [("id", PStr "b2"); ("thumbnails", PList [])])
    = Raise (Exc IndexError "list index out of range") ∧
  ∃ e w',
    search_video Stub.extractor_no_thumbs (PDict [("query", PStr "lofi")])
      Stub.w0
    = (Json 500 (error_details "Search failed" e), w') ∧
    ∀ pre post,
      [Stub.entry "a1" "one";
       PDict [("id", PStr "b2"); ("thumbnails", PList [])];
       Stub.entry "c3" "three"]
      = pre ++ PDict [("id", PStr "b2"); ("thumbnails", PList [])] :: post →
      (∀ v, v ∈ pre → ¬ raises (format_video v)) →
      e = Exc IndexError "list index out of range".
Proof.
  apply (empty_thumbnails_fail_search Stub.extractor_no_thumbs
           (PDict [("query", PStr "lofi")]) Stub.w0 "lofi"
           (PDict [("entries",
                    PList [Stub.entry "a1" "one";
                           PDict [("id", PStr "b2"); ("thumbnails", PList [])];
                           Stub.entry "c3" "three"])])).
  - reflexivity.
  - discriminate.
  - reflexivity.
  - reflexivity.
  - apply elem_of_cons; right. apply elem_of_cons; by left.
  - reflexivity.
Defined.

(** The same request as the handler answers it. *)
Example search_no_thumbs_scenario :
  (search_video Stub.extractor_no_thumbs (PDict [("query", PStr "lofi")])
     Stub.w0).1
  = Json 500 (PDict [("error", PStr "Search failed");
                     ("details", PStr "list index out of range")]).
Proof. reflexivity. Qed.

(** ** [os.path.splitext] on a path with an extension *)

Section Splitext.

Lemma length_append s t :
  String.length (s +:+ t) = (String.length s + String.length t)%nat.
Proof. induction s as [|c s IH]; [done|]. rewrite append_cons. cbn. lia. Qed.

Lemma rfind_absent c t : mem_char c t = false → rfind c t = None.
Proof.
  induction t as [|d t IH]; [done|]. cbn [mem_char rfind].
  intros [Hc Ht]%orb_false_iff. by rewrite (IH Ht), Hc.
Qed.

Lemma rfind_app_absent c s t :
  mem_char c t = false → rfind c (s +:+ t) = rfind c s.
Proof.
  intros Ht. induction s as [|d s IH]; [by apply rfind_absent|].
  rewrite append_cons. cbn [rfind]. by rewrite IH.
Qed.

Lemma rfind_app_here c s t :
  mem_char c t = false → rfind c (s +:+ String c t) = Some (String.length s).
Proof.
  intros Ht. induction s as [|d s IH].
  - change ("" +:+ String c t) with (String c t). cbn [rfind].
    by rewrite (rfind_absent _ _ Ht), Ascii.eqb_refl.
  - rewrite append_cons. cbn [rfind]. by rewrite IH.
Qed.

Lemma rfind_lt c s i : rfind c s = Some i → (i < String.length s)%nat.
Proof.
  revert i. induction s as [|d s IH]; intros i; [done|]. cbn [rfind].
  destruct (rfind c s) as [j|].
  - intros [= <-]. specialize (IH j eq_refl). cbn. lia.
  - destruct (Ascii.eqb c d); [|done]. intros [= <-]. cbn. lia.
Qed.

Lemma take_str_app s t : take_str (String.length s) (s +:+ t) = s.
Proof. induction s as [|c s IH]; [by destruct t|]. rewrite append_cons. cbn. by rewrite IH. Qed.

Lemma drop_str_app s t : drop_str (String.length s) (s +:+ t) = t.
Proof. induction s as [|c s IH]; [by destruct t|]. by rewrite append_cons. Qed.

Lemma drop_str_app_le n s t :
  (n ≤ String.length s)%nat → drop_str n (s +:+ t) = drop_str n s +:+ t.
Proof.
  revert n. induction s as [|c s IH]; intros n Hn.
  - cbn in Hn. assert (n = 0%nat) as -> by lia. by destruct t.
  - destruct n as [|n]; [done|]. rewrite append_cons. cbn [drop_str].
    apply IH. cbn in Hn. lia.
Qed.

Lemma length_drop_str n s :
  String.length (drop_str n s) = (String.length s - n)%nat.
Proof.
  revert n. induction s as [|c s IH]; intros [|n]; try done. cbn. apply IH.
Qed.

Lemma take_str_reaches (P : ascii → bool) n u c v :
  (String.length u < n)%nat → P c = true →
  existsb P (String.list_ascii_of_string (take_str n (u +:+ String c v)))
  = true.
Proof.
  revert n. induction u as [|d u IH]; intros n Hn Hc.
  - destruct n as [|n]; [cbn in Hn; lia|].
    change ("" +:+ String c v) with (String c v). cbn. by rewrite Hc.
  - destruct n as [|n]; [cbn in Hn; lia|].
    rewrite append_cons. cbn [take_str String.list_ascii_of_string existsb].
    rewrite IH; [apply orb_true_r| cbn in Hn; lia | done].
Qed.

(** A path whose last component has a character other than a dot before
    its last dot splits at that dot. *)
Lemma splitext_ext a c b ext :
  c ≠ "."%char → c ≠ "/"%char →
  mem_char "/" b = false →
  mem_char "." ext = false → mem_char "/" ext = false →
  splitext ((a +:+ String c b) +:+ "." +:+ ext)
  = (a +:+ String c b, "." +:+ ext).
Proof.
  intros Hdot Hsl Hb Hext Hext'.
  set (root := a +:+ String c b).
  assert (Hcb : mem_char "/" (String c b) = false).
  { cbn [mem_char]. rewrite Hb, orb_false_r.
    by destruct (Ascii.eqb_spec "/"%char c); [subst|]. }
  unfold splitext.
  change ("." +:+ ext) with (String "."%char ext).
  rewrite (rfind_app_here "." root ext Hext).
  assert (Hsep : rfind "/" (root +:+ String "." ext) = rfind "/" a).
  { rewrite rfind_app_absent by (cbn [mem_char]; by rewrite Hext').
    unfold root. by rewrite rfind_app_absent. }
  rewrite Hsep.
  set (fi := match rfind "/" a with Some i => S i | None => 0%nat end).
  assert (Hfi : (fi ≤ String.length a)%nat).
  { unfold fi. destruct (rfind "/" a) as [i|] eqn:E; [|lia].
    apply rfind_lt in E. lia. }
  assert (Hlen : String.length root
                 = (String.length a + S (String.length b))%nat).
  { unfold root. by rewrite length_append. }
  assert ((fi <=? String.length root)%nat = true) as ->
    by (apply Nat.leb_le; lia).
  rewrite take_str_app, drop_str_app. cbn [andb].
  unfold root at 2. rewrite append_assoc, drop_str_app_le by done.
  rewrite append_cons.
  rewrite take_str_reaches; [done| |].
  - rewrite length_drop_str. lia.
  - by destruct (Ascii.eqb_spec c "."%char).
Qed.

End Splitext.

(** The example of the specification: [temp/abc123.m4a] becomes
    [temp/abc123.mp3]; a video format keeps the fetched path. *)
Example final_filename_example :
  final_filename (PStr "mp3") "temp/abc123.m4a" = "temp/abc123.mp3" ∧
  final_filename (PStr "mp4") "temp/abc123.mp4" = "temp/abc123.mp4" ∧
  final_filename (PStr "mp3") "temp.d/abc123" = "temp.d/abc123.mp3".
Proof. by vm_compute. Qed.

(** ** [/download] *)

Section Download.

Variable urlparse_netloc : string → result string.
Variable extract_info :
  pyval → string → bool → gmap string node → result pyval * gmap string node.
Variable prepare_filename : pyval → pyval → result string.
Variable root_path : string.

Abbreviation download_video :=
  (App.download_video urlparse_netloc extract_info prepare_filename root_path).
Abbreviation download_staged :=
  (App.download_staged urlparse_netloc extract_info prepare_filename root_path).
Abbreviation download_valid :=
  (App.download_valid extract_info prepare_filename root_path).

Lemma open_attachment_Ok f path mime name r :
  open_attachment root_path f path mime name = Ok r →
  r = Attachment path mime name [] ∧
  (∃ rm, f !! path = Some (File rm)) ∧
  has_line_break name = false.
Proof.
  unfold open_attachment.
  destruct (f !! path) as [[rm| |]|]; try done;
    destruct (has_line_break name); try done.
  intros [= <-]. eauto.
Qed.

(** The handler is its staged form. *)
Lemma download_video_stages data w :
  download_video data w = download_staged data w.
Proof.
  unfold App.download_video, App.download_staged, view.
  destruct data as [| | | | |kvs]; try reflexivity.
  unfold bind at 1, lift at 1, get at 1.
  destruct (default (PStr "") (assoc "url" kvs)) as [| | |s| |];
    try reflexivity.
  unfold bind at 1, lift at 1, strip_method.
  unfold bind at 1, lift at 1, get at 1.
  unfold bind at 1, lift at 1, get at 1.
  cbn [truthy]. rewrite negb_involutive.
  destruct (String.eqb (strip s) "" || _); [reflexivity|].
  unfold App.download_valid, download_opts, cookies_in_use, cookie_logs.
  unfold bind, try_except, os_getenv, cookies_usable, log, os_path_exists,
    ydl_extract_info, send_file, lift, ret, download_failed.
  destruct (environ w !! "COOKIES_FILE") as [p|] eqn:Ec;
    [cbn [truthy str]; destruct (String.eqb p "");
     cbn [negb andb fs emit];
     [|unfold path_exists; cbn [fs emit];
       destruct (fs w !! p) as [[| |]|] eqn:Ep;
       cbn [negb andb fs emit]; rewrite ?Ep; cbn [negb andb fs emit]]|];
    cbn [truthy negb andb fs emit emit_all fold_left app with_fs];
    (destruct (extract_info _ _ _ _) as [[info|e] f]; [|reflexivity]);
    cbn [fs emit with_fs];
    (destruct (prepare_filename _ _) as [fetched|e]; [|reflexivity]);
    unfold rbind;
    (destruct (getitem info "title") as [title|e]; [|reflexivity]);
    (destruct (slice_to 50 title) as [short|e]; [|reflexivity]);
    by destruct (open_attachment _ _ _ _ _).
Qed.

Lemma emit_all_trace evs w : trace (emit_all evs w) = trace w ++ evs.
Proof.
  revert w. induction evs as [|e evs IH]; intros w; cbn.
  - by rewrite app_nil_r.
  - rewrite IH. cbn. by rewrite <- app_assoc.
Qed.

Lemma emit_all_fs evs w : fs (emit_all evs w) = fs w.
Proof. revert w. induction evs as [|e evs IH]; intros w; cbn; [done|by rewrite IH]. Qed.

Lemma emit_all_environ evs w : environ (emit_all evs w) = environ w.
Proof. revert w. induction evs as [|e evs IH]; intros w; cbn; [done|by rewrite IH]. Qed.

Lemma assoc_set_ne k k' v kvs :
  k ≠ k' → assoc k (assoc_set k' v kvs) = assoc k kvs.
Proof.
  intros Hne. apply String.eqb_neq in Hne.
  induction kvs as [|[key x] r IH]; cbn; [by rewrite Hne|].
  destruct (String.eqb_spec k' key) as [->|Hk]; cbn.
  - by rewrite Hne.
  - by rewrite IH.
Qed.

(** What a validated request does, outcome by outcome: the events it
    adds, the file system it leaves, and its answer. *)
Lemma download_valid_spec url format_type itag w :
  let opts := download_opts format_type itag w in
  let ex := extract_info opts url true (fs w) in
  ∃ tail,
    trace (download_valid url format_type itag w).2
      = trace w ++ cookie_logs w ++ EvExtract opts url true :: tail ∧
    fs (download_valid url format_type itag w).2 = ex.2 ∧
    environ (download_valid url format_type itag w).2 = environ w ∧
    ((∃ e, (download_valid url format_type itag w).1
             = Json 500 (error_details "Download failed" e) ∧
           (ex.1 = Raise e ∨
            ∃ info, ex.1 = Ok info ∧
              (prepare_filename opts info = Raise e ∨
               ∃ fetched, prepare_filename opts info = Ok fetched ∧
                 rbind (getitem info "title") (slice_to 50) = Raise e)) ∧
           tail = [EvLog ERROR ("Download failed: " +:+ exc_str e)])
     ∨
     (∃ info fetched mimetype download_name,
        ex.1 = Ok info ∧ prepare_filename opts info = Ok fetched ∧
        let filename := final_filename format_type fetched in
        ((∃ e, (download_valid url format_type itag w).1
                 = Json 500 (error_details "Download failed" e) ∧
               open_attachment root_path ex.2 filename mimetype download_name
                 = Raise e ∧
               tail = [EvSendFile filename mimetype download_name;
                       EvLog ERROR ("Download failed: " +:+ exc_str e)])
         ∨
         ((download_valid url format_type itag w).1
            = Attachment filename mimetype download_name [Cleanup filename] ∧
          (∃ rm, ex.2 !! filename = Some (File rm)) ∧
          tail = [EvSendFile filename mimetype download_name])))).
Proof.
  cbn zeta. unfold App.download_valid, download_failed.
  set (opts := download_opts format_type itag w).
  destruct (extract_info opts url true (fs w)) as [[info|e] f]; cbn [fst snd].
  2:{ eexists. cbn [snd fst trace emit with_fs fs environ].
      rewrite emit_all_trace, ?emit_all_fs, emit_all_environ.
      rewrite <- !app_assoc. cbn [app].
      split_and!; [reflexivity..|]. left. exists e. eauto. }
  destruct (prepare_filename opts info) as [fetched|e] eqn:Ep.
  2:{ eexists. cbn [snd fst trace emit with_fs fs environ].
      rewrite emit_all_trace, emit_all_environ.
      rewrite <- !app_assoc. cbn [app].
      split_and!; [reflexivity..|]. left. exists e. eauto 10. }
  destruct (rbind (getitem info "title") (slice_to 50)) as [short|e] eqn:Et.
  2:{ eexists. cbn [snd fst trace emit with_fs fs environ].
      rewrite emit_all_trace, emit_all_environ.
      rewrite <- !app_assoc. cbn [app].
      split_and!; [reflexivity..|]. left. exists e. eauto 10. }
  destruct (open_attachment root_path f _ _ _) as [r|e] eqn:Ef;
    eexists; cbn [snd fst trace emit with_fs fs environ];
    rewrite emit_all_trace, emit_all_environ;
    rewrite <- !app_assoc; cbn [app];
    (split_and!; [reflexivity..|]); right;
    exists info, fetched; do 2 eexists; (split_and!; [done..|]);
    cbn zeta; rewrite Ef.
  - right. apply open_attachment_Ok in Ef as (-> & Hfile & _).
    split_and!; [reflexivity|exact Hfile|reflexivity].
  - left. exists e. split_and!; reflexivity.
Qed.

(** The three ways the handler can go. *)
Lemma download_video_cases data w :
  (∃ e, download_video data w = (InternalServerError e, w)) ∨
  download_video data w = (Json 400 (error_body "Invalid YouTube URL"), w) ∨
  (∃ kvs s,
     data = PDict kvs ∧ default (PStr "") (assoc "url" kvs) = PStr s ∧
     strip s ≠ "" ∧ is_valid_youtube_url urlparse_netloc (strip s) = true ∧
     download_video data w
       = download_valid (strip s) (default (PStr "mp4") (assoc "format" kvs))
           (default PNone (assoc "itag" kvs)) w).
Proof.
  rewrite download_video_stages. unfold App.download_staged.
  destruct data as [| | | | |kvs]; try (left; by eexists).
  destruct (default (PStr "") (assoc "url" kvs)) as [| | |s| |] eqn:Eu;
    try (left; by eexists).
  destruct (String.eqb_spec (strip s) "") as [|Hne]; [by right; left|].
  destruct (is_valid_youtube_url urlparse_netloc (strip s)) eqn:Ev;
    [|by right; left].
  right; right. exists kvs, s. by rewrite Eu.
Qed.

Lemma download_video_valid kvs s w :
  default (PStr "") (assoc "url" kvs) = PStr s →
  strip s ≠ "" →
  is_valid_youtube_url urlparse_netloc (strip s) = true →
  download_video (PDict kvs) w
    = download_valid (strip s) (default (PStr "mp4") (assoc "format" kvs))
        (default PNone (assoc "itag" kvs)) w.
Proof.
  intros Hu Hne Hv. rewrite download_video_stages.
  unfold App.download_staged. rewrite Hu, Hv.
  apply String.eqb_neq in Hne. by rewrite Hne.
Qed.

(** C1, as the code has it. The handler writes no file itself: the
    directory it leaves is the one it found or the one the extractor left.
    A request answered 400 changes nothing. When the answer is the
    attachment, exactly one clean-up is registered, for the streamed path,
    which names a regular file; closing the response touches no other
    path, and removes that file when it can be unlinked, so the directory
    is back at its baseline if that file was all the extractor added. When
    the answer is anything else, closing the response removes nothing. *)
Theorem download_release (data : pyval) (w : world) :
  let r := (download_video data w).1 in
  let w1 := (download_video data w).2 in
  let w2 := (close_response r w1).2 in
  (fs w1 = fs w ∨ ∃ opts url, fs w1 = (extract_info opts url true (fs w)).2) ∧
  (status_of r = 400%nat → w2 = w) ∧
  ((∀ path mime name cbs, r ≠ Attachment path mime name cbs) → w2 = w1) ∧
  (∀ path mime name cbs,
     r = Attachment path mime name cbs →
     cbs = [Cleanup path] ∧
     (∃ rm, fs w1 !! path = Some (File rm)) ∧
     (∀ p, p ≠ path → fs w2 !! p = fs w1 !! p) ∧
     (fs w1 !! path = Some (File true) →
        fs w2 = delete path (fs w1) ∧
        (fs w !! path = None → fs w1 = <[path := File true]> (fs w) →
           fs w2 = fs w))).
Proof.
  cbn zeta.
  destruct (download_video_cases data w)
    as [[e ->]|[->|(kvs & s & -> & Hu & Hne & Hv & ->)]].
  - cbn. split_and!; try done. by left.
  - cbn. split_and!; try done. by left.
  - destruct (download_valid_spec (strip s)
                (default (PStr "mp4") (assoc "format" kvs))
                (default PNone (assoc "itag" kvs)) w)
      as (tail & Ht & Hfs & Henv & Hout).
    cbn zeta in Hout.
    set (res := download_valid _ _ _ w) in *.
    split; [right; eauto|].
    destruct Hout as [(e & Hr & _)|(info & fetched & mime & name & _ & _ &
                        [(e & Hr & _)|(Hr & Hfile & _)])].
    + rewrite Hr. cbn. split_and!; done.
    + rewrite Hr. cbn. split_and!; done.
    + rewrite Hr. rewrite <- Hfs in Hfile.
      split_and!.
      * done.
      * intros Hno. by destruct (Hno _ _ _ _ eq_refl).
      * intros path mime' name' cbs [= <- <- <- <-].
        change (close_response _ res.2).2
          with (for_each_M run_callback
                  [Cleanup (final_filename
                              (default (PStr "mp4") (assoc "format" kvs))
                              fetched)] res.2).2.
        cbn [for_each_M run_callback]. unfold bind.
        pose proof (cleanup_file_ok
                      (final_filename
                         (default (PStr "mp4") (assoc "format" kvs)) fetched)
                      res.2) as Hok.
        pose proof (cleanup_file_other
                      (final_filename
                         (default (PStr "mp4") (assoc "format" kvs)) fetched)
                      res.2) as Hoth.
        pose proof (cleanup_file_removes
                      (final_filename
                         (default (PStr "mp4") (assoc "format" kvs)) fetched)
                      res.2) as Hrem.
        destruct (cleanup_file _ res.2) as [rr wr]. cbn in Hok. subst rr.
        cbn [snd ret] in *.
        split_and!; try done.
        intros Hf. rewrite (Hrem Hf). split; [done|].
        intros Hnone ->. by rewrite delete_insert_eq, delete_id.
Qed.

(** C9. For a validated request whose [format] is [mp3], the extractor is
    called once, with [format] set to [bestaudio/best] and the mp3
    post-processor; and whatever [itag] the request carries, the outcome
    (answer and world) is the one of the same request with any other
    [itag]. *)
Theorem mp3_ignores_itag
    (kvs : list (string * pyval)) (s : string) (w : world) :
  assoc "url" kvs = Some (PStr s) →
  strip s ≠ "" →
  is_valid_youtube_url urlparse_netloc (strip s) = true →
  assoc "format" kvs = Some (PStr "mp3") →
  (∃ opts tail,
     trace (download_video (PDict kvs) w).2
       = trace w ++ cookie_logs w ++ EvExtract (PDict opts) (strip s) true :: tail ∧
     filter (λ e, is_extract e = true) tail = [] ∧
     assoc "format" opts = Some (PStr "bestaudio/best") ∧
     assoc "postprocessors" opts
       = Some (PList [PDict [("key", PStr "FFmpegExtractAudio");
                             ("preferredcodec", PStr "mp3");
                             ("preferredquality", PStr "192")]])) ∧
  ∀ itag, download_video (PDict (assoc_set "itag" itag kvs)) w
          = download_video (PDict kvs) w.
Proof.
  intros Hu Hne Hv Hf. split.
  - rewrite (download_video_valid kvs s w); [|by rewrite Hu|done..].
    rewrite Hf. cbn [default from_option id].
    destruct (download_valid_spec (strip s) (PStr "mp3")
                (default PNone (assoc "itag" kvs)) w)
      as (tail & Ht & _ & _ & Hout).
    cbn zeta in Hout.
    unfold download_opts in Ht.
    eexists _, tail. split; [exact Ht|].
    split_and!.
    + destruct Hout as [(e & _ & _ & ->)|(? & ? & ? & ? & _ & _ &
                          [(e & _ & _ & ->)|(_ & _ & ->)])]; reflexivity.
    + by destruct (cookies_in_use w).
    + by destruct (cookies_in_use w).
  - intros itag.
    rewrite (download_video_valid kvs s w); [|by rewrite Hu|done..].
    rewrite (download_video_valid (assoc_set "itag" itag kvs) s w);
      [|by rewrite assoc_set_ne, Hu|done..].
    rewrite (assoc_set_ne "format") by done. rewrite Hf. reflexivity.
Qed.

(** C6. With [COOKIES_FILE] naming a path that does not exist, a
    validated download request goes on to the extractor, whose options
    carry no [cookiefile]; up to that call only INFO and WARNING lines are
    logged, among them, for a non-empty path, the warning that the cookie
    file was not found; and the answer and the directory are those of the
    same request served with [COOKIES_FILE] unset. *)
Theorem missing_cookie_file_proceeds
    (kvs : list (string * pyval)) (s p : string) (w : world) :
  assoc "url" kvs = Some (PStr s) →
  strip s ≠ "" →
  is_valid_youtube_url urlparse_netloc (strip s) = true →
  environ w !! "COOKIES_FILE" = Some p →
  fs w !! p = None →
  let w_unset := World (fs w) (delete "COOKIES_FILE" (environ w)) (trace w) in
  (∃ opts logs tail,
     trace (download_video (PDict kvs) w).2
       = trace w ++ logs ++ EvExtract (PDict opts) (strip s) true :: tail ∧
     assoc "cookiefile" opts = None ∧
     (∀ e, e ∈ logs → ∃ msg, e = EvLog INFO msg ∨ e = EvLog WARNING msg) ∧
     (p ≠ "" →
      EvLog WARNING ("Cookie file not found at " +:+ p
                     +:+ ". YouTube may require login.") ∈ logs)) ∧
  (download_video (PDict kvs) w).1 = (download_video (PDict kvs) w_unset).1 ∧
  fs (download_video (PDict kvs) w).2
    = fs (download_video (PDict kvs) w_unset).2.
Proof.
  intros Hu Hne Hv Henv Hfs w_unset.
  assert (Hnone : cookies_in_use w = None).
  { unfold cookies_in_use, path_exists. rewrite Henv, Hfs.
    by rewrite andb_false_r. }
  assert (Hnone' : cookies_in_use w_unset = None).
  { unfold cookies_in_use, w_unset. cbn. by rewrite lookup_delete_eq. }
  rewrite !(download_video_valid kvs s) by (by rewrite ?Hu).
  set (ft := default (PStr "mp4") (assoc "format" kvs)).
  set (itag := default PNone (assoc "itag" kvs)).
  assert (Hopts : download_opts ft itag w_unset = download_opts ft itag w).
  { unfold download_opts. by rewrite Hnone, Hnone'. }
  split.
  - destruct (download_valid_spec (strip s) ft itag w)
      as (tail & Ht & _ & _ & _).
    unfold download_opts in Ht. rewrite Hnone in Ht.
    eexists _, (cookie_logs w), tail. split; [exact Ht|].
    split_and!.
    + unfold select_format.
      destruct (eq_str ft "mp3"); [done|].
      destruct (truthy itag); reflexivity.
    + unfold cookie_logs, path_exists. rewrite Henv, Hfs.
      intros e He. destruct (String.eqb p "");
        repeat (apply elem_of_cons in He as [->|He]; [by eauto|]);
        by apply elem_of_nil in He.
    + intros Hp. apply String.eqb_neq in Hp.
      unfold cookie_logs, path_exists. rewrite Henv, Hfs, Hp.
      apply elem_of_cons; right. apply elem_of_cons; by left.
  - unfold App.download_valid. rewrite Hopts. cbn [fs w_unset].
    set (opts := download_opts ft itag w).
    destruct (extract_info opts (strip s) true (fs w)) as [[info|e] f];
      [|done].
    destruct (prepare_filename opts info) as [fetched|e]; [|done].
    destruct (rbind (getitem info "title") (slice_to 50)) as [short|e];
      [|done].
    by destruct (open_attachment _ _ _ _ _).
Qed.

(** Where the calls of [send_file] come from. *)
Lemma send_file_events (data : pyval) (w : world) (evs : list event) :
  trace (download_video data w).2 = trace w ++ evs →
  (∀ path mime name,
     EvSendFile path mime name ∈ evs →
     ∃ kvs opts url info fetched,
       data = PDict kvs ∧
       (extract_info opts url true (fs w)).1 = Ok info ∧
       prepare_filename opts info = Ok fetched ∧
       path = if eq_str (default (PStr "mp4") (assoc "format" kvs)) "mp3"
              then (splitext fetched).1 +:+ ".mp3"
              else fetched) ∧
  (∀ path mime name cbs,
     (download_video data w).1 = Attachment path mime name cbs →
     EvSendFile path mime name ∈ evs).
Proof.
  intros Ht.
  destruct (download_video_cases data w)
    as [[e Hr]|[Hr|(kvs & s & -> & Hu & Hne & Hv & Hr)]].
  - rewrite Hr in *. cbn in Ht.
    rewrite <- (app_nil_r (trace w)) in Ht at 1.
    apply app_inv_head in Ht as <-.
    split; [intros ??? Hin; by apply elem_of_nil in Hin|done].
  - rewrite Hr in *. cbn in Ht.
    rewrite <- (app_nil_r (trace w)) in Ht at 1.
    apply app_inv_head in Ht as <-.
    split; [intros ??? Hin; by apply elem_of_nil in Hin|done].
  - rewrite Hr in *.
    set (ft := default (PStr "mp4") (assoc "format" kvs)) in *.
    destruct (download_valid_spec (strip s) ft
                (default PNone (assoc "itag" kvs)) w)
      as (tail & Ht' & _ & _ & Hout).
    rewrite Ht in Ht'. apply app_inv_head in Ht' as ->.
    assert (Hlogs : ∀ path mime name, EvSendFile path mime name ∉ cookie_logs w).
    { intros path mime name Hin. unfold cookie_logs in Hin.
      destruct (environ w !! "COOKIES_FILE") as [p|];
        [destruct (String.eqb p ""); [|destruct (path_exists (fs w) p)]|];
        repeat (apply elem_of_cons in Hin as [?|Hin]; [done|]);
        by apply elem_of_nil in Hin. }
    cbn zeta in Hout.
    destruct Hout as [(e & Hres & _ & ->)|(info & fetched & mime & name & Hex &
                        Hp & [(e & Hres & _ & ->)|(Hres & _ & ->)])].
    + split.
      * intros path mime name Hin.
        apply elem_of_app in Hin as [Hin|Hin]; [by apply Hlogs in Hin|].
        repeat (apply elem_of_cons in Hin as [?|Hin]; [done|]).
        by apply elem_of_nil in Hin.
      * intros ???? E. by rewrite Hres in E.
    + split.
      * intros path mime' name' Hin.
        apply elem_of_app in Hin as [Hin|Hin]; [by apply Hlogs in Hin|].
        apply elem_of_cons in Hin as [?|Hin]; [done|].
        apply elem_of_cons in Hin as [[= -> -> ->]|Hin];
          [by exists kvs; eauto 10|].
        apply elem_of_cons in Hin as [?|Hin]; [done|].
        by apply elem_of_nil in Hin.
      * intros ???? E. by rewrite Hres in E.
    + split.
      * intros path mime' name' Hin.
        apply elem_of_app in Hin as [Hin|Hin]; [by apply Hlogs in Hin|].
        apply elem_of_cons in Hin as [?|Hin]; [done|].
        apply elem_of_cons in Hin as [[= -> -> ->]|Hin];
          [by exists kvs; eauto 10|].
        by apply elem_of_nil in Hin.
      * intros ???? E. rewrite Hres in E. injection E as <- <- <- <-.
        apply elem_of_app; right. apply elem_of_cons; right.
        apply elem_of_cons; by left.
Qed.

(** C4. Every path the handler hands to [send_file] (and so the path of
    the attachment it answers) is the path [prepare_filename] gave for
    what the extractor returned, with [os.path.splitext]'s extension
    replaced by [.mp3] when [format] is [mp3], and unchanged for any other
    format. For a fetched path [root.ext], where [ext] has no dot or slash
    and the last component of [root] has a character other than a dot,
    the [mp3] path is [root.mp3]. *)
Theorem streamed_path (data : pyval) (w : world) (evs : list event) :
  trace (download_video data w).2 = trace w ++ evs →
  (∀ path mime name cbs,
     (download_video data w).1 = Attachment path mime name cbs →
     EvSendFile path mime name ∈ evs) ∧
  ∀ path mime name,
    EvSendFile path mime name ∈ evs →
    ∃ kvs opts url info fetched,
      data = PDict kvs ∧
      (extract_info opts url true (fs w)).1 = Ok info ∧
      prepare_filename opts info = Ok fetched ∧
      let format_type := default (PStr "mp4") (assoc "format" kvs) in
      (eq_str format_type "mp3" = false → path = fetched) ∧
      (eq_str format_type "mp3" = true →
         path = (splitext fetched).1 +:+ ".mp3" ∧
         ∀ a c b ext,
           fetched = (a +:+ String c b) +:+ "." +:+ ext →
           c ≠ "."%char → c ≠ "/"%char → mem_char "/" b = false →
           mem_char "." ext = false → mem_char "/" ext = false →
           path = (a +:+ String c b) +:+ ".mp3").
Proof.
  intros Ht. destruct (send_file_events data w evs Ht) as [Hsend Hatt].
  split; [exact Hatt|].
  intros path mime name Hin.
  destruct (Hsend path mime name Hin)
    as (kvs & opts & url & info & fetched & -> & Hex & Hp & Hpath).
  exists kvs, opts, url, info, fetched. split_and!; try done.
  cbn zeta. destruct (eq_str _ "mp3").
  - split; [done|]. intros _. split; [done|].
    intros a c b ext -> ? ? ? ? ?. rewrite Hpath.
    by rewrite splitext_ext.
  - split; [done|]. done.
Qed.

End Download.

Lemma download_release_example :
  let w := Stub.w0 in
  let data := Stub.request "https://youtu.be/abc123" "mp3" in
  let r := (download_video Stub.netloc Stub.extractor Stub.prepare Stub.root data w).1 in
  let w1 := (download_video Stub.netloc Stub.extractor Stub.prepare Stub.root data w).2 in
  let w2 := (close_response r w1).2 in
  r = Attachment "temp_downloads/abc123.mp3" "audio/mp3" "Lofi beats.mp3"
        [Cleanup "temp_downloads/abc123.mp3"] ∧
  fs w1 !! "temp_downloads/abc123.mp3" = Some (File true) ∧
  fs w2 = fs w.
Proof.
  cbn zeta.
  pose proof (download_release Stub.netloc Stub.extractor Stub.prepare Stub.root
                (Stub.request "https://youtu.be/abc123" "mp3") Stub.w0) as H.
  cbn zeta in H. destruct H as (_ & _ & _ & H).
  split; [reflexivity|].
  destruct (H _ _ _ _ eq_refl) as (_ & _ & _ & Hsucc).
  split; [by vm_compute|].
  apply Hsucc; by vm_compute.
Defined.

(** C1 read to the letter does not hold on the failure path. On a host
    without ffmpeg the native audio file the extractor wrote is still there
    once the 500 response is closed. *)
Lemma leaves_no_file_fails :
  ¬ leaves_no_file Stub.netloc Stub.extractor_no_ffmpeg Stub.prepare Stub.root
      (Stub.request "https://youtu.be/abc123" "mp3") Stub.w0.
Proof.
  intros H. specialize (H "temp_downloads/abc123.m4a" eq_refl).
  by vm_compute in H.
Qed.

Example download_no_ffmpeg_scenario :
  let r := serve (download_video Stub.netloc Stub.extractor_no_ffmpeg Stub.prepare Stub.root)
             (Stub.request "https://youtu.be/abc123" "mp3") Stub.w0 in
  status_of r.1 = 500%nat ∧
  fs Stub.w0 !! "temp_downloads/abc123.m4a" = None ∧
  fs r.2 !! "temp_downloads/abc123.m4a" = Some (File true).
Proof. by vm_compute. Qed.

Lemma streamed_path_witness :
  ∃ evs,
    trace (download_video Stub.netloc Stub.extractor Stub.prepare Stub.root
             (Stub.request "https://youtu.be/abc123" "mp3") Stub.w0).2
      = trace Stub.w0 ++ evs ∧
    EvSendFile "temp_downloads/abc123.mp3" "audio/mp3" "Lofi beats.mp3" ∈ evs.
Proof.
  eexists. split; [vm_compute; reflexivity|].
  eapply (streamed_path Stub.netloc Stub.extractor Stub.prepare Stub.root
            (Stub.request "https://youtu.be/abc123" "mp3") Stub.w0);
    vm_compute; reflexivity.
Defined.

(** Scenario 3: the extractor leaves the audio next to the native
    [abc123.m4a] name; the handler streams [abc123.mp3], and the file is
    gone once the response is closed. *)
Example download_mp3_scenario :
  let r := serve (download_video Stub.netloc Stub.extractor Stub.prepare Stub.root)
             (Stub.request "https://youtu.be/abc123" "mp3") Stub.w0 in
  Stub.prepare PNone (Stub.lofi_info "m4a") = Ok "temp_downloads/abc123.m4a" ∧
  r.1 = Attachment "temp_downloads/abc123.mp3" "audio/mp3" "Lofi beats.mp3"
          [Cleanup "temp_downloads/abc123.mp3"] ∧
  fs r.2 !! "temp_downloads/abc123.mp3" = None ∧
  fs r.2 = fs Stub.w0.
Proof. by vm_compute. Qed.

Lemma missing_cookie_file_proceeds_witness :
  let kvs := [("url", PStr "https://youtu.be/abc123"); ("format", PStr "mp4")] in
  let w := Stub.w_cookies_missing in
  let w_unset := World (fs w) (delete "COOKIES_FILE" (environ w)) (trace w) in
  (download_video Stub.netloc Stub.extractor Stub.prepare Stub.root (PDict kvs) w).1
  = (download_video Stub.netloc Stub.extractor Stub.prepare Stub.root (PDict kvs) w_unset).1
  ∧ status_of
      (download_video Stub.netloc Stub.extractor Stub.prepare Stub.root (PDict kvs) w).1
    = 200%nat.
Proof.
  cbn zeta. split; [|reflexivity].
  apply (missing_cookie_file_proceeds Stub.netloc Stub.extractor Stub.prepare Stub.root
           [("url", PStr "https://youtu.be/abc123"); ("format", PStr "mp4")]
           "https://youtu.be/abc123" "/etc/secrets/cookies.txt"
           Stub.w_cookies_missing).
  - reflexivity.
  - by vm_compute.
  - reflexivity.
  - reflexivity.
  - reflexivity.
Defined.

Lemma mp3_ignores_itag_witness :
  let kvs := [("url", PStr "https://youtu.be/abc123"); ("format", PStr "mp3");
              ("itag", PStr "137")] in
  download_video Stub.netloc Stub.extractor Stub.prepare Stub.root
    (PDict (assoc_set "itag" (PStr "22") kvs)) Stub.w0
  = download_video Stub.netloc Stub.extractor Stub.prepare Stub.root (PDict kvs) Stub.w0.
Proof.
  cbn zeta.
  apply (mp3_ignores_itag Stub.netloc Stub.extractor Stub.prepare Stub.root
           [("url", PStr "https://youtu.be/abc123"); ("format", PStr "mp3");
            ("itag", PStr "137")]
           "https://youtu.be/abc123" Stub.w0).
  - reflexivity.
  - by vm_compute.
  - reflexivity.
  - reflexivity.
Defined.

(** With a video format the [itag], when given, is the format requested. *)
Example itag_used_for_video :
  select_format (PStr "mp4") (PStr "137") base_opts
    = base_opts ++ [("format", PStr "137")] ∧
  select_format (PStr "mp4") PNone base_opts
    = base_opts ++ [("format", PStr default_format)] ∧
  select_format (PStr "mp3") (PStr "137") base_opts = base_opts ++ mp3_opts.
Proof. by vm_compute. Qed.

(** * Further properties of the handlers *)

(** ** The query handlers in staged form *)

Section QueryStages.

Variable urlparse_netloc : string → result string.
Variable extract_info :
  pyval → string → bool → gmap string node → result pyval * gmap string node.

Lemma search_video_stages data w :
  search_video extract_info data w = search_staged extract_info data w.
Proof.
  unfold search_video, search_staged, view.
  destruct data as [| | | | |kvs]; try reflexivity.
  unfold bind at 1, lift at 1, get at 1.
  destruct (default (PStr "") (assoc "query" kvs)) as [| | |q| |];
    try reflexivity.
  unfold bind at 1, lift at 1, strip_method.
  cbn [truthy]. rewrite negb_involutive.
  destruct (String.eqb (strip q) ""); [reflexivity|].
  unfold try_except, bind, ydl_extract_info, lift, ret, log, search_items.
  cbn [fs emit].
  destruct (extract_info _ _ _ _) as [[result|e] f]; [|reflexivity].
  cbn [rbind].
  destruct (get result "entries" (PList [])) as [videos|e]; [|reflexivity].
  cbn [rbind].
  destruct (iter videos) as [items|e]; [|reflexivity].
  cbn [rbind].
  by destruct (format_videos items).
Qed.

Lemma get_video_info_stages data w :
  get_video_info urlparse_netloc extract_info data w
  = info_staged urlparse_netloc extract_info data w.
Proof.
  unfold get_video_info, info_staged, view.
  destruct data as [| | | | |kvs]; try reflexivity.
  unfold bind at 1, lift at 1, get at 1.
  destruct (default (PStr "") (assoc "url" kvs)) as [| | |s| |];
    try reflexivity.
  unfold bind at 1, lift at 1, strip_method.
  cbn [truthy]. rewrite negb_involutive.
  destruct (String.eqb (strip s) "" || _); [reflexivity|].
  unfold try_except, bind, ydl_extract_info, lift, ret, log, info_body.
  cbn [fs emit].
  destruct (extract_info _ _ _ _) as [[info|e] f]; [|reflexivity].
  unfold rbind.
  repeat match goal with
         | |- context [match ?x with Ok _ => _ | Raise _ => _ end] =>
             destruct x; [|reflexivity]
         end.
  reflexivity.
Qed.

End QueryStages.

(** ** What [strip] removes *)

Section Whitespace.

Lemma is_space_ascii c :
  is_space c = true →
  is_ascii_byte c = true ∧ is_space_char (String c "") = true.
Proof.
  destruct c as [[] [] [] [] [] [] [] []]; vm_compute; intros H;
    (discriminate H || (split; reflexivity)).
Qed.

Lemma chars_ascii c r :
  is_ascii_byte c = true → chars (String c r) = String c "" :: chars r.
Proof. intros H. cbn [chars]. rewrite H. by destruct (chars r). Qed.

(** The characters of a text put together give the text back. *)
Lemma unchars_chars s : unchars (chars s) = s.
Proof.
  induction s as [|c s IH]; [done|]. cbn [chars].
  destruct (chars s) as [|g gs]; [by subst|].
  destruct (negb _ && _); cbn in *; by rewrite <- IH.
Qed.

Lemma unchars_app A B : unchars (A ++ B) = unchars A +:+ unchars B.
Proof.
  induction A as [|g A IH]; [done|].
  cbn [app]. unfold unchars in *. cbn [foldr]. by rewrite IH, append_assoc.
Qed.

(** [s[:n]] is a prefix of [s] made of at most [n] characters. *)
Lemma take_chars_prefix n s :
  s = take_chars n s +:+ unchars (drop n (chars s)) ∧
  (length (take n (chars s)) ≤ n)%nat.
Proof.
  unfold take_chars. rewrite <- unchars_app, take_drop, unchars_chars.
  split; [done|]. rewrite length_take. lia.
Qed.

Lemma chars_space_head b :
  all_space b = true →
  match chars b with
  | g :: _ => starts_with_cont g = false
  | [] => True
  end.
Proof.
  destruct b as [|c b]; [done|]. unfold all_space.
  cbn [String.list_ascii_of_string forallb].
  intros [[Hc _]%is_space_ascii _]%andb_true_iff.
  rewrite chars_ascii by done. cbn. unfold is_cont.
  unfold is_ascii_byte in Hc. apply Nat.ltb_lt in Hc.
  apply andb_false_iff. left. apply Nat.leb_gt. lia.
Qed.

Lemma chars_pad a s :
  all_space a = true → chars (a +:+ s) = chars a ++ chars s.
Proof.
  unfold all_space. induction a as [|c a IH]; [done|].
  cbn [String.list_ascii_of_string forallb].
  intros [[Hc _]%is_space_ascii Ha]%andb_true_iff.
  rewrite append_cons, !chars_ascii by done. cbn. by rewrite IH.
Qed.

Lemma chars_app_pad s b :
  all_space b = true → chars (s +:+ b) = chars s ++ chars b.
Proof.
  intros Hb. induction s as [|c s IH]; [done|].
  rewrite append_cons. cbn [chars]. rewrite IH.
  destruct (chars s) as [|g gs]; [|cbn [app]; by destruct (negb _ && _)].
  cbn [app]. pose proof (chars_space_head b Hb) as Hh.
  destruct (chars b) as [|g gs]; [done|].
  by rewrite Hh, andb_false_r.
Qed.

Lemma chars_all_space b :
  all_space b = true → forallb is_space_char (chars b) = true.
Proof.
  unfold all_space. induction b as [|c b IH]; [done|].
  cbn [String.list_ascii_of_string forallb].
  intros [[Hc Hs]%is_space_ascii Hb]%andb_true_iff.
  rewrite chars_ascii by done. cbn [forallb]. by rewrite Hs, IH.
Qed.

Lemma lstrip_chars_all gs :
  forallb is_space_char gs = true → lstrip_chars gs = [].
Proof.
  induction gs as [|g gs IH]; [done|]. cbn [forallb lstrip_chars].
  intros [-> ?]%andb_true_iff. by apply IH.
Qed.

Lemma lstrip_chars_pad A gs :
  forallb is_space_char A = true → lstrip_chars (A ++ gs) = lstrip_chars gs.
Proof.
  induction A as [|g A IH]; [done|]. cbn [forallb lstrip_chars app].
  intros [-> ?]%andb_true_iff. by apply IH.
Qed.

Lemma lstrip_chars_app gs B :
  forallb is_space_char gs = false →
  lstrip_chars (gs ++ B) = lstrip_chars gs ++ B.
Proof.
  induction gs as [|g gs IH]; [done|]. cbn [forallb lstrip_chars app].
  destruct (is_space_char g); [exact IH|done].
Qed.

Lemma rstrip_chars_all B :
  forallb is_space_char B = true → rstrip_chars B = [].
Proof.
  induction B as [|g B IH]; [done|]. cbn [forallb rstrip_chars].
  intros [-> HB]%andb_true_iff. by rewrite (IH HB).
Qed.

Lemma rstrip_chars_pad gs B :
  forallb is_space_char B = true → rstrip_chars (gs ++ B) = rstrip_chars gs.
Proof.
  intros HB. induction gs as [|g gs IH]; [by apply rstrip_chars_all|].
  cbn [rstrip_chars app]. by rewrite IH.
Qed.

(** [strip] gives the empty string on text made of ASCII whitespace. *)
Lemma strip_blank s : all_space s = true → strip s = "".
Proof.
  intros Hs. unfold strip.
  by rewrite (lstrip_chars_all _ (chars_all_space _ Hs)).
Qed.

(** [strip] does not see ASCII whitespace added around the text. *)
Lemma strip_pad a s b :
  all_space a = true → all_space b = true →
  strip (a +:+ s +:+ b) = strip s.
Proof.
  intros Ha Hb. unfold strip.
  rewrite (chars_pad a _ Ha), (chars_app_pad s b Hb).
  rewrite (lstrip_chars_pad _ _ (chars_all_space _ Ha)).
  pose proof (chars_all_space _ Hb) as HB.
  destruct (forallb is_space_char (chars s)) eqn:Es.
  - rewrite (lstrip_chars_all (chars s ++ chars b))
      by (by rewrite forallb_app, Es, HB).
    by rewrite (lstrip_chars_all _ Es).
  - rewrite (lstrip_chars_app _ _ Es). by rewrite rstrip_chars_pad.
Qed.

Lemma chars_nonempty s : Forall (λ g, g ≠ "") (chars s).
Proof.
  induction s as [|c s IH]; [constructor|]. cbn [chars].
  destruct (chars s) as [|g gs]; [by repeat constructor|].
  destruct (negb _ && _).
  - inversion IH; subst. by constructor.
  - by constructor.
Qed.

Lemma lstrip_chars_blank gs :
  forallb is_space_char (lstrip_chars gs) = true →
  forallb is_space_char gs = true.
Proof.
  induction gs as [|g gs IH]; [done|]. cbn [lstrip_chars forallb].
  destruct (is_space_char g) eqn:Eg; [exact IH|].
  cbn [forallb]. by rewrite Eg.
Qed.

Lemma lstrip_chars_nonempty gs :
  Forall (λ g, g ≠ "") gs → Forall (λ g, g ≠ "") (lstrip_chars gs).
Proof.
  induction 1 as [|g gs Hg Hgs IH]; [constructor|]. cbn [lstrip_chars].
  destruct (is_space_char g); [exact IH|by constructor].
Qed.

Lemma rstrip_chars_nil gs :
  Forall (λ g, g ≠ "") gs →
  unchars (rstrip_chars gs) = "" → forallb is_space_char gs = true.
Proof.
  induction 1 as [|g gs Hg Hgs IH]; [done|]. cbn [rstrip_chars forallb].
  destruct (rstrip_chars gs) as [|g' r'] eqn:Er.
  - destruct (is_space_char g); [intros _; by apply IH|].
    unfold unchars. cbn [foldr]. rewrite append_empty_r. done.
  - unfold unchars. cbn [foldr]. by destruct g.
Qed.

(** [strip] gives the empty string exactly on text whose characters are
    all whitespace. *)
Lemma strip_empty_iff s :
  strip s = "" ↔ forallb is_space_char (chars s) = true.
Proof.
  unfold strip. split.
  - intros H. apply lstrip_chars_blank, rstrip_chars_nil; [|done].
    apply lstrip_chars_nonempty, chars_nonempty.
  - intros H. by rewrite (lstrip_chars_all _ H).
Qed.

End Whitespace.

(** Text beyond ASCII: a no-break space and an ideographic space around
    a query are stripped; a title of 60 two-byte characters is cut after
    50 characters, not after 50 bytes. *)
Example strip_beyond_ascii :
  strip (utf8 160 +:+ "lo fi" +:+ utf8 12288 +:+ " ") = "lo fi" ∧
  strip (utf8 160 +:+ utf8 12288) = "" ∧
  take_chars 50 (unchars (replicate 60 (utf8 233)))
    = unchars (replicate 50 (utf8 233)) ∧
  String.length (take_chars 50 (unchars (replicate 60 (utf8 233)))) = 100%nat.
Proof. by vm_compute. Qed.

(** ** Blank and malformed input *)

Section Input.

Variable urlparse_netloc : string → result string.
Variable extract_info :
  pyval → string → bool → gmap string node → result pyval * gmap string node.
Variable prepare_filename : pyval → pyval → result string.
Variable root_path : string.

(** X1. A search whose [query] is missing, empty or made of whitespace only
    is answered 400 [No search query provided]; the world is left as it
    was, so the extractor is not called. *)
Theorem blank_query_rejected
    (kvs : list (string * pyval)) (q : string) (w : world) :
  default (PStr "") (assoc "query" kvs) = PStr q →
  all_space q = true →
  search_video extract_info (PDict kvs) w
  = (Json 400 (error_body "No search query provided"), w).
Proof.
  intros Hq Hs. apply strip_blank in Hs.
  rewrite search_video_stages. unfold search_staged. by rewrite Hq, Hs.
Qed.

(** X23. With a [query] that is a string (or missing), [/search] answers
    400 [No search query provided] exactly when every character of the
    query is whitespace in the sense of [str.isspace], the whitespace
    beyond ASCII included (no-break space, ideographic space, ...); any
    other query reaches the extractor as [ytsearch20:] followed by the
    stripped query. *)
Theorem blank_query_exact
    (kvs : list (string * pyval)) (q : string) (w : world) :
  default (PStr "") (assoc "query" kvs) = PStr q →
  (forallb is_space_char (chars q) = true →
   search_video extract_info (PDict kvs) w
   = (Json 400 (error_body "No search query provided"), w)) ∧
  (forallb is_space_char (chars q) = false →
   strip q ≠ "" ∧
   status_of (search_video extract_info (PDict kvs) w).1 ≠ 400%nat ∧
   ∃ tail,
     trace (search_video extract_info (PDict kvs) w).2
     = trace w
       ++ EvExtract search_opts ("ytsearch20:" +:+ strip q) false :: tail).
Proof.
  intros Hq. rewrite !search_video_stages. unfold search_staged.
  rewrite Hq. split.
  - intros Hb. apply strip_empty_iff in Hb. by rewrite Hb.
  - intros Hb.
    assert (Hne : strip q ≠ "").
    { intros Hs. apply strip_empty_iff in Hs. congruence. }
    split; [done|]. apply String.eqb_neq in Hne. rewrite Hne.
    destruct (extract_info _ _ _ _) as [r f].
    destruct (search_items r); (split; [done|]); eexists; cbn;
      rewrite <- ?app_assoc; reflexivity.
Qed.

(** X2. A request to [/info] or [/download] whose [url] is missing, empty or
    made of whitespace only is answered 400 [Invalid YouTube URL] whatever
    [urlparse] would say; the world is left as it was. *)
Theorem blank_url_rejected
    (kvs : list (string * pyval)) (s : string) (w : world) :
  default (PStr "") (assoc "url" kvs) = PStr s →
  all_space s = true →
  get_video_info urlparse_netloc extract_info (PDict kvs) w
    = (Json 400 (error_body "Invalid YouTube URL"), w) ∧
  download_video urlparse_netloc extract_info prepare_filename root_path (PDict kvs) w
    = (Json 400 (error_body "Invalid YouTube URL"), w).
Proof.
  intros Hu Hs. apply strip_blank in Hs.
  rewrite get_video_info_stages, download_video_stages.
  unfold info_staged, download_staged. by rewrite Hu, Hs.
Qed.

(** X3. The three handlers read their field before the [try]: when the body
    is not an object, or the field is present and not a string, the
    [AttributeError] leaves the view (the framework answers 500) and the
    world is untouched; in every other case no exception leaves the view. *)
Theorem malformed_body_escapes (data : pyval) (w : world) :
  let escapes (k : string) (r : response * world) :=
    match text_field data k with
    | Some _ => ∀ e, r.1 ≠ InternalServerError e
    | None => ∃ e, r = (InternalServerError e, w) ∧ exc_class e = AttributeError
    end in
  escapes "query" (search_video extract_info data w) ∧
  escapes "url" (get_video_info urlparse_netloc extract_info data w) ∧
  escapes "url"
    (download_video urlparse_netloc extract_info prepare_filename root_path data w).
Proof.
  cbn zeta.
  rewrite search_video_stages, get_video_info_stages, download_video_stages.
  unfold search_staged, info_staged, download_staged, text_field.
  destruct data as [| | | | |kvs]; try (split_and!; by eexists).
  split_and!.
  - destruct (default (PStr "") (assoc "query" kvs)) as [| | |q| |];
      try by eexists.
    destruct (String.eqb (strip q) ""); [done|].
    destruct (extract_info _ _ _ _) as [r f].
    by destruct (search_items r).
  - destruct (default (PStr "") (assoc "url" kvs)) as [| | |s| |];
      try by eexists.
    destruct (String.eqb (strip s) "" || _); [done|].
    destruct (extract_info _ _ _ _) as [r f].
    by destruct (info_body r).
  - destruct (default (PStr "") (assoc "url" kvs)) as [| | |s| |];
      try by eexists.
    destruct (String.eqb (strip s) "" || _); [done|].
    unfold download_valid, download_failed.
    destruct (extract_info _ _ _ _) as [[info|e] f]; [|done].
    destruct (prepare_filename _ _); [|done].
    destruct (rbind _ _); [|done].
    destruct (open_attachment _ _ _ _ _) as [r|e] eqn:Eo; [|done].
    by apply open_attachment_Ok in Eo as (-> & _ & _).
Qed.

(** X4. [is_valid_youtube_url] accepts a URL exactly when [urlparse]
    returns a network location that has [youtube.com] or [youtu.be]
    somewhere inside it; a URL on which [urlparse] raises is rejected. *)
Theorem is_valid_youtube_url_iff (url : string) :
  is_valid_youtube_url urlparse_netloc url = true ↔
  ∃ netloc pre post,
    urlparse_netloc url = Ok netloc ∧
    (netloc = pre +:+ "youtube.com" +:+ post ∨
     netloc = pre +:+ "youtu.be" +:+ post).
Proof.
  unfold is_valid_youtube_url.
  destruct (urlparse_netloc url) as [netloc|e].
  - cbn [domains existsb]. rewrite orb_false_r, orb_true_iff, !contains_spec.
    split.
    + intros [(pre & post & ->)|(pre & post & ->)]; eexists _, pre, post; eauto.
    + intros (? & pre & post & E & [Hn | Hn]); injection E as <-; subst; eauto.
  - split; [done|]. by intros (? & ? & ? & ? & _).
Qed.

End Input.

Lemma blank_query_rejected_witness :
  search_video Stub.extractor (PDict [("query", PStr "   ")]) Stub.w0
  = (Json 400 (error_body "No search query provided"), Stub.w0).
Proof.
  apply (blank_query_rejected Stub.extractor [("query", PStr "   ")] "   ");
    reflexivity.
Defined.

Lemma blank_query_exact_witness :
  search_video Stub.extractor
    (PDict [("query", PStr (utf8 160 +:+ " " +:+ utf8 12288))]) Stub.w0
  = (Json 400 (error_body "No search query provided"), Stub.w0).
Proof.
  apply (blank_query_exact Stub.extractor
           [("query", PStr (utf8 160 +:+ " " +:+ utf8 12288))]
           (utf8 160 +:+ " " +:+ utf8 12288) Stub.w0);
    reflexivity.
Defined.

Lemma blank_url_rejected_witness :
  get_video_info Stub.netloc Stub.extractor (PDict []) Stub.w0
    = (Json 400 (error_body "Invalid YouTube URL"), Stub.w0) ∧
  download_video Stub.netloc Stub.extractor Stub.prepare Stub.root (PDict []) Stub.w0
    = (Json 400 (error_body "Invalid YouTube URL"), Stub.w0).
Proof.
  apply (blank_url_rejected Stub.netloc Stub.extractor Stub.prepare Stub.root [] "");
    reflexivity.
Defined.

(** ** How failures are reported *)

Section Failures.

Variable urlparse_netloc : string → result string.
Variable extract_info :
  pyval → string → bool → gmap string node → result pyval * gmap string node.
Variable prepare_filename : pyval → pyval → result string.
Variable root_path : string.

(** X5. A 500 answer of [/info] never carries the text of an exception.
    It is the framework's answer to the [AttributeError] raised while the
    field is read, before the [try] (the body is not an object, or [url]
    is not a string; the world is untouched), or it is the fixed body
    [{"error": "Could not fetch video info"}] of the [except] branch: then
    the extractor was called on the stripped URL, the [try] block raised
    an exception (the extractor's own, or one raised while its answer was
    read), and the text of that exception is the last line logged. *)
Theorem info_withholds_details (data : pyval) (w w' : world) (r : response) :
  get_video_info urlparse_netloc extract_info data w = (r, w') →
  status_of r = 500%nat →
  (∃ e, r = InternalServerError e ∧ exc_class e = AttributeError ∧
        text_field data "url" = None ∧ w' = w) ∨
  (∃ s e,
     text_field data "url" = Some s ∧
     info_body (extract_info info_opts (strip s) false (fs w)).1 = Raise e ∧
     r = Json 500 (PDict [("error", PStr "Could not fetch video info")]) ∧
     trace w' = trace w ++ [EvExtract info_opts (strip s) false;
                            EvLog ERROR ("Info fetch failed: " +:+ exc_str e)]).
Proof.
  rewrite get_video_info_stages. unfold info_staged, text_field.
  destruct data as [| | | | |kvs];
    try (intros [= <- <-] _; left; by eexists).
  destruct (default (PStr "") (assoc "url" kvs)) as [| | |s| |];
    try (intros [= <- <-] _; left; by eexists).
  destruct (String.eqb (strip s) "" || _); [by intros [= <- <-]|].
  destruct (extract_info _ _ _ _) as [x f] eqn:Ex.
  destruct (info_body x) as [b|e] eqn:Eb; [by intros [= <- <-]|].
  intros [= <- <-] _. right. exists s, e. rewrite Ex.
  split_and!; try done.
  cbn. by rewrite <- app_assoc.
Qed.

(** X6. A 500 answer of [/search] or of [/download] is the framework's
    answer to the [AttributeError] raised while the field is read, before
    the [try] (the world is untouched), or it comes from the [except]
    branch: then its [details] field is the text of the exception the
    [try] block raised (the extractor's own, or one raised while its
    answer was put to use: by [prepare_filename], by the look-up of the
    title, by [send_file]), and that same text is the last line logged. *)
Theorem search_and_download_report_details
    (data : pyval) (w w' : world) (r : response) :
  (search_video extract_info data w = (r, w') →
   status_of r = 500%nat →
   (∃ e, r = InternalServerError e ∧ exc_class e = AttributeError ∧
         text_field data "query" = None ∧ w' = w) ∨
   (∃ q e,
      text_field data "query" = Some q ∧
      search_items
        (extract_info search_opts ("ytsearch20:" +:+ strip q) false (fs w)).1
        = Raise e ∧
      r = Json 500 (PDict [("error", PStr "Search failed");
                           ("details", PStr (exc_str e))]) ∧
      last (trace w')
        = Some (EvLog ERROR ("Search failed: " +:+ exc_str e)))) ∧
  (download_video urlparse_netloc extract_info prepare_filename root_path
     data w = (r, w') →
   status_of r = 500%nat →
   (∃ e, r = InternalServerError e ∧ exc_class e = AttributeError ∧
         text_field data "url" = None ∧ w' = w) ∨
   (∃ kvs s e,
      data = PDict kvs ∧ text_field data "url" = Some s ∧
      let format_type := default (PStr "mp4") (assoc "format" kvs) in
      let opts :=
        download_opts format_type (default PNone (assoc "itag" kvs)) w in
      let ex := extract_info opts (strip s) true (fs w) in
      rbind ex.1 (λ info,
        rbind (prepare_filename opts info) (λ fetched,
          rbind (getitem info "title") (λ title,
            rbind (slice_to 50 title) (λ short,
              (send_file root_path (final_filename format_type fetched)
                 (if eq_str format_type "mp3"
                  then "audio/mp3" else "video/mp4")
                 (str short +:+ "." +:+ str format_type)
                 (with_fs ex.2 w)).1))))
        = Raise e ∧
      r = Json 500 (PDict [("error", PStr "Download failed");
                           ("details", PStr (exc_str e))]) ∧
      last (trace w')
        = Some (EvLog ERROR ("Download failed: " +:+ exc_str e)))).
Proof.
  split.
  - rewrite search_video_stages. unfold search_staged, text_field.
    destruct data as [| | | | |kvs];
      try (intros [= <- <-] _; left; by eexists).
    destruct (default (PStr "") (assoc "query" kvs)) as [| | |q| |];
      try (intros [= <- <-] _; left; by eexists).
    destruct (String.eqb (strip q) ""); [by intros [= <- <-]|].
    destruct (extract_info _ _ _ _) as [x f] eqn:Ex.
    destruct (search_items x) as [b|e] eqn:Eb; [by intros [= <- <-]|].
    intros [= <- <-] _. right. exists q, e. rewrite Ex.
    split_and!; try done.
    cbn. apply last_snoc.
  - rewrite download_video_stages. unfold download_staged, text_field.
    destruct data as [| | | | |kvs];
      try (intros [= <- <-] _; left; by eexists).
    destruct (default (PStr "") (assoc "url" kvs)) as [| | |s| |];
      try (intros [= <- <-] _; left; by eexists).
    destruct (String.eqb (strip s) "" || _); [by intros [= <- <-]|].
    unfold download_valid, download_failed, send_file.
    intros H Hst. right. exists kvs, s. cbn zeta.
    destruct (extract_info _ _ _ _) as [[info|e] f]; cbn [fst snd rbind].
    2:{ injection H as <- <-. exists e. split_and!; try done.
        cbn. apply last_snoc. }
    destruct (prepare_filename _ _) as [fetched|e]; cbn [rbind].
    2:{ injection H as <- <-. exists e. split_and!; try done.
        cbn. apply last_snoc. }
    destruct (getitem info "title") as [title|e]; cbn [rbind] in *.
    2:{ injection H as <- <-. exists e. split_and!; try done.
        cbn. apply last_snoc. }
    destruct (slice_to 50 title) as [short|e]; cbn [rbind] in *.
    2:{ injection H as <- <-. exists e. split_and!; try done.
        cbn. apply last_snoc. }
    cbn [fs with_fs fst].
    destruct (open_attachment _ _ _ _ _) as [x|e] eqn:Eo;
      injection H as <- <-.
    { by apply open_attachment_Ok in Eo as (-> & _ & _). }
    exists e. split_and!; try done. cbn. apply last_snoc.
Qed.

(** X7. [/search] and [/info] only read: each calls the extractor at most
    once, with [download=False] and its fixed options, never calls
    [send_file], leaves the environment alone, and leaves the file system
    as it found it or as the extractor left it. *)
Theorem query_handlers_read_only (data : pyval) (w : world) :
  let read_only (opts : pyval) (r : response * world) :=
    environ r.2 = environ w ∧
    ∃ evs,
      trace r.2 = trace w ++ evs ∧
      (length (filter (λ e, is_extract e = true) evs) ≤ 1)%nat ∧
      filter (λ e, is_send_file e = true) evs = [] ∧
      (fs r.2 = fs w ∨
       ∃ target, fs r.2 = (extract_info opts target false (fs w)).2) ∧
      ∀ o target d, EvExtract o target d ∈ evs → o = opts ∧ d = false in
  read_only search_opts (search_video extract_info data w) ∧
  read_only info_opts (get_video_info urlparse_netloc extract_info data w).
Proof.
  assert (Hnil : ∀ o,
    environ w = environ w ∧
    ∃ evs, trace w = trace w ++ evs ∧
      (length (filter (λ e, is_extract e = true) evs) ≤ 1)%nat ∧
      filter (λ e, is_send_file e = true) evs = [] ∧
      (fs w = fs w ∨ ∃ target, fs w = (extract_info o target false (fs w)).2) ∧
      ∀ o' target d, EvExtract o' target d ∈ evs → o' = o ∧ d = false).
  { intros o. split; [done|]. exists []. rewrite app_nil_r.
    split_and!; [done|cbn; lia|done|by left|].
    intros ??? Hin. by apply elem_of_nil in Hin. }
  cbn zeta.
  rewrite search_video_stages, get_video_info_stages.
  unfold search_staged, info_staged.
  destruct data as [| | | | |kvs]; try (split; by apply Hnil).
  split.
  - destruct (default (PStr "") (assoc "query" kvs)) as [| | |q| |];
      try by apply Hnil.
    destruct (String.eqb (strip q) ""); [by apply Hnil|].
    destruct (extract_info search_opts _ false (fs w)) as [r f] eqn:Ex.
    destruct (search_items r) as [b|e]; cbn; (split; [done|]);
      eexists; (split; [try rewrite <- app_assoc; reflexivity|]);
      (split_and!; [compute; lia|done|right; eexists; by rewrite Ex|]);
      intros o t d Hin;
      repeat (apply elem_of_cons in Hin as [Hin|Hin];
              [by (injection Hin as -> -> ->) || done|]);
      by apply elem_of_nil in Hin.
  - destruct (default (PStr "") (assoc "url" kvs)) as [| | |s| |];
      try by apply Hnil.
    destruct (String.eqb (strip s) "" || _); [by apply Hnil|].
    destruct (extract_info info_opts _ false (fs w)) as [r f] eqn:Ex.
    destruct (info_body r) as [b|e]; cbn; (split; [done|]);
      eexists; (split; [try rewrite <- app_assoc; reflexivity|]);
      (split_and!; [compute; lia|done|right; eexists; by rewrite Ex|]);
      intros o t d Hin;
      repeat (apply elem_of_cons in Hin as [Hin|Hin];
              [by (injection Hin as -> -> ->) || done|]);
      by apply elem_of_nil in Hin.
Qed.

End Failures.

Lemma info_withholds_details_witness :
  ∃ r w',
    get_video_info Stub.netloc Stub.extractor_offline
      (Stub.request "https://youtu.be/abc123" "mp4") Stub.w0 = (r, w') ∧
    r = Json 500 (PDict [("error", PStr "Could not fetch video info")]) ∧
    ∃ s e,
      info_body (Stub.extractor_offline info_opts (strip s) false
                   (fs Stub.w0)).1 = Raise e ∧
      trace w' = trace Stub.w0
                 ++ [EvExtract info_opts (strip s) false;
                     EvLog ERROR ("Info fetch failed: " +:+ exc_str e)].
Proof.
  do 2 eexists. split; [vm_compute; reflexivity|].
  split; [reflexivity|].
  destruct (info_withholds_details Stub.netloc Stub.extractor_offline
              (Stub.request "https://youtu.be/abc123" "mp4") Stub.w0 _ _
              eq_refl eq_refl)
    as [(e & [=] & _)|(s & e & _ & Hb & _ & Ht)].
  exists s, e. split; [exact Hb|exact Ht].
Defined.

Lemma search_and_download_report_details_witness :
  ∃ r w',
    search_video Stub.extractor_offline (PDict [("query", PStr "lofi")])
      Stub.w0 = (r, w') ∧
    ∃ q e,
      search_items
        (Stub.extractor_offline search_opts ("ytsearch20:" +:+ strip q) false
           (fs Stub.w0)).1 = Raise e ∧
      r = Json 500 (PDict [("error", PStr "Search failed");
                           ("details", PStr (exc_str e))]) ∧
      last (trace w') = Some (EvLog ERROR ("Search failed: " +:+ exc_str e)).
Proof.
  do 2 eexists. split; [vm_compute; reflexivity|].
  destruct (proj1 (search_and_download_report_details Stub.netloc
                     Stub.extractor_offline Stub.prepare Stub.root
                     (PDict [("query", PStr "lofi")]) Stub.w0 _ _)
              eq_refl eq_refl)
    as [(e & [=] & _)|(q & e & _ & Hb & Hr & Ht)].
  exists q, e. split_and!; [exact Hb|exact Hr|exact Ht].
Defined.

(** ** When [/search] and [/info] go through *)

Section QueryOutcomes.

Variable urlparse_netloc : string → result string.
Variable extract_info :
  pyval → string → bool → gmap string node → result pyval * gmap string node.

(** The loop body of [/search] returns exactly on well-formed entries. *)
Lemma format_video_ok video :
  well_formed_entry video = true ↔ ∃ r, format_video video = Ok r.
Proof.
  unfold well_formed_entry, format_video.
  destruct (truthy video) eqn:Et; cbn [negb orb]; [|split; eauto].
  destruct video as [| | | | |kvs];
    try (split; [done|by intros [? ?]]).
  cbn [get1 get rbind].
  destruct (assoc "thumbnails" kvs) as [ths|]; cbn [default from_option id].
  - destruct ths as [| | |s|ths|d]; cbn [index_last rbind];
      try (split; [done|by intros [? ?]]).
    + destruct (last_char s); cbn [rbind get];
        (split; [done|by intros [? ?]]).
    + destruct (last ths) as [[| | | | |tk]|]; cbn [rbind get];
        try (split; [done|by intros [? ?]]).
      split; [|done]. intros _.
      destruct (truthy (default PNone (assoc "channel" kvs))); cbn; eauto.
  - cbn. split; [|done]. intros _.
    destruct (truthy (default PNone (assoc "channel" kvs))); cbn; eauto.
Qed.

Lemma for_each_all_ok {A B} (f : A → result B) xs :
  (∀ x, x ∈ xs → ∃ y, f x = Ok y) → ∃ ys, for_each f xs = Ok ys.
Proof.
  induction xs as [|x r IH]; intros H; [by eexists|].
  destruct (H x) as [y Hy]; [by left|].
  destruct IH as [ys Hys]; [intros z Hz; apply H; by right|].
  exists (y :: ys). cbn. by rewrite Hy, Hys.
Qed.

(** X8. Given a non-blank query and an extractor that returned a dict whose
    [entries] (an empty list when missing) is a list: [/search] answers 200
    exactly when every entry is well formed (falsy, or a dict whose
    [thumbnails], when present, is a list ending in a dict), and then lists
    as many entries as there are truthy ones; otherwise it answers 500
    [Search failed]. *)
Theorem search_outcome
    (kvs : list (string * pyval)) (q : string) (w : world)
    (result : pyval) (items : list pyval) :
  default (PStr "") (assoc "query" kvs) = PStr q →
  strip q ≠ "" →
  (extract_info search_opts ("ytsearch20:" +:+ strip q) false (fs w)).1
    = Ok result →
  get result "entries" (PList []) = Ok (PList items) →
  if forallb well_formed_entry items
  then ∃ formatted w',
         search_video extract_info (PDict kvs) w
           = (Json 200 (PList formatted), w') ∧
         length formatted = length (filter (λ v, truthy v = true) items)
  else ∃ e w',
         search_video extract_info (PDict kvs) w
           = (Json 500 (error_details "Search failed" e), w').
Proof.
  intros Hq Hne Hex Hent.
  rewrite search_video_stages. unfold search_staged. rewrite Hq.
  apply String.eqb_neq in Hne. rewrite Hne.
  destruct (extract_info _ _ _ _) as [r f]. cbn in Hex. subst r.
  unfold search_items. cbn [rbind]. rewrite Hent. cbn [rbind iter].
  destruct (forallb well_formed_entry items) eqn:Ewf.
  - destruct (for_each_all_ok format_video items) as [rs Hrs].
    { intros v Hv. apply format_video_ok.
      rewrite forallb_forall in Ewf. apply Ewf. by apply list_elem_of_In. }
    assert (Hfv : format_videos items = Ok (omap id rs))
      by (unfold format_videos; by rewrite Hrs).
    rewrite Hfv. do 2 eexists. split; [reflexivity|].
    symmetry. eapply Forall2_length. by apply format_videos_filter.
  - destruct (format_videos items) as [formatted|e] eqn:Ef; [|by eauto].
    exfalso. unfold format_videos in Ef.
    destruct (for_each format_video items) as [rs|] eqn:Hrs; [|done].
    apply for_each_Ok in Hrs.
    assert (forallb well_formed_entry items = true); [|congruence].
    apply forallb_forall. intros v Hv. apply list_elem_of_In in Hv.
    apply format_video_ok.
    destruct (proj1 (list_elem_of_lookup _ _) Hv) as [i Hi].
    destruct (Forall2_lookup_l _ _ _ _ _ Hrs Hi) as (r & _ & Hr). eauto.
Qed.

(** What the loop body of [/search] makes of an entry it keeps. *)
Lemma format_video_shape video e :
  format_video video = Ok (Some e) →
  ∃ kvs,
    video = PDict kvs ∧
    keys e ≡ₚ ["id"; "title"; "url"; "duration"; "thumbnail"; "channel"] ∧
    get1 e "title" = Ok (default PNone (assoc "title" kvs)) ∧
    get1 e "duration" = Ok (default PNone (assoc "duration" kvs)) ∧
    get1 e "channel"
      = Ok (por (default PNone (assoc "channel" kvs))
                (default (PStr "Unknown") (assoc "uploader" kvs))) ∧
    (assoc "thumbnails" kvs = None → get1 e "thumbnail" = Ok (PStr "")) ∧
    (∀ ths tk, assoc "thumbnails" kvs = Some (PList ths) →
               last ths = Some (PDict tk) →
               get1 e "thumbnail" = Ok (default (PStr "") (assoc "url" tk))).
Proof.
  unfold format_video. intros Hfv.
  destruct (truthy video); [|done]. cbn [negb] in Hfv.
  destruct video as [| | | | |kvs]; try done.
  cbn [get1 get rbind] in Hfv. unfold rbind in Hfv.
  destruct (index_last _) as [thumb|] eqn:Eth; [|done].
  destruct (get thumb "url" (PStr "")) as [thumbnail|] eqn:Eu; [|done].
  assert (Hch : (if truthy (default PNone (assoc "channel" kvs))
                 then Ok (default PNone (assoc "channel" kvs))
                 else Ok (default (PStr "Unknown") (assoc "uploader" kvs)))
                = Ok (por (default PNone (assoc "channel" kvs))
                          (default (PStr "Unknown") (assoc "uploader" kvs)))).
  { unfold por. by destruct (truthy _). }
  rewrite Hch in Hfv. injection Hfv as <-.
  exists kvs. split_and!; try done.
  - intros Hnone. rewrite Hnone in Eth. cbn in Eth. injection Eth as <-.
    cbn in Eu. by injection Eu as <-.
  - intros ths tk Hths Hlast. rewrite Hths in Eth. cbn in Eth.
    rewrite Hlast in Eth. injection Eth as <-. cbn in Eu.
    by injection Eu as <-.
Qed.

(** X9. The entries of a 200 answer of [/search] are made, one for one and
    in order, from the truthy entries the extractor yielded for
    [ytsearch20:<stripped query>]. Each has exactly the keys [id], [title],
    [url], [duration], [thumbnail], [channel]; its [title] and [duration]
    are the extractor's ([None] when missing); its [channel] is the
    extractor's [channel] when that is truthy, else its [uploader], else the
    text [Unknown]; its [thumbnail] is the [url] of the last thumbnail, and
    the empty text when the entry has no [thumbnails] or the last thumbnail
    has no [url]. *)
Theorem search_entry_shape (data : pyval) (w w' : world) (body : pyval) :
  search_video extract_info data w = (Json 200 body, w') →
  ∃ q result videos items entries,
    text_field data "query" = Some q ∧
    (extract_info search_opts ("ytsearch20:" +:+ strip q) false (fs w)).1
      = Ok result ∧
    get result "entries" (PList []) = Ok videos ∧
    iter videos = Ok items ∧
    body = PList entries ∧
    Forall2
      (λ video e,
         ∃ kvs,
           video = PDict kvs ∧
           keys e ≡ₚ ["id"; "title"; "url"; "duration"; "thumbnail";
                      "channel"] ∧
           get1 e "title" = Ok (default PNone (assoc "title" kvs)) ∧
           get1 e "duration" = Ok (default PNone (assoc "duration" kvs)) ∧
           get1 e "channel"
             = Ok (por (default PNone (assoc "channel" kvs))
                       (default (PStr "Unknown") (assoc "uploader" kvs))) ∧
           (assoc "thumbnails" kvs = None →
            get1 e "thumbnail" = Ok (PStr "")) ∧
           (∀ ths tk, assoc "thumbnails" kvs = Some (PList ths) →
                      last ths = Some (PDict tk) →
                      get1 e "thumbnail"
                        = Ok (default (PStr "") (assoc "url" tk))))
      (filter (λ v, truthy v = true) items) entries.
Proof.
  rewrite search_video_stages. unfold search_staged, text_field.
  destruct data as [| | | | |dkvs]; try done.
  destruct (default (PStr "") (assoc "query" dkvs)) as [| | |q| |]; try done.
  destruct (String.eqb (strip q) ""); [done|].
  destruct (extract_info _ _ _ _) as [r f] eqn:Ex.
  destruct (search_items r) as [formatted|] eqn:Es; [|done].
  intros [= <- <-].
  unfold search_items in Es.
  destruct r as [result|]; [|done]. cbn [rbind] in Es.
  destruct (get result "entries" (PList [])) as [videos|] eqn:Ev; [|done].
  cbn [rbind] in Es.
  destruct (iter videos) as [items|] eqn:Ei; [|done]. cbn [rbind] in Es.
  exists q, result, videos, items, formatted. rewrite Ex.
  split_and!; try done.
  eapply Forall2_impl; [by apply format_videos_filter|].
  intros video e. apply format_video_shape.
Qed.

End QueryOutcomes.

Section InfoOutcomes.

Variable urlparse_netloc : string → result string.
Variable extract_info :
  pyval → string → bool → gmap string node → result pyval * gmap string node.

Lemma format_format_ok f :
  is_dict f = true ↔ ∃ r, format_format f = Ok r.
Proof.
  unfold format_format, keeps_format, format_entry.
  destruct f as [| | | | |kvs]; try (split; [done|by intros [? ?]]).
  split; [|done]. intros _. cbn [get1 get rbind].
  destruct (truthy (default PNone (assoc "url" kvs))); cbn [rbind]; [|eauto].
  destruct (negb _); [|eauto].
  destruct (truthy (default PNone (assoc "resolution" kvs))); cbn; eauto.
Qed.

Lemma list_formats_ok items :
  forallb is_dict items = true ↔ ∃ formats, list_formats items = Ok formats.
Proof.
  unfold list_formats. split.
  - intros Hall. destruct (for_each_all_ok format_format items) as [rs Hrs].
    { intros f Hf. apply format_format_ok.
      rewrite forallb_forall in Hall. apply Hall. by apply list_elem_of_In. }
    rewrite Hrs. by eexists.
  - intros [formats Hf].
    destruct (for_each format_format items) as [rs|] eqn:Hrs; [|done].
    apply for_each_Ok in Hrs.
    apply forallb_forall. intros f Hin. apply list_elem_of_In in Hin.
    apply format_format_ok.
    destruct (proj1 (list_elem_of_lookup _ _) Hin) as [i Hi].
    destruct (Forall2_lookup_l _ _ _ _ _ Hrs Hi) as (r & _ & Hr). eauto.
Qed.

Lemma info_body_ok info :
  well_formed_info info = true ↔ ∃ body, info_body (Ok info) = Ok body.
Proof.
  unfold well_formed_info, info_body. cbn [rbind].
  destruct info as [| | | | |kvs]; try (split; [done|by intros [? ?]]).
  cbn [get].
  destruct (assoc "formats" kvs) as [fmts|]; cbn [default from_option id rbind].
  - destruct (iter fmts) as [items|]; cbn [rbind];
      [|split; [done|by intros [? ?]]].
    rewrite list_formats_ok.
    destruct (list_formats items) as [formats|]; cbn [rbind get1 get].
    + split; [intros _|by eauto].
      destruct (truthy (default PNone (assoc "channel" kvs))); cbn; eauto.
    + split; [by intros [? ?]|by intros [? ?]].
  - cbn [iter rbind]. split; [intros _|done].
    change (list_formats []) with (Ok (@nil pyval)). cbn [rbind get1 get].
    destruct (truthy (default PNone (assoc "channel" kvs))); cbn; eauto.
Qed.

(** X10. Given a validated URL and an extractor that returned [info]:
    [/info] answers 200 exactly when [info] is a dict whose [formats], when
    present, iterates over dicts only (a missing [formats] counts as the
    empty list); otherwise, for instance when the extractor returned [None]
    or [formats] is [None], it answers 500. *)
Theorem info_outcome
    (kvs : list (string * pyval)) (s : string) (w : world) (info : pyval) :
  default (PStr "") (assoc "url" kvs) = PStr s →
  strip s ≠ "" →
  is_valid_youtube_url urlparse_netloc (strip s) = true →
  (extract_info info_opts (strip s) false (fs w)).1 = Ok info →
  if well_formed_info info
  then ∃ body w',
         get_video_info urlparse_netloc extract_info (PDict kvs) w
           = (Json 200 body, w')
  else ∃ w',
         get_video_info urlparse_netloc extract_info (PDict kvs) w
           = (Json 500 (error_body "Could not fetch video info"), w').
Proof.
  intros Hu Hne Hv Hex.
  rewrite get_video_info_stages. unfold info_staged. rewrite Hu, Hv.
  apply String.eqb_neq in Hne. rewrite Hne. cbn [negb orb].
  destruct (extract_info _ _ _ _) as [r f]. cbn in Hex. subst r.
  destruct (well_formed_info info) eqn:Ewf.
  - apply info_body_ok in Ewf as [body ->]. eauto.
  - destruct (info_body (Ok info)) as [body|e] eqn:Eb; [|eauto].
    assert (well_formed_info info = true) by (apply info_body_ok; eauto).
    congruence.
Qed.

Lemma list_formats_filter items formats :
  list_formats items = Ok formats →
  Forall2 (λ f e, format_entry f = Ok e)
          (filter (λ f, is_kept f = true) items) formats.
Proof.
  unfold list_formats.
  destruct (for_each format_format items) as [rs|] eqn:E; [|done].
  cbn. intros [= <-]. apply for_each_Ok in E.
  induction E as [|f r items rs Hf _ IH]; [constructor|].
  unfold format_format in Hf.
  destruct (keeps_format f) as [[]|] eqn:Ek; cbn [rbind] in Hf; [| |done].
  - destruct (format_entry f) as [e|] eqn:Ee; [|done]. cbn in Hf.
    injection Hf as <-.
    rewrite filter_cons_True by (unfold is_kept; by rewrite Ek).
    cbn. by constructor.
  - injection Hf as <-.
    rewrite filter_cons_False by (unfold is_kept; by rewrite Ek). done.
Qed.

(** X11. The body of a 200 answer of [/info] is made from what the
    extractor returned for the stripped URL. It has exactly the keys [id],
    [title], [url], [duration], [thumbnail], [channel], [formats]; the
    first five are the extractor's [id], [title], [webpage_url], [duration]
    and [thumbnail] ([None] when missing), and [channel] is the extractor's
    [channel] when truthy, else its [uploader], else the empty text. Its
    [formats] are, one for one and in the extractor's order, the entries
    made from the formats the filter keeps. Every such entry has exactly
    the keys [itag], [ext], [resolution], [filesize], [format_note], [url];
    its [filesize] is the reported one when that is truthy and 0 otherwise
    (never [None]); its [resolution] is the reported one when truthy, else
    the [height], else the text [audio]. *)
Theorem info_body_shape (data : pyval) (w w' : world) (body : pyval) :
  get_video_info urlparse_netloc extract_info data w = (Json 200 body, w') →
  ∃ s info ikvs fmts items formats,
    text_field data "url" = Some s ∧
    (extract_info info_opts (strip s) false (fs w)).1 = Ok info ∧
    info = PDict ikvs ∧
    get info "formats" (PList []) = Ok fmts ∧ iter fmts = Ok items ∧
    keys body ≡ₚ ["id"; "title"; "url"; "duration"; "thumbnail"; "channel";
                  "formats"] ∧
    get1 body "id" = Ok (default PNone (assoc "id" ikvs)) ∧
    get1 body "title" = Ok (default PNone (assoc "title" ikvs)) ∧
    get1 body "url" = Ok (default PNone (assoc "webpage_url" ikvs)) ∧
    get1 body "duration" = Ok (default PNone (assoc "duration" ikvs)) ∧
    get1 body "thumbnail" = Ok (default PNone (assoc "thumbnail" ikvs)) ∧
    get1 body "channel"
      = Ok (por (default PNone (assoc "channel" ikvs))
                (default (PStr "") (assoc "uploader" ikvs))) ∧
    get1 body "formats" = Ok (PList formats) ∧
    (length formats ≤ length items)%nat ∧
    Forall2
      (λ f e,
         ∃ fk,
           f = PDict fk ∧
           keys e ≡ₚ ["itag"; "ext"; "resolution"; "filesize"; "format_note";
                      "url"] ∧
           get1 e "itag" = Ok (default PNone (assoc "format_id" fk)) ∧
           get1 e "ext" = Ok (default PNone (assoc "ext" fk)) ∧
           get1 e "filesize"
             = Ok (por (default PNone (assoc "filesize" fk)) (PInt 0)) ∧
           get1 e "resolution"
             = Ok (por (default PNone (assoc "resolution" fk))
                       (default (PStr "audio") (assoc "height" fk))) ∧
           get1 e "format_note"
             = Ok (default (PStr "") (assoc "format_note" fk)) ∧
           get1 e "url" = Ok (default PNone (assoc "url" fk)))
      (filter (λ f, is_kept f = true) items) formats.
Proof.
  rewrite get_video_info_stages. unfold info_staged, text_field.
  destruct data as [| | | | |dkvs]; try done.
  destruct (default (PStr "") (assoc "url" dkvs)) as [| | |s| |]; try done.
  destruct (String.eqb (strip s) "" || _); [done|].
  destruct (extract_info _ _ _ _) as [r f] eqn:Ex.
  destruct (info_body r) as [b|] eqn:Eb; [|done].
  intros [= <- <-].
  unfold info_body in Eb. destruct r as [info|]; [|done]. cbn [rbind] in Eb.
  destruct (get info "formats" (PList [])) as [fmts|] eqn:Ef; [|done].
  cbn [rbind] in Eb.
  destruct (iter fmts) as [items|] eqn:Ei; [|done]. cbn [rbind] in Eb.
  destruct (list_formats items) as [formats|] eqn:El; [|done].
  cbn [rbind] in Eb.
  destruct info as [| | | | |ikvs]; try done.
  cbn [get1 get rbind] in Eb.
  assert (Hch : (if truthy (default PNone (assoc "channel" ikvs))
                 then Ok (default PNone (assoc "channel" ikvs))
                 else Ok (default (PStr "") (assoc "uploader" ikvs)))
                = Ok (por (default PNone (assoc "channel" ikvs))
                          (default (PStr "") (assoc "uploader" ikvs)))).
  { unfold por. by destruct (truthy _). }
  rewrite Hch in Eb. cbn [rbind] in Eb. injection Eb as <-.
  exists s, (PDict ikvs), ikvs, fmts, items, formats. rewrite Ex.
  pose proof (list_formats_filter _ _ El) as HF.
  split_and!; try done.
  - rewrite <- (Forall2_length _ _ _ HF). apply length_filter.
  - eapply Forall2_impl; [exact HF|]. intros fm e He. cbn beta in He.
    unfold format_entry in He.
    destruct fm as [| | | | |fk]; try done. exists fk.
    cbn [get1 get rbind] in He.
    assert (Hres : (if truthy (default PNone (assoc "resolution" fk))
                    then Ok (default PNone (assoc "resolution" fk))
                    else Ok (default (PStr "audio") (assoc "height" fk)))
                   = Ok (por (default PNone (assoc "resolution" fk))
                             (default (PStr "audio") (assoc "height" fk)))).
    { unfold por.
      destruct (truthy (default PNone (assoc "resolution" fk))); reflexivity. }
    rewrite Hres in He. cbn [rbind] in He. injection He as <-.
    split_and!; reflexivity.
Qed.

End InfoOutcomes.

Lemma search_outcome_witness :
  ∃ formatted w',
    search_video Stub.extractor (PDict [("query", PStr "lofi")]) Stub.w0
      = (Json 200 (PList formatted), w') ∧
    length formatted
      = length (filter (λ v, truthy v = true) Stub.three_entries).
Proof.
  apply (search_outcome Stub.extractor [("query", PStr "lofi")] "lofi" Stub.w0
           (PDict [("entries", PList Stub.three_entries)]) Stub.three_entries);
    by vm_compute.
Defined.

Lemma search_entry_shape_witness :
  ∃ body w',
    search_video Stub.extractor (PDict [("query", PStr "lofi")]) Stub.w0
      = (Json 200 body, w') ∧
    ∃ q result videos items entries,
      (Stub.extractor search_opts ("ytsearch20:" +:+ strip q) false
         (fs Stub.w0)).1 = Ok result ∧
      get result "entries" (PList []) = Ok videos ∧
      iter videos = Ok items ∧
      body = PList entries ∧
      length (filter (λ v, truthy v = true) items) = length entries.
Proof.
  do 2 eexists. split; [vm_compute; reflexivity|].
  destruct (search_entry_shape Stub.extractor
              (PDict [("query", PStr "lofi")]) Stub.w0 _ _ eq_refl)
    as (q & result & videos & items & entries & _ & Hex & Hv & Hi & Hb & HF).
  exists q, result, videos, items, entries.
  split_and!; [exact Hex|exact Hv|exact Hi|exact Hb|].
  exact (Forall2_length _ _ _ HF).
Defined.

Lemma info_outcome_witness :
  ∃ body w',
    get_video_info Stub.netloc Stub.extractor
      (PDict [("url", PStr "https://youtu.be/abc123")]) Stub.w0
    = (Json 200 body, w').
Proof.
  apply (info_outcome Stub.netloc Stub.extractor
           [("url", PStr "https://youtu.be/abc123")] "https://youtu.be/abc123"
           Stub.w0 (Stub.lofi_info "mp4")); by vm_compute.
Defined.

Lemma info_body_shape_witness :
  ∃ body w',
    get_video_info Stub.netloc Stub.extractor
      (PDict [("url", PStr "https://youtu.be/abc123")]) Stub.w0
    = (Json 200 body, w') ∧
    get1 body "channel" = Ok (PStr "Lofi Channel") ∧
    keys body ≡ₚ ["id"; "title"; "url"; "duration"; "thumbnail"; "channel";
                  "formats"].
Proof.
  do 2 eexists. split; [vm_compute; reflexivity|].
  destruct (info_body_shape Stub.netloc Stub.extractor
              (PDict [("url", PStr "https://youtu.be/abc123")]) Stub.w0 _ _
              eq_refl)
    as (s & info & ikvs & fmts & items & formats & _ & _ & _ & _ & _ &
        Hk & _).
  split; [reflexivity|exact Hk].
Defined.

(** ** More on [/download] *)

Section DownloadMore.

Variable urlparse_netloc : string → result string.
Variable extract_info :
  pyval → string → bool → gmap string node → result pyval * gmap string node.
Variable prepare_filename : pyval → pyval → result string.
Variable root_path : string.

Abbreviation download_video' :=
  (App.download_video urlparse_netloc extract_info prepare_filename root_path).

Lemma download_tail_no_extract url ft itag w tail :
  trace (download_valid extract_info prepare_filename root_path url ft itag w).2
    = trace w ++ cookie_logs w
      ++ EvExtract (download_opts ft itag w) url true :: tail →
  filter (λ e, is_extract e = true) tail = [] ∧
  (length (filter (λ e, is_send_file e = true) tail) ≤ 1)%nat.
Proof.
  intros Ht.
  destruct (download_valid_spec extract_info prepare_filename root_path url ft itag w)
    as (tail' & Ht' & _ & _ & Hout).
  rewrite Ht in Ht'. apply app_inv_head, app_inv_head in Ht'.
  injection Ht' as ->. cbn zeta in Hout.
  destruct Hout as [(e & _ & _ & ->)|(? & ? & ? & ? & _ & _ &
                      [(e & _ & _ & ->)|(_ & _ & ->)])];
    split; try reflexivity; compute; lia.
Qed.

(** X12. A validated download request calls the extractor once, with
    [download=True] and the stripped URL. The options always carry the
    output template [temp_downloads/%(id)s.%(ext)s], [quiet] and
    [noplaylist]; when the format is not [mp3] there is no post-processor,
    and the requested format is the [itag] when one is given (truthy) and
    the default video selector otherwise. *)
Theorem download_options
    (kvs : list (string * pyval)) (s : string) (w : world) :
  default (PStr "") (assoc "url" kvs) = PStr s →
  strip s ≠ "" →
  is_valid_youtube_url urlparse_netloc (strip s) = true →
  ∃ opts logs tail,
    trace (download_video' (PDict kvs) w).2
      = trace w ++ logs ++ EvExtract (PDict opts) (strip s) true :: tail ∧
    forallb is_log logs = true ∧
    filter (λ e, is_extract e = true) tail = [] ∧
    assoc "outtmpl" opts = Some (PStr "temp_downloads/%(id)s.%(ext)s") ∧
    assoc "quiet" opts = Some (PBool true) ∧
    assoc "noplaylist" opts = Some (PBool true) ∧
    let format_type := default (PStr "mp4") (assoc "format" kvs) in
    let itag := default PNone (assoc "itag" kvs) in
    (eq_str format_type "mp3" = false →
     assoc "postprocessors" opts = None ∧
     assoc "format" opts
       = Some (if truthy itag then itag else PStr default_format)).
Proof.
  intros Hu Hne Hv.
  rewrite (download_video_valid urlparse_netloc extract_info prepare_filename root_path
             kvs s w Hu Hne Hv).
  set (ft := default (PStr "mp4") (assoc "format" kvs)).
  set (itag := default PNone (assoc "itag" kvs)).
  destruct (download_valid_spec extract_info prepare_filename root_path (strip s)
              ft itag w) as (tail & Ht & _ & _ & _).
  pose proof (download_tail_no_extract _ _ _ _ _ Ht) as [Hne' _].
  unfold download_opts in Ht.
  eexists _, (cookie_logs w), tail. split; [exact Ht|].
  assert (Hlogs : forallb is_log (cookie_logs w) = true).
  { unfold cookie_logs. destruct (environ w !! "COOKIES_FILE") as [p|];
      [destruct (String.eqb p ""); [|destruct (path_exists (fs w) p)]|];
      reflexivity. }
  split; [exact Hlogs|]. split; [exact Hne'|].
  unfold select_format.
  destruct (cookies_in_use w) as [p|];
    (destruct (eq_str ft "mp3"); [by split_and!|]);
    (destruct (truthy itag); by split_and!).
Qed.

(** X13. The options of a validated download carry [cookiefile] exactly when
    [COOKIES_FILE] is set, not empty, and names an existing path; the value
    is then that path. *)
Theorem cookiefile_option
    (kvs : list (string * pyval)) (s : string) (w : world) :
  default (PStr "") (assoc "url" kvs) = PStr s →
  strip s ≠ "" →
  is_valid_youtube_url urlparse_netloc (strip s) = true →
  ∃ opts logs tail,
    trace (download_video' (PDict kvs) w).2
      = trace w ++ logs ++ EvExtract (PDict opts) (strip s) true :: tail ∧
    forallb is_log logs = true ∧
    assoc "cookiefile" opts
      = match environ w !! "COOKIES_FILE" with
        | Some p =>
            if negb (String.eqb p "") && path_exists (fs w) p
            then Some (PStr p) else None
        | None => None
        end.
Proof.
  intros Hu Hne Hv.
  rewrite (download_video_valid urlparse_netloc extract_info prepare_filename root_path
             kvs s w Hu Hne Hv).
  set (ft := default (PStr "mp4") (assoc "format" kvs)).
  set (itag := default PNone (assoc "itag" kvs)).
  destruct (download_valid_spec extract_info prepare_filename root_path (strip s)
              ft itag w) as (tail & Ht & _ & _ & _).
  unfold download_opts in Ht.
  eexists _, (cookie_logs w), tail. split; [exact Ht|].
  split.
  { unfold cookie_logs. destruct (environ w !! "COOKIES_FILE") as [p|];
      [destruct (String.eqb p ""); [|destruct (path_exists (fs w) p)]|];
      reflexivity. }
  unfold cookies_in_use, select_format.
  destruct (environ w !! "COOKIES_FILE") as [p|];
    [destruct (negb (String.eqb p "") && path_exists (fs w) p)|];
    (destruct (eq_str ft "mp3"); [reflexivity|]);
    destruct (truthy itag); reflexivity.
Qed.

(** X14. When [/download] answers with the attachment, its media type is
    [audio/mp3] for the format [mp3] and [video/mp4] for every other
    format, and its download name is made of the first 50 characters of
    the title the extractor returned (characters, not bytes; the whole
    title when it is shorter), a dot, and the requested format. *)
Theorem attachment_headers
    (data : pyval) (w w' : world) (path mime name : string)
    (cbs : list callback) :
  download_video' data w = (Attachment path mime name cbs, w') →
  ∃ kvs s info title short,
    data = PDict kvs ∧ text_field data "url" = Some s ∧
    let format_type := default (PStr "mp4") (assoc "format" kvs) in
    let opts :=
      download_opts format_type (default PNone (assoc "itag" kvs)) w in
    (extract_info opts (strip s) true (fs w)).1 = Ok info ∧
    getitem info "title" = Ok title ∧
    slice_to 50 title = Ok short ∧
    mime = (if eq_str format_type "mp3" then "audio/mp3" else "video/mp4") ∧
    name = str short +:+ "." +:+ str format_type ∧
    has_line_break name = false ∧
    ∀ t, title = PStr t →
         name = unchars (take 50 (chars t)) +:+ "." +:+ str format_type ∧
         t = unchars (take 50 (chars t)) +:+ unchars (drop 50 (chars t)) ∧
         (length (take 50 (chars t)) ≤ 50)%nat.
Proof.
  rewrite download_video_stages. unfold download_staged, text_field.
  destruct data as [| | | | |kvs]; try done.
  destruct (default (PStr "") (assoc "url" kvs)) as [| | |s| |]; try done.
  destruct (String.eqb (strip s) "" || _); [done|].
  unfold download_valid, download_failed.
  destruct (extract_info _ _ _ _) as [[info|e] f] eqn:Ex; [|done].
  destruct (prepare_filename _ _) as [fetched|e]; [|done].
  destruct (getitem info "title") as [title|e] eqn:Et; [|done].
  cbn [rbind].
  destruct (slice_to 50 title) as [short|e] eqn:Es; [|done].
  destruct (open_attachment _ _ _ _ _) as [x|e] eqn:Eo; [|done].
  apply open_attachment_Ok in Eo as (-> & _ & Hbr).
  intros [= <- <- <- <- <-].
  exists kvs, s, info, title, short. cbn zeta. rewrite Ex.
  split_and!; try done.
  intros t ->. cbn in Es. injection Es as <-.
  destruct (take_chars_prefix 50 t) as [Hpre Hlen]. by split_and!.
Qed.

(** X15. When the extractor's [info] has no [title], a validated download is
    answered 500 with the details ['title'] although the file was fetched:
    [send_file] is never called, no clean-up is registered, and once the
    response is closed the file system is still as the extractor left
    it. *)
Theorem download_without_title
    (kvs : list (string * pyval)) (s : string) (w : world)
    (ikvs : list (string * pyval)) (f : gmap string node) (fetched : string) :
  default (PStr "") (assoc "url" kvs) = PStr s →
  strip s ≠ "" →
  is_valid_youtube_url urlparse_netloc (strip s) = true →
  let opts := download_opts (default (PStr "mp4") (assoc "format" kvs))
                (default PNone (assoc "itag" kvs)) w in
  extract_info opts (strip s) true (fs w) = (Ok (PDict ikvs), f) →
  prepare_filename opts (PDict ikvs) = Ok fetched →
  assoc "title" ikvs = None →
  ∃ w',
    serve download_video' (PDict kvs) w
      = (Json 500 (PDict [("error", PStr "Download failed");
                          ("details", PStr "'title'")]), w') ∧
    fs w' = f ∧
    ∃ evs, trace w' = trace w ++ evs ∧
           filter (λ e, is_send_file e = true) evs = [].
Proof.
  intros Hu Hne Hv opts Hex Hp Ht.
  unfold serve.
  rewrite (download_video_valid urlparse_netloc extract_info prepare_filename root_path
             kvs s w Hu Hne Hv).
  unfold download_valid, download_failed. fold opts. rewrite Hex, Hp.
  cbn [getitem rbind]. rewrite Ht. cbn [rbind close_response ret snd].
  eexists. split; [reflexivity|]. split; [reflexivity|].
  cbn [trace emit with_fs]. rewrite emit_all_trace.
  eexists. split; [rewrite <- !app_assoc; reflexivity|].
  rewrite !filter_app.
  assert (Hl : filter (λ e, is_send_file e = true) (cookie_logs w) = []).
  { unfold cookie_logs. destruct (environ w !! "COOKIES_FILE") as [p|];
      [destruct (String.eqb p ""); [|destruct (path_exists (fs w) p)]|];
      reflexivity. }
  by rewrite Hl.
Qed.


(** X24. A header cannot carry a line break. When the download name (the
    first 50 characters of the title, a dot, the requested format) has a
    line feed or a carriage return, and the path computed for streaming is
    there, [send_file] raises [ValueError] while it makes the
    [Content-Disposition] header: a validated download is answered 500 with
    that error's text, no clean-up is registered, and the fetched file
    stays. *)
Theorem download_name_line_break
    (kvs : list (string * pyval)) (s : string) (w : world)
    (info short : pyval) (f : gmap string node) (fetched : string) :
  default (PStr "") (assoc "url" kvs) = PStr s →
  strip s ≠ "" →
  is_valid_youtube_url urlparse_netloc (strip s) = true →
  let format_type := default (PStr "mp4") (assoc "format" kvs) in
  let opts := download_opts format_type (default PNone (assoc "itag" kvs)) w in
  let filename := final_filename format_type fetched in
  let mimetype := if eq_str format_type "mp3"
                  then "audio/mp3" else "video/mp4" in
  let download_name := str short +:+ "." +:+ str format_type in
  extract_info opts (strip s) true (fs w) = (Ok info, f) →
  prepare_filename opts info = Ok fetched →
  rbind (getitem info "title") (slice_to 50) = Ok short →
  path_exists f filename = true →
  has_line_break download_name = true →
  ∃ e w',
    open_attachment root_path f filename mimetype download_name = Raise e ∧
    exc_class e = ValueError ∧
    serve download_video' (PDict kvs) w
      = (Json 500 (error_details "Download failed" e), w') ∧
    fs w' = f.
Proof.
  intros Hu Hne Hv ft opts filename mimetype download_name Hex Hp Ht Hf Hbr.
  unfold serve.
  rewrite (download_video_valid urlparse_netloc extract_info prepare_filename
             root_path kvs s w Hu Hne Hv).
  unfold download_valid, download_failed. fold ft. fold opts.
  rewrite Hex, Hp, Ht. fold filename. fold mimetype. fold download_name.
  unfold open_attachment. unfold path_exists in Hf. rewrite Hbr.
  destruct (f !! filename) as [[| |]|]; try done;
    cbn [close_response ret snd]; do 2 eexists; split_and!; reflexivity.
Qed.

End DownloadMore.

Lemma download_options_witness :
  ∃ opts logs tail,
    trace (download_video Stub.netloc Stub.extractor Stub.prepare Stub.root
             (PDict [("url", PStr "https://youtu.be/abc123");
                     ("itag", PStr "137")]) Stub.w0).2
      = trace Stub.w0 ++ logs
        ++ EvExtract (PDict opts) "https://youtu.be/abc123" true :: tail ∧
    assoc "format" opts = Some (PStr "137").
Proof.
  destruct (download_options Stub.netloc Stub.extractor Stub.prepare Stub.root
              [("url", PStr "https://youtu.be/abc123"); ("itag", PStr "137")]
              "https://youtu.be/abc123" Stub.w0)
    as (opts & logs & tail & Ht & _ & _ & _ & _ & _ & Hf);
    [reflexivity|by vm_compute|reflexivity|].
  exists opts, logs, tail. split; [exact Ht|].
  apply Hf. reflexivity.
Defined.

Lemma cookiefile_option_witness :
  ∃ opts logs tail,
    trace (download_video Stub.netloc Stub.extractor Stub.prepare Stub.root
             (PDict [("url", PStr "https://youtu.be/abc123")])
             (World Stub.stray_dir {[ "COOKIES_FILE" := "cookies.txt" ]} [])).2
      = logs ++ EvExtract (PDict opts) "https://youtu.be/abc123" true :: tail ∧
    assoc "cookiefile" opts = Some (PStr "cookies.txt").
Proof.
  destruct (cookiefile_option Stub.netloc Stub.extractor Stub.prepare Stub.root
              [("url", PStr "https://youtu.be/abc123")]
              "https://youtu.be/abc123"
              (World Stub.stray_dir {[ "COOKIES_FILE" := "cookies.txt" ]} []))
    as (opts & logs & tail & Ht & _ & Hc);
    [reflexivity|by vm_compute|reflexivity|].
  exists opts, logs, tail. split; [exact Ht|]. exact Hc.
Defined.

Lemma attachment_headers_witness :
  ∃ w',
    download_video Stub.netloc Stub.extractor Stub.prepare Stub.root
      (Stub.request "https://youtu.be/abc123" "webm") Stub.w0
    = (Attachment "temp_downloads/abc123.mp4" "video/mp4" "Lofi beats.webm"
         [Cleanup "temp_downloads/abc123.mp4"], w') ∧
    "video/mp4" = (if eq_str (PStr "webm") "mp3" then "audio/mp3" else "video/mp4").
Proof.
  eexists. split; [vm_compute; reflexivity|].
  destruct (attachment_headers Stub.netloc Stub.extractor Stub.prepare
              Stub.root
              (Stub.request "https://youtu.be/abc123" "webm") Stub.w0
              _ _ _ _ _ eq_refl)
    as (kvs & s & info & title & short & Hd & _ & _ & _ & _ & Hm & _).
  injection Hd as <-. exact Hm.
Defined.

Lemma download_without_title_witness :
  ∃ w',
    serve (download_video Stub.netloc Stub.extractor_untitled Stub.prepare Stub.root)
      (PDict [("url", PStr "https://youtu.be/abc123")]) Stub.w0
    = (Json 500 (PDict [("error", PStr "Download failed");
                        ("details", PStr "'title'")]), w') ∧
    fs w' = <["temp_downloads/abc123.mp4" := File true]> (fs Stub.w0) ∧
    ∃ evs, trace w' = trace Stub.w0 ++ evs ∧
           filter (λ e, is_send_file e = true) evs = [].
Proof.
  apply (download_without_title Stub.netloc Stub.extractor_untitled
           Stub.prepare Stub.root [("url", PStr "https://youtu.be/abc123")]
           "https://youtu.be/abc123" Stub.w0
           [("id", PStr "abc123"); ("ext", PStr "mp4")]
           (<["temp_downloads/abc123.mp4" := File true]> (fs Stub.w0))
           "temp_downloads/abc123.mp4");
    [reflexivity|by vm_compute|vm_compute; reflexivity..].
Defined.


Lemma download_name_line_break_witness :
  ∃ e w',
    exc_class e = ValueError ∧
    serve (download_video Stub.netloc Stub.extractor Stub.prepare Stub.root)
      (Stub.request "https://youtu.be/abc123" (String "010" "mp4")) Stub.w0
    = (Json 500 (error_details "Download failed" e), w') ∧
    fs w' = <["temp_downloads/abc123.mp4" := File true]> (fs Stub.w0).
Proof.
  destruct (download_name_line_break Stub.netloc Stub.extractor
              Stub.prepare Stub.root
              [("url", PStr "https://youtu.be/abc123");
               ("format", PStr (String "010" "mp4"))]
              "https://youtu.be/abc123" Stub.w0
              (Stub.lofi_info "mp4") (PStr "Lofi beats")
              (<["temp_downloads/abc123.mp4" := File true]> (fs Stub.w0))
              "temp_downloads/abc123.mp4")
    as (e & w' & _ & Hc & Hr & Hf);
    [reflexivity|by vm_compute|vm_compute; reflexivity..|].
  exists e, w'. split_and!; [exact Hc|exact Hr|exact Hf].
Defined.

(** ** The streamed name *)

Section StreamedName.

Lemma take_drop_str n s : take_str n s +:+ drop_str n s = s.
Proof.
  revert s. induction n as [|n IH]; intros [|c s]; try reflexivity.
  cbn [take_str drop_str]. rewrite append_cons. by rewrite IH.
Qed.

Lemma rfind_None_iff c s : rfind c s = None ↔ mem_char c s = false.
Proof.
  induction s as [|d s IH]; [done|]. cbn [rfind mem_char].
  rewrite orb_false_iff, <- IH.
  destruct (rfind c s); [split; [done|by intros [_ ?]]|].
  destruct (Ascii.eqb c d); split; try done. by intros [? _].
Qed.

Lemma rfind_drop c s i :
  rfind c s = Some i →
  ∃ rest, drop_str i s = String c rest ∧ mem_char c rest = false.
Proof.
  revert i. induction s as [|d s IH]; intros i; [done|]. cbn [rfind].
  destruct (rfind c s) as [j|] eqn:E.
  - intros [= <-]. cbn [drop_str]. by apply IH.
  - destruct (Ascii.eqb_spec c d) as [->|]; [|done].
    intros [= <-]. exists s. split; [done|]. by apply rfind_None_iff.
Qed.

Lemma mem_drop_rfind c s i :
  mem_char c (drop_str i s) = true → ∃ j, rfind c s = Some j ∧ (i ≤ j)%nat.
Proof.
  revert i. induction s as [|d s IH]; intros i.
  - by destruct i.
  - destruct i as [|i].
    + cbn [drop_str]. intros Hm.
      destruct (rfind c (String d s)) as [j|] eqn:E.
      * exists j. split; [done|lia].
      * apply rfind_None_iff in E. congruence.
    + cbn [drop_str]. intros Hm.
      destruct (IH i Hm) as (j & Hj & Hle).
      exists (S j). cbn [rfind]. rewrite Hj. split; [done|lia].
Qed.

(** [os.path.splitext] cuts the path in two; the extension is empty or
    starts with the last dot and has no slash. *)
Lemma splitext_spec p :
  (splitext p).1 +:+ (splitext p).2 = p ∧
  mem_char "/" (splitext p).2 = false ∧
  ((splitext p).2 = "" ∨
   ∃ rest, (splitext p).2 = String "."%char rest ∧ mem_char "." rest = false).
Proof.
  unfold splitext.
  destruct (rfind "." p) as [i|] eqn:Ed;
    [|split_and!; [apply append_empty_r|done|by left]].
  destruct (_ && _) eqn:Ec; [|split_and!; [apply append_empty_r|done|by left]].
  cbn [fst snd]. apply andb_true_iff in Ec as [Hle _].
  apply Nat.leb_le in Hle.
  destruct (rfind_drop _ _ _ Ed) as (rest & Hrest & Hno).
  split_and!.
  - apply take_drop_str.
  - destruct (mem_char "/" (drop_str i p)) eqn:Hm; [|done].
    apply mem_drop_rfind in Hm as (j & Hj & Hij).
    rewrite Hj in Hle. lia.
  - right. eauto.
Qed.

Lemma take_str_add n m s :
  take_str (n + m) s = take_str n s +:+ take_str m (drop_str n s).
Proof.
  revert s. induction n as [|n IH]; intros s; [by destruct s|].
  destruct s as [|c s]; [by destruct m|].
  cbn [Nat.add take_str drop_str]. by rewrite IH, append_cons.
Qed.

Lemma existsb_split (P : ascii → bool) s :
  existsb P (String.list_ascii_of_string s) = true →
  ∃ u c v, s = u +:+ String c v ∧ P c = true.
Proof.
  induction s as [|d s IH]; [done|].
  cbn [String.list_ascii_of_string existsb].
  intros [Hd|Hs]%orb_true_iff.
  - by exists "", d, s.
  - destruct (IH Hs) as (u & c & v & -> & Hc).
    by exists (String d u), c, v.
Qed.

Lemma mem_char_app c s t :
  mem_char c (s +:+ t) = mem_char c s || mem_char c t.
Proof.
  induction s as [|d s IH]; [done|].
  rewrite append_cons. cbn [mem_char]. by rewrite IH, orb_assoc.
Qed.

Lemma mem_char_take c n s :
  mem_char c s = false → mem_char c (take_str n s) = false.
Proof.
  intros H. rewrite <- (take_drop_str n s), mem_char_app in H.
  by apply orb_false_iff in H as [? _].
Qed.

Lemma drop_str_succ i s c r :
  drop_str i s = String c r → drop_str (S i) s = r.
Proof.
  revert s. induction i as [|i IH]; intros s.
  - cbn. by intros ->.
  - destruct s as [|d s]; [done|]. cbn [drop_str]. intros H.
    specialize (IH _ H). by destruct s.
Qed.

(** Nothing after the last slash is a slash. *)
Lemma no_slash_after p :
  mem_char "/"
    (drop_str (match rfind "/" p with Some i => S i | None => 0%nat end) p)
  = false.
Proof.
  destruct (rfind "/" p) as [i|] eqn:E.
  - destruct (rfind_drop _ _ _ E) as (rest & Hd & Hno).
    by rewrite (drop_str_succ _ _ _ _ Hd).
  - by apply rfind_None_iff in E.
Qed.

(** [os.path.splitext] finds an extension only in a path whose last
    component has a character other than a dot before its last dot. *)
Lemma splitext_has_ext p :
  (splitext p).2 ≠ "" →
  ∃ a c b ext,
    p = (a +:+ String c b) +:+ "." +:+ ext ∧
    c ≠ "."%char ∧ c ≠ "/"%char ∧ mem_char "/" b = false ∧
    mem_char "." ext = false ∧ mem_char "/" ext = false.
Proof.
  pose proof (no_slash_after p) as Hns. revert Hns.
  unfold splitext.
  set (fi := match rfind "/" p with Some i => S i | None => 0%nat end).
  intros Hns.
  destruct (rfind "." p) as [di|] eqn:Ed; [|done].
  destruct (_ && _) eqn:Ec; [|done]. intros _.
  apply andb_true_iff in Ec as [Hle Hseg]. apply Nat.leb_le in Hle.
  destruct (rfind_drop _ _ _ Ed) as (ext & Hext & Hnodot).
  apply existsb_split in Hseg as (u & c & v & Hseg & Hc).
  assert (Hroot : take_str di p = (take_str fi p +:+ u) +:+ String c v).
  { replace di with (fi + (di - fi))%nat at 1 by lia.
    by rewrite take_str_add, Hseg, append_assoc. }
  pose proof (mem_char_take "/" (di - fi) _ Hns) as Hsl.
  rewrite Hseg, mem_char_app in Hsl.
  apply orb_false_iff in Hsl as [_ Hsl]. cbn [mem_char] in Hsl.
  apply orb_false_iff in Hsl as [Hcs Hv].
  exists (take_str fi p +:+ u), c, v, ext. split_and!.
  - rewrite <- Hroot. change ("." +:+ ext) with (String "."%char ext).
    rewrite <- Hext. symmetry. apply take_drop_str.
  - intros ->. done.
  - intros ->. done.
  - done.
  - done.
  - assert (Hd : mem_char "/" (drop_str di p) = false).
    { destruct (mem_char "/" (drop_str di p)) eqn:Hm; [|done].
      apply mem_drop_rfind in Hm as (j & Hj & Hij).
      unfold fi in Hle. rewrite Hj in Hle. lia. }
    rewrite Hext in Hd. cbn [mem_char] in Hd.
    by apply orb_false_iff in Hd as [_ ?].
Qed.

(** X17. The path that is streamed is the fetched path for every format
    other than [mp3]. For [mp3] there are two cases, and no other. Either
    the fetched path has an extension (it is [root.ext], where [ext] has no
    dot or slash and the last component of [root] has a character other
    than a dot), and the streamed path is [root.mp3]; or it has none (its
    last component has no dot, or only dots before its last dot), and the
    streamed path is the fetched path followed by [.mp3]. *)
Theorem final_filename_shape (format_type : pyval) (fetched : string) :
  (eq_str format_type "mp3" = false →
   final_filename format_type fetched = fetched) ∧
  (eq_str format_type "mp3" = true →
   (∃ a c b ext,
      fetched = (a +:+ String c b) +:+ "." +:+ ext ∧
      c ≠ "."%char ∧ c ≠ "/"%char ∧ mem_char "/" b = false ∧
      mem_char "." ext = false ∧ mem_char "/" ext = false ∧
      final_filename format_type fetched = (a +:+ String c b) +:+ ".mp3")
   ∨
   ((∀ a c b ext,
       fetched = (a +:+ String c b) +:+ "." +:+ ext →
       c ≠ "."%char → c ≠ "/"%char → mem_char "/" b = false →
       mem_char "." ext = false → mem_char "/" ext = false → False) ∧
    final_filename format_type fetched = fetched +:+ ".mp3")).
Proof.
  unfold final_filename. split; intros ->; [done|].
  destruct (String.eqb_spec (splitext fetched).2 "") as [Hnone|Hsome].
  - right. split.
    + intros a c b ext -> ? ? ? ? ?.
      rewrite splitext_ext in Hnone by done. done.
    + destruct (splitext_spec fetched) as (Hcat & _ & _).
      rewrite Hnone, append_empty_r in Hcat. by rewrite Hcat.
  - left. destruct (splitext_has_ext _ Hsome)
      as (a & c & b & ext & -> & ? & ? & ? & ? & ?).
    exists a, c, b, ext. split_and!; try done.
    by rewrite splitext_ext.
Qed.

End StreamedName.

Lemma final_filename_shape_witness :
  final_filename (PStr "mp4") "temp_downloads/abc123.mp4"
    = "temp_downloads/abc123.mp4" ∧
  final_filename (PStr "mp3") "temp_downloads/a.b/abc123.tar.m4a"
    = "temp_downloads/a.b/abc123.tar.mp3" ∧
  final_filename (PStr "mp3") "temp_downloads/a.b/.abc123"
    = "temp_downloads/a.b/.abc123.mp3".
Proof.
  split; [|split].
  - apply (final_filename_shape (PStr "mp4") "temp_downloads/abc123.mp4").
    reflexivity.
  - destruct (proj2 (final_filename_shape (PStr "mp3")
                       "temp_downloads/a.b/abc123.tar.m4a") eq_refl)
      as [(a & c & b & ext & _)|[_ H]]; reflexivity.
  - destruct (proj2 (final_filename_shape (PStr "mp3")
                       "temp_downloads/a.b/.abc123") eq_refl)
      as [(a & c & b & ext & _)|[_ H]]; reflexivity.
Defined.

(** ** Sweeping again, starting up, closing responses *)

Section Lifecycle.

Variable int_of_str : string → result Z.

Lemma sweep_spec (w : world) :
  fs w !! DOWNLOADS_DIR = Some Dir →
  ∃ names w1 logs,
    listdir (fs w) DOWNLOADS_DIR = Ok names ∧
    sweep w = (Ok (), w1) ∧
    environ w1 = environ w ∧
    trace w1 = trace w ++ logs ∧ forallb is_log logs = true ∧
    (∀ p, fs w1 !! p = fs w !! p ∨
          (p ∈ map (path_join DOWNLOADS_DIR) names ∧ fs w1 !! p = None)) ∧
    (∀ p nd, p ∈ map (path_join DOWNLOADS_DIR) names → fs w !! p = Some nd →
       if decide (nd = File true) then fs w1 !! p = None
       else fs w1 !! p = Some nd).
Proof.
  intros Hdir.
  destruct (listdir (fs w) DOWNLOADS_DIR) as [names|e] eqn:Hls;
    [|by unfold listdir in Hls; rewrite Hdir in Hls].
  destruct (cleanup_all_spec (map (path_join DOWNLOADS_DIR) names) w)
    as (w1 & logs & Hrun & Henv & Ht & Hl & Hfs & Hin & _).
  exists names, w1, logs. split_and!; try done.
  - unfold sweep, bind at 1, os_listdir. rewrite Hls.
    rewrite for_each_M_map. exact Hrun.
  - intros p nd Hp Hnd. specialize (Hin p nd Hp Hnd).
    case_decide; [by subst nd|].
    destruct nd as [[]| |]; try done; by destruct Hin.
Qed.

Lemma swept_path (f : gmap string node) names p :
  listdir f DOWNLOADS_DIR = Ok names →
  p ∈ map (path_join DOWNLOADS_DIR) names ↔
  (∃ name, entry_name DOWNLOADS_DIR p = Some name) ∧ is_Some (f !! p).
Proof.
  intros Hls. split.
  - intros Hp. apply list_elem_of_fmap in Hp as (name & -> & Hname).
    apply (listdir_spec _ _ _ _ Hls) in Hname as (? & ? & ?).
    rewrite path_join_entry by done. split; [|done].
    exists name. by apply entry_name_Some.
  - intros [[name Hn] Hsome]. apply entry_name_Some in Hn as (-> & ? & ?).
    rewrite <- path_join_entry by done. apply list_elem_of_fmap_2.
    by apply (listdir_spec _ _ _ _ Hls).
Qed.

(** X18. Sweeping is idempotent on the file system: a second sweep right
    after the first removes nothing more (it only logs again what it cannot
    delete). On a directory without entries the sweep changes nothing at
    all: no file is touched and no line is logged. *)
Theorem sweep_idempotent (w : world) :
  fs w !! DOWNLOADS_DIR = Some Dir →
  ∃ w1 w2,
    sweep w = (Ok (), w1) ∧ sweep w1 = (Ok (), w2) ∧ fs w2 = fs w1 ∧
    ((∀ p name, entry_name DOWNLOADS_DIR p = Some name → fs w !! p = None) →
     w1 = w).
Proof.
  intros Hdir.
  destruct (sweep_spec w Hdir)
    as (names & w1 & logs & Hls & Hsw & _ & _ & _ & Hfs & Hin).
  assert (Hdir1 : fs w1 !! DOWNLOADS_DIR = Some Dir).
  { destruct (Hfs DOWNLOADS_DIR) as [->|[Hp _]]; [done|].
    apply (swept_path _ _ _ Hls) in Hp as [[name Hn] _]. by vm_compute in Hn. }
  destruct (sweep_spec w1 Hdir1)
    as (names2 & w2 & logs2 & Hls2 & Hsw2 & _ & _ & _ & Hfs2 & Hin2).
  exists w1, w2. split_and!; try done.
  - apply map_eq. intros p.
    destruct (Hfs2 p) as [|[Hp2 Hnone]]; [done|]. exfalso.
    pose proof Hp2 as Hp2'.
    apply (swept_path _ _ _ Hls2) in Hp2' as [Hentry [nd Hnd]].
    specialize (Hin2 p nd Hp2 Hnd).
    destruct (Hfs p) as [Hsame|[_ Hgone]]; [|congruence].
    assert (Hp1 : p ∈ map (path_join DOWNLOADS_DIR) names).
    { apply (swept_path _ _ _ Hls). split; [done|]. rewrite <- Hsame. eauto. }
    rewrite Hsame in Hnd. specialize (Hin p nd Hp1 Hnd).
    case_decide; congruence.
  - intros Hempty.
    assert (names = []) as ->.
    { apply elem_of_nil_inv. intros name Hname.
      apply (listdir_spec _ _ _ _ Hls) in Hname as (? & ? & [nd Hnd]).
      rewrite (Hempty _ name) in Hnd; [done|]. by apply entry_name_Some. }
    unfold sweep, bind, os_listdir in Hsw. rewrite Hls in Hsw.
    cbn in Hsw. by injection Hsw as <-.
Qed.


Lemma close_response_cleanup_all r w :
  close_response r w = cleanup_all (map callback_path (callbacks r)) w.
Proof.
  unfold close_response, cleanup_all, callbacks.
  destruct r as [| ? ? ? cbs | |]; try reflexivity.
  revert w. induction cbs as [|[f] cbs IH]; intros w; [done|].
  cbn [map for_each_M run_callback callback_path]. unfold bind.
  destruct (cleanup_file f w) as [[|] wa]; [apply IH|done].
Qed.

(** X20. Closing a response never raises and never changes the environment;
    the only paths it can remove are those a clean-up was registered for,
    and every other path keeps what it had. *)
Theorem close_response_safe (r : response) (w : world) :
  (close_response r w).1 = Ok () ∧
  environ (close_response r w).2 = environ w ∧
  ∀ p, fs (close_response r w).2 !! p = fs w !! p ∨
       (Cleanup p ∈ callbacks r ∧ fs (close_response r w).2 !! p = None).
Proof.
  rewrite close_response_cleanup_all.
  destruct (cleanup_all_spec (map callback_path (callbacks r)) w)
    as (w1 & logs & -> & Henv & _ & _ & Hfs & _ & _).
  split_and!; try done.
  intros p. destruct (Hfs p) as [|[Hp Hnone]]; [by left|right].
  split; [|done].
  apply list_elem_of_fmap in Hp as ([f] & -> & Hcb). exact Hcb.
Qed.

End Lifecycle.

Lemma sweep_idempotent_witness :
  ∃ w1 w2,
    sweep Stub.w_stray = (Ok (), w1) ∧ sweep w1 = (Ok (), w2) ∧
    fs w2 = fs w1 ∧
    fs w1 !! "temp_downloads/held.part" = Some (File false).
Proof.
  destruct (sweep_idempotent Stub.w_stray) as (w1 & w2 & H1 & H2 & H3 & _);
    [vm_compute; reflexivity|].
  exists w1, w2.
  split; [exact H1|]. split; [exact H2|]. split; [exact H3|].
  vm_compute in H1. injection H1 as <-. vm_compute. reflexivity.
Defined.

(** ** Surrounding whitespace *)

Section Padding.

Variable urlparse_netloc : string → result string.
Variable extract_info :
  pyval → string → bool → gmap string node → result pyval * gmap string node.
Variable prepare_filename : pyval → pyval → result string.
Variable root_path : string.

Lemma assoc_set_eq k v kvs : assoc k (assoc_set k v kvs) = Some v.
Proof.
  induction kvs as [|[key x] r IH]; cbn; [by rewrite String.eqb_refl|].
  destruct (String.eqb_spec k key) as [->|Hk]; cbn.
  - by rewrite String.eqb_refl.
  - apply String.eqb_neq in Hk. by rewrite Hk.
Qed.

(** X21. Whitespace around the [query] of a search, or around the [url] of
    an [/info] or [/download] request, makes no difference: the answer and
    the world are those of the request with the bare text. *)
Theorem padding_ignored
    (kvs : list (string * pyval)) (a s b : string) (w : world) :
  all_space a = true → all_space b = true →
  search_video extract_info
    (PDict (assoc_set "query" (PStr (a +:+ s +:+ b)) kvs)) w
  = search_video extract_info (PDict (assoc_set "query" (PStr s) kvs)) w ∧
  get_video_info urlparse_netloc extract_info
    (PDict (assoc_set "url" (PStr (a +:+ s +:+ b)) kvs)) w
  = get_video_info urlparse_netloc extract_info
      (PDict (assoc_set "url" (PStr s) kvs)) w ∧
  download_video urlparse_netloc extract_info prepare_filename root_path
    (PDict (assoc_set "url" (PStr (a +:+ s +:+ b)) kvs)) w
  = download_video urlparse_netloc extract_info prepare_filename root_path
      (PDict (assoc_set "url" (PStr s) kvs)) w.
Proof.
  intros Ha Hb.
  rewrite !search_video_stages, !get_video_info_stages, !download_video_stages.
  unfold search_staged, info_staged, download_staged.
  rewrite !assoc_set_eq. cbn [default from_option id].
  rewrite !(strip_pad a s b Ha Hb).
  rewrite !(assoc_set_ne "format") by done.
  rewrite !(assoc_set_ne "itag") by done.
  done.
Qed.

End Padding.

Lemma padding_ignored_witness :
  search_video Stub.extractor
    (PDict (assoc_set "query" (PStr ("  " +:+ "lofi" +:+ " ")) [])) Stub.w0
  = search_video Stub.extractor
      (PDict (assoc_set "query" (PStr "lofi") [])) Stub.w0.
Proof.
  apply (padding_ignored Stub.netloc Stub.extractor Stub.prepare Stub.root
           [] "  " "lofi" " " Stub.w0); reflexivity.
Defined.

(** ** The order of the sweep *)

Section SweepOrder.

Lemma cleanup_all_lookup paths w p :
  fs (cleanup_all paths w).2 !! p
  = match fs w !! p with
    | Some (File true) => if decide (p ∈ paths) then None else Some (File true)
    | o => o
    end.
Proof.
  destruct (cleanup_all_spec paths w)
    as (w1 & logs & -> & _ & _ & _ & Hfs & Hin & _).
  cbn [snd]. destruct (decide (p ∈ paths)) as [Hp|Hp].
  - destruct (fs w !! p) as [nd|] eqn:E.
    + specialize (Hin p nd Hp E).
      destruct nd as [[]| |]; try done; by destruct Hin as [-> _].
    + destruct (Hfs p) as [?|[_ ?]]; congruence.
  - destruct (Hfs p) as [->|[? _]]; [|done].
    by destruct (fs w !! p) as [[[]| |]|].
Qed.

(** X22. The file system a sweep leaves depends only on which paths were
    swept, not on the order in which [os.listdir] gave them nor on
    repetitions. *)
Theorem sweep_order_irrelevant (paths paths' : list string) (w : world) :
  (∀ p, p ∈ paths ↔ p ∈ paths') →
  fs (cleanup_all paths w).2 = fs (cleanup_all paths' w).2.
Proof.
  intros Hsame. apply map_eq. intros p. rewrite !cleanup_all_lookup.
  destruct (fs w !! p) as [[[]| |]|]; try done.
  destruct (decide (p ∈ paths)) as [H|H], (decide (p ∈ paths')) as [H'|H'];
    try done; [by apply Hsame in H|by apply Hsame in H'].
Qed.

End SweepOrder.

Lemma sweep_order_irrelevant_witness :
  fs (cleanup_all ["temp_downloads/old.mp4"; "temp_downloads/held.part"]
        Stub.w_stray).2
  = fs (cleanup_all ["temp_downloads/held.part"; "temp_downloads/old.mp4";
                     "temp_downloads/held.part"] Stub.w_stray).2.
Proof.
  apply (sweep_order_irrelevant
           ["temp_downloads/old.mp4"; "temp_downloads/held.part"]
           ["temp_downloads/held.part"; "temp_downloads/old.mp4";
            "temp_downloads/held.part"] Stub.w_stray).
  intros p. rewrite !elem_of_cons, !elem_of_nil. tauto.
Defined.
